(** * MIRA backend: intent resolution, task dispatch and the clarification
    protocol

  A shallow embedding of the Python backend
  ([backend/app.py], [backend/agents/intent_classifier.py],
  [backend/agents/task_router.py], [backend/extractors/youtube_extractor.py],
  [backend/utils/llm_client.py] and the modules of [backend/tasks])
  together with the properties its specification states about it.

  Conventions of the embedding.
  - A Python [str] is a [string]: one [ascii] cell stands for one character
    (code points below 256). Fixed texts of the source that contain other
    glyphs keep them as written.
  - Python values that cross module boundaries as dictionaries (model
    replies, classification results, task results, response bodies) are
    terms of [value]; a [dict] keeps its insertion order.
  - A Python [float] is a [pyfloat]: a rational number stands for a finite
    float, and the infinities and NaN are values of their own. The
    conversion of an [int] is computed (the nearest double, or an
    [OverflowError]); rounding, products and formatting of floats belong to
    the environment.
  - A [JSONResponse] is rendered when it is built: a body that holds an
    infinity or NaN raises.
  - [raise] / [try ... except] are modelled by the [result] type; every
    exception of the model is an instance of Python's [Exception] class.
  - Hosted services and library routines (the language model transport,
    [json.loads], OCR and transcription, the handlers' task modules) are the
    fields of an environment record [Env]; one environment describes how
    they answer during one request. *)

From Stdlib Require Import ZArith QArith Ascii String List Lia Bool.
From stdpp Require Import base option list strings gmap pretty.

Set Warnings "-register-all".

Local Open Scope Z_scope.

(* ===================================================================== *)
(** ** Python strings *)
(* ===================================================================== *)

Module Str.

Definition code (c : ascii) : N := N_of_ascii c.

(** [str.isspace] on one character (and the regex class [\s] on [str]
    patterns): TAB..CR, FS..US, SPACE, NEL, NBSP. *)
Definition isspace (c : ascii) : bool :=
  let n := code c in
  ((9 <=? n) && (n <=? 13) || (28 <=? n) && (n <=? 32)
   || (n =? 133) || (n =? 160))%N.

(** [str.lower] on one character: A-Z and the Latin-1 capitals. *)
Definition lower_char (c : ascii) : ascii :=
  let n := code c in
  if ((65 <=? n) && (n <=? 90)
      || (192 <=? n) && (n <=? 222) && negb (n =? 215))%N
  then ascii_of_N (n + 32) else c.

Fixpoint lower (s : string) : string :=
  match s with
  | EmptyString => EmptyString
  | String c s' => String (lower_char c) (lower s')
  end.

(** [len(s)] *)
Definition len (s : string) : Z := Z.of_nat (String.length s).

(** [s[:n]] for a non-negative constant [n] *)
Fixpoint take (n : nat) (s : string) : string :=
  match n, s with
  | O, _ => EmptyString
  | _, EmptyString => EmptyString
  | S n', String c s' => String c (take n' s')
  end.

(** [s.lstrip()] *)
Fixpoint lstrip (s : string) : string :=
  match s with
  | EmptyString => EmptyString
  | String c s' => if isspace c then lstrip s' else s
  end.

(** [s.rstrip()]: a character is dropped when it is white space and all
    that follows it has been dropped. *)
Fixpoint rstrip (s : string) : string :=
  match s with
  | EmptyString => EmptyString
  | String c s' =>
      match rstrip s' with
      | EmptyString => if isspace c then EmptyString else String c EmptyString
      | t => String c t
      end
  end.

(** [s.strip()] *)
Definition strip (s : string) : string := rstrip (lstrip s).

(** [s.startswith(p)] *)
Fixpoint startswith (p s : string) : bool :=
  match p, s with
  | EmptyString, _ => true
  | String a p', String b s' => if Ascii.eqb a b then startswith p' s' else false
  | String _ _, EmptyString => false
  end.

(** [p in s] *)
Fixpoint contains (p s : string) : bool :=
  startswith p s ||
  match s with
  | EmptyString => false
  | String _ s' => contains p s'
  end.

(** [s.endswith(p)] *)
Definition endswith (p s : string) : bool :=
  let n := String.length s in
  let k := String.length p in
  (k <=? n)%nat && String.eqb (String.substring (n - k) k s) p.

(** [s.endswith((p1, ..., pn))] *)
Definition endswith_any (ps : list string) (s : string) : bool :=
  existsb (fun p => endswith p s) ps.

(** [len(s.split())]: the number of maximal runs of non-space characters. *)
Fixpoint count_words (inword : bool) (s : string) : Z :=
  match s with
  | EmptyString => 0
  | String c s' =>
      if isspace c then count_words false s'
      else (if inword then 0 else 1) + count_words true s'
  end.

(** truth value of a [str] *)
Definition truthy (s : string) : bool :=
  match s with EmptyString => false | _ => true end.

(** the double quote character, for texts that contain it *)
Definition dq : string := String (ascii_of_nat 34) EmptyString.

End Str.

(* ===================================================================== *)
(** ** Python values, exceptions *)
(* ===================================================================== *)

Module Py.

(** A [float]: a finite number, for which a rational stands, an infinity or
    NaN. [json.loads] and [float] return the last two for "1e999",
    "Infinity" or "NaN". *)
Inductive pyfloat : Type :=
| Finite (q : Q)
| Infinity (negative : bool)
| NaN.

Bind Scope Q_scope with pyfloat.
Coercion Finite : Q >-> pyfloat.

Inductive value : Type :=
| VNone
| VBool (b : bool)
| VInt (n : Z)
| VFloat (x : pyfloat)
| VStr (s : string)
| VList (l : list value)
| VDict (d : list (string * value)).

Definition dict := list (string * value).

(** Exceptions raised in the modelled code; all are subclasses of
    [Exception]. [OtherError cls msg] stands for an exception of a
    library class [cls]. *)
Inductive exn : Type :=
| HTTPException (status_code : Z) (detail : string)
| JSONDecodeError (msg : string)
| LLMClientError (msg : string)
| TypeError (msg : string)
| ValueError (msg : string)
| AttributeError (msg : string)
| KeyError (key : string)
| OtherError (cls msg : string).

(** [str(e)] *)
Definition exn_str (e : exn) : string :=
  match e with
  | HTTPException c d => pretty c +:+ ": " +:+ d
  | JSONDecodeError m | LLMClientError m | TypeError m | ValueError m
  | AttributeError m | OtherError _ m => m
  | KeyError k => "'" +:+ k +:+ "'"
  end.

Inductive result (A : Type) : Type :=
| Ok (a : A)
| Raise (e : exn).
Arguments Ok {A} a.
Arguments Raise {A} e.

Definition bind {A B} (r : result A) (k : A -> result B) : result B :=
  match r with
  | Ok a => k a
  | Raise e => Raise e
  end.

(** [try: body  except Exception as e: handler(e)] *)
Definition try_except {A} (body : result A) (handler : exn -> result A)
  : result A :=
  match body with
  | Ok a => Ok a
  | Raise e => handler e
  end.

(** truth value of a Python object, as [bool(v)] and [if v:] compute it *)
Definition truthy (v : value) : bool :=
  match v with
  | VNone => false
  | VBool b => b
  | VInt n => negb (n =? 0)
  | VFloat (Finite q) => negb (Qeq_bool q 0)
  | VFloat _ => true
  | VStr s => Str.truthy s
  | VList l => match l with [] => false | _ => true end
  | VDict d => match d with [] => false | _ => true end
  end.

(** lookup in a dictionary literal *)
Fixpoint dict_lookup (d : dict) (k : string) : option value :=
  match d with
  | [] => None
  | (k', v) :: d' => if String.eqb k' k then Some v else dict_lookup d' k
  end.

(** [d[k] = v]: replaces the value of an existing key in place, appends a
    new key at the end. *)
Fixpoint dict_set (d : dict) (k : string) (v : value) : dict :=
  match d with
  | [] => [(k, v)]
  | (k', v') :: d' =>
      if String.eqb k' k then (k', v) :: d' else (k', v') :: dict_set d' k v
  end.

Definition keys (d : dict) : list string := map fst d.

(** [type(o).__name__] *)
Definition type_name (o : value) : string :=
  match o with
  | VNone => "NoneType"
  | VBool _ => "bool"
  | VInt _ => "int"
  | VFloat _ => "float"
  | VStr _ => "str"
  | VList _ => "list"
  | VDict _ => "dict"
  end.

(** [o.get(k, default)]: only dictionaries have the method. *)
Definition get (o : value) (k : string) (default : value) : result value :=
  match o with
  | VDict d => Ok (from_option id default (dict_lookup d k))
  | _ => Raise (AttributeError
                  ("'" +:+ type_name o +:+ "' object has no attribute 'get'"))
  end.

(** [o[k]] for a string key *)
Definition getitem (o : value) (k : string) : result value :=
  match o with
  | VDict d =>
      match dict_lookup d k with
      | Some v => Ok v
      | None => Raise (KeyError k)
      end
  | VList _ => Raise (TypeError "list indices must be integers or slices, not str")
  | VStr _ => Raise (TypeError "string indices must be integers, not 'str'")
  | _ => Raise (TypeError ("'" +:+ type_name o +:+ "' object is not subscriptable"))
  end.

(** [o[k] = v] for a string key *)
Definition setitem (o : value) (k : string) (v : value) : result value :=
  match o with
  | VDict d => Ok (VDict (dict_set d k v))
  | VList _ => Raise (TypeError "list indices must be integers or slices, not str")
  | _ => Raise (TypeError
                  ("'" +:+ type_name o +:+ "' object does not support item assignment"))
  end.

(** Can the object be a dictionary key? Lists and dictionaries cannot. *)
Definition hashable (v : value) : bool :=
  match v with
  | VList _ | VDict _ => false
  | _ => true
  end.

Definition vstr_list (l : list string) : value := VList (map VStr l).

End Py.

Export Py.

Declare Scope py_scope.
Delimit Scope py_scope with py.
Notation "x <- c1 ;; c2" := (Py.bind c1 (fun x => c2))
  (at level 100, c1 at next level, right associativity) : py_scope.

(* ===================================================================== *)
(** ** Floats and JSON rendering *)
(* ===================================================================== *)

Module Float.

(** The double nearest to the integer [n], ties to even, as an integer:
    beyond 53 bits the low bits are rounded away. *)
Definition round_int (n : Z) : Z :=
  let m := Z.abs n in
  let e := Z.log2 m - 52 in
  if e <=? 0 then n
  else
    let q := Z.shiftr m e in
    let r := m - Z.shiftl q e in
    let half := Z.shiftl 1 (e - 1) in
    let q' := if (half <? r) || ((r =? half) && Z.odd q) then q + 1 else q in
    Z.sgn n * Z.shiftl q' e.

(** [float(n)] for an [int]: [None] when Python raises [OverflowError] *)
Definition of_int (n : Z) : option Q :=
  let r := round_int n in
  if Z.abs r <? 2 ^ 1024 then Some (inject_Z r) else None.

(** the [OverflowError] of [float(n)] *)
Definition overflow : exn :=
  OtherError "OverflowError" "int too large to convert to float".

Definition is_finite (x : pyfloat) : bool :=
  match x with
  | Finite _ => true
  | _ => false
  end.

End Float.

Module Json.

(** [json.dumps(v, allow_nan=False)] accepts the value: no float in it is
    an infinity or NaN. The keys of the dictionaries are strings. *)
Fixpoint compliant (v : value) : bool :=
  match v with
  | VFloat x => Float.is_finite x
  | VList l => forallb compliant l
  | VDict d => forallb (fun kv => compliant (snd kv)) d
  | _ => true
  end.

(** the [ValueError] of [json.dumps(v, allow_nan=False)] otherwise *)
Definition out_of_range : exn :=
  ValueError "Out of range float values are not JSON compliant".

End Json.

(* ===================================================================== *)
(** ** Regular expressions, as [re.search] runs them *)
(* ===================================================================== *)

Module Re.

(** one item of a bracketed character set *)
Inductive set_item : Type :=
| ISpace                (* \s *)
| IChar (c : ascii).    (* a literal character *)

(** patterns that consume exactly one character *)
Inductive charpat : Type :=
| CLit (c : ascii)                  (* c, \. , \? *)
| CNotIn (items : list set_item).   (* [^...] *)

Inductive regex : Type :=
| Eps
| Chr (cp : charpat)
| Seq (r1 r2 : regex)
| Alt (r1 r2 : regex)               (* r1|r2, r1 tried first *)
| Opt (r : regex)                   (* r?, greedy *)
| Plus (cp : charpat)               (* cp+, greedy *)
| Group (n : nat) (r : regex).      (* the n-th parenthesis *)

(** a literal word *)
Fixpoint lit (s : string) : regex :=
  match s with
  | EmptyString => Eps
  | String c s' => Seq (Chr (CLit c)) (lit s')
  end.

Definition item_matches (a : ascii) (i : set_item) : bool :=
  match i with
  | ISpace => Str.isspace a
  | IChar c => Ascii.eqb a c
  end.

(** [ic] is the flag [re.IGNORECASE]. *)
Definition char_matches (ic : bool) (cp : charpat) (a : ascii) : bool :=
  match cp with
  | CLit c =>
      if ic then Ascii.eqb (Str.lower_char a) (Str.lower_char c)
      else Ascii.eqb a c
  | CNotIn items => negb (existsb (item_matches a) items)
  end.

(** group number -> matched text *)
Definition captures := list (nat * string).

Fixpoint group_lookup (caps : captures) (n : nat) : option string :=
  match caps with
  | [] => None
  | (m, s) :: caps' => if Nat.eqb m n then Some s else group_lookup caps' n
  end.

(** the text consumed between [s] and its suffix [rest] *)
Definition consumed (s rest : string) : string :=
  Str.take (String.length s - String.length rest) s.

(** [cp+] at the head of [s]: the remainders after every possible number
    of repetitions, the longest repetition first. *)
Fixpoint plus_run (ic : bool) (cp : charpat) (s : string) : list string :=
  match s with
  | EmptyString => []
  | String a s' =>
      if char_matches ic cp a then plus_run ic cp s' ++ [s'] else []
  end.

(** The backtracking matcher: every way [r] matches at the head of [s],
    as (remaining text, captures), in the order the engine tries them. *)
Fixpoint run (ic : bool) (r : regex) (s : string) (caps : captures)
  : list (string * captures) :=
  match r with
  | Eps => [(s, caps)]
  | Chr cp =>
      match s with
      | String a s' => if char_matches ic cp a then [(s', caps)] else []
      | EmptyString => []
      end
  | Seq r1 r2 =>
      flat_map (fun '(s1, c1) => run ic r2 s1 c1) (run ic r1 s caps)
  | Alt r1 r2 => run ic r1 s caps ++ run ic r2 s caps
  | Opt r1 => run ic r1 s caps ++ [(s, caps)]
  | Plus cp => map (fun s' => (s', caps)) (plus_run ic cp s)
  | Group n r1 =>
      map (fun '(s1, c1) => (s1, (n, consumed s s1) :: c1)) (run ic r1 s caps)
  end.

(** a match object: [group(0)] is the whole match *)
Record Match := { captured : captures }.

Definition group (m : Match) (n : nat) : option string :=
  group_lookup (captured m) n.

(** [re.search(r, s, flags)]: the first match at the leftmost position
    where there is one. *)
Fixpoint search (ic : bool) (r : regex) (s : string) : option Match :=
  match run ic (Group 0 r) s [] with
  | (_, caps) :: _ => Some {| captured := caps |}
  | [] =>
      match s with
      | EmptyString => None
      | String _ s' => search ic r s'
      end
  end.

End Re.

(* ===================================================================== *)
(** ** extractors/youtube_extractor.py *)
(* ===================================================================== *)

Module YoutubeExtractor.
Import Re.

(** [(https?://)?(www\.)?(youtube\.com/watch\?v=|youtu\.be/|youtube\.com/embed/)],
    the part the two patterns share *)
Definition url_head : regex :=
  Seq (Opt (Group 1 (Seq (lit "http") (Seq (Opt (Chr (CLit "s"%char))) (lit "://")))))
    (Seq (Opt (Group 2 (lit "www.")))
       (Group 3 (Alt (lit "youtube.com/watch?v=")
                   (Alt (lit "youtu.be/") (lit "youtube.com/embed/"))))).

(** the pattern of [is_youtube_url]: [url_head] followed by [[^\s]+] *)
Definition detect_pattern : regex :=
  Seq url_head (Plus (CNotIn [ISpace])).

(** the pattern of [extract_youtube_url]: [url_head] followed by
    [([^\s&]+)] *)
Definition extract_pattern : regex :=
  Seq url_head (Group 4 (Plus (CNotIn [ISpace; IChar "&"%char]))).

Definition is_youtube_url (text : string) : bool :=
  existsb (fun pattern => bool_decide (is_Some (search true pattern text)))
    [detect_pattern].

(** the text of a group inside an f-string *)
Definition fmt_group (g : option string) : string := from_option id "None" g.

Fixpoint extract_loop (patterns : list regex) (text : string) : string :=
  match patterns with
  | [] => ""
  | pattern :: rest =>
      match search true pattern text with
      | Some m =>
          let g0 := fmt_group (group m 0) in
          if Str.contains "youtu.be" g0
          then "https://www.youtube.com/watch?v=" +:+ fmt_group (group m 4)
          else if Str.startswith "http" g0 then g0
               else "https://" +:+ g0
      | None => extract_loop rest text
      end
  end.

Definition extract_youtube_url (text : string) : string :=
  extract_loop [extract_pattern] text.

End YoutubeExtractor.

(* ===================================================================== *)
(** ** The environment of one request *)
(* ===================================================================== *)

(** What [extract_from_image] returns: the keys [text], [confidence],
    [method], [success] and, on failure, [error]. The confidence is [0] or
    [round(avg, 2)] of an average of integers: a finite number. *)
Record ImageResult := {
  img_text : string;
  img_confidence : value;
  img_method : string;
  img_success : bool;
  img_error : option string;
  img_confidence_finite : Json.compliant img_confidence = true }.

(** What [extract_from_pdf] returns: [text], [pages], [method], [success],
    [error]. *)
Record PdfResult := {
  pdf_text : string;
  pdf_pages : Z;
  pdf_method : string;
  pdf_success : bool;
  pdf_error : option string }.

(** What [extract_from_audio] returns: [text], [language], [duration],
    [success], [error]. The duration is [0] or [round(d, 2)] of the number of
    seconds the transcription reports: a finite number. *)
Record AudioResult := {
  aud_text : string;
  aud_language : string;
  aud_duration : value;
  aud_success : bool;
  aud_error : option string;
  aud_duration_finite : Json.compliant aud_duration = true }.

(** What [extract_youtube_transcript] returns: [text], [title], [duration],
    [success], [error]. The duration is [0] or what the video's metadata
    gives: a number of seconds or [None], no infinity and no NaN. *)
Record TranscriptResult := {
  yt_text : string;
  yt_title : string;
  yt_duration : value;
  yt_success : bool;
  yt_error : option string;
  yt_duration_finite : Json.compliant yt_duration = true }.

Record Env := {
  (** [utils.llm_client.call_llm(messages, temperature, max_tokens,
      response_format)]; a message is (role, content). Returns the reply's
      content or raises. *)
  call_llm : list (string * string) -> Q -> Z -> option value -> result string;
  (** [json.loads] *)
  json_loads : string -> result value;
  (** [float(s)] on a [str]; [None] when Python raises [ValueError] *)
  float_of_str : string -> option pyfloat;
  (** [str(v)] on a value that is not a [str] *)
  str_of : value -> string;
  (** [f"{x:.2f}"] on a [float] *)
  format_2f : pyfloat -> string;
  (** the extraction backends *)
  extract_from_image : list Byte.byte -> ImageResult;
  extract_from_pdf : list Byte.byte -> PdfResult;
  extract_from_audio : list Byte.byte -> string -> AudioResult;
  extract_youtube_transcript : string -> TranscriptResult;
  (** the task modules behind the handlers *)
  summarize_text : string -> result value;
  analyze_sentiment : string -> result value;
  explain_code : string -> result value;
  answer_question : string -> string -> result value }.

(** a value inside an f-string *)
Definition fmt (env : Env) (v : value) : string :=
  match v with
  | VStr s => s
  | _ => str_of env v
  end.

(** [float(v)]. An [int] beyond the range of a double raises
    [OverflowError]; the text of the [ValueError], which quotes the string,
    is only ever logged. *)
Definition py_float (env : Env) (v : value) : result pyfloat :=
  match v with
  | VFloat x => Ok x
  | VInt n =>
      match Float.of_int n with
      | Some q => Ok (Finite q)
      | None => Raise Float.overflow
      end
  | VBool b => Ok (Finite (if b then 1 else 0))
  | VStr s =>
      match float_of_str env s with
      | Some x => Ok x
      | None => Raise (ValueError "could not convert string to float")
      end
  | VNone | VList _ | VDict _ =>
      Raise (TypeError ("float() argument must be a string or a real number, not '"
                        +:+ Py.type_name v +:+ "'"))
  end.

(* ===================================================================== *)
(** ** agents/intent_classifier.py *)
(* ===================================================================== *)

Module IntentClassifier.

Local Open Scope py_scope.

Definition q (s : string) : string := Str.dq +:+ s +:+ Str.dq.

Definition prompt_intro : string :=
"You are an intent classifier for a multimodal AI assistant. Analyze the content and determine the user's goal.

Extracted Content (first 800 chars):
".

Definition prompt_query : string := "

User Query: ".

Definition prompt_rules : string := String.concat "" [
"

Determine:
1. What task does the user want? (Choose ONE from the valid intents below)
2. Is there enough information to proceed? (true/false)
3. If clarification is needed, what specific question should be asked?

Valid Intents:
- text_extraction: User wants to extract/see the text from an image/PDF
- youtube_transcript: User wants a YouTube video transcript
- summarization: User wants a summary of the content
- sentiment_analysis: User wants to know the sentiment/emotion
- code_explanation: User wants code explained or analyzed
- qa: User is asking a question or wants conversational help
- unknown: Cannot determine intent

Rules:
- If user says "; q "summarize"; ", "; q "summary"; ", or "; q "give me key points";
" → summarization
- If user asks "; q "what is the sentiment"; " or "; q "is this positive/negative";
" → sentiment_analysis
- If content contains code and user says "; q "explain"; " → code_explanation
- If user asks a question about the content → qa
- If no clear intent and no explicit instruction → needs_clarification = true

Respond ONLY with valid JSON:
{
  "; q "intent"; ": "; q "one of the valid intents above"; ",
  "; q "confidence"; ": 0.0 to 1.0,
  "; q "needs_clarification"; ": true or false,
  "; q "clarification_question"; ": "; q "specific question to ask, or null"; ",
  "; q "reasoning"; ": "; q "brief explanation of why you chose this intent"; "
}" ].

Definition build_prompt (extracted_text : string) (user_query : option string)
  : string :=
  prompt_intro +:+ Str.take 800 extracted_text +:+ prompt_query
  +:+ (match user_query with
       | Some uq => if Str.truthy uq then uq else "None provided"
       | None => "None provided"
       end)
  +:+ prompt_rules.

Definition system_message : string :=
  "You are a precise intent classification engine for a multimodal assistant. Always respond with strict JSON that matches the required schema.".

Definition canned_question : string :=
  "I couldn't determine what you'd like me to do. Could you please specify? For example: 'summarize this', 'analyze sentiment', 'explain this code', or ask a specific question.".

Definition _get_fallback_intent : value :=
  VDict [ ("intent", VStr "unknown");
          ("confidence", VFloat 0);
          ("needs_clarification", VBool true);
          ("clarification_question", VStr canned_question);
          ("reasoning",
           VStr "Classification service unavailable - requesting user clarification");
          ("success", VBool false) ].

Definition classify (env : Env) (extracted_text : string)
    (user_query : option string) : result value :=
  try_except
    (let prompt := build_prompt extracted_text user_query in
     let messages := [("system", system_message); ("user", prompt)] in
     content <- call_llm env messages (1 # 10) 400
                  (Some (VDict [("type", VStr "json_object")]));;
     intent_data <- json_loads env content;;
     (* the arguments of the logger.info call *)
     _ <- Py.get intent_data "intent" (VStr "unknown");;
     _ <- Py.get intent_data "confidence" (VInt 0);;
     intent <- Py.get intent_data "intent" (VStr "unknown");;
     confidence_raw <- Py.get intent_data "confidence" (VFloat 0);;
     confidence <- py_float env confidence_raw;;
     needs_raw <- Py.get intent_data "needs_clarification" (VBool false);;
     clarification_question <- Py.get intent_data "clarification_question" VNone;;
     reasoning <- Py.get intent_data "reasoning" (VStr "No reasoning provided");;
     Ok (VDict [ ("intent", intent);
                 ("confidence", VFloat confidence);
                 ("needs_clarification", VBool (Py.truthy needs_raw));
                 ("clarification_question", clarification_question);
                 ("reasoning", reasoning);
                 ("success", VBool true) ]))
    (fun e => Ok _get_fallback_intent).

End IntentClassifier.

(* ===================================================================== *)
(** ** agents/task_router.py *)
(* ===================================================================== *)

Module TaskRouter.

Local Open Scope py_scope.

(** a handler: [(content, user_query) -> dict], or an exception *)
Definition handler := string -> option string -> result value.

Definition _handle_text_extraction : handler := fun content user_query =>
  Ok (VDict [ ("result_type", VStr "text_extraction");
              ("extracted_text", VStr content);
              ("character_count", VInt (Str.len content));
              ("word_count", VInt (Str.count_words false content));
              ("success", VBool true) ]).

Definition _handle_youtube : handler := fun content user_query =>
  Ok (VDict [ ("result_type", VStr "youtube_transcript");
              ("transcript", VStr content);
              ("note", VStr "YouTube transcript has been extracted");
              ("success", VBool true) ]).

Definition _handle_summarization (env : Env) : handler := fun content user_query =>
  summary_result <- summarize_text env content;;
  success <- Py.get summary_result "success" (VBool false);;
  Ok (VDict [ ("result_type", VStr "summarization");
              ("summary", summary_result);
              ("success", success) ]).

Definition _handle_sentiment (env : Env) : handler := fun content user_query =>
  sentiment_result <- analyze_sentiment env content;;
  success <- Py.get sentiment_result "success" (VBool false);;
  Ok (VDict [ ("result_type", VStr "sentiment_analysis");
              ("sentiment", sentiment_result);
              ("success", success) ]).

Definition _handle_code (env : Env) : handler := fun content user_query =>
  code_result <- explain_code env content;;
  success <- Py.get code_result "success" (VBool false);;
  Ok (VDict [ ("result_type", VStr "code_explanation");
              ("analysis", code_result);
              ("success", success) ]).

Definition _handle_qa (env : Env) : handler := fun content user_query =>
  qa_result <-
    (match user_query with
     | Some uq =>
         if Str.truthy uq then answer_question env uq content
         else answer_question env "Can you help me understand this content?" content
     | None => answer_question env "Can you help me understand this content?" content
     end);;
  success <- Py.get qa_result "success" (VBool false);;
  Ok (VDict [ ("result_type", VStr "qa");
              ("response", qa_result);
              ("success", success) ]).

Definition _handle_unknown : handler := fun content user_query =>
  Ok (VDict [ ("result_type", VStr "unknown");
              ("message",
               VStr "I'm not sure what you'd like me to do. Please provide more specific instructions.");
              ("content_preview",
               VStr (if 200 <? Str.len content
                     then Str.take 200 content +:+ "..." else content));
              ("success", VBool false) ]).

(** an instance: its attribute [task_map] *)
Record t := { task_map : list (string * handler) }.

(** [TaskRouter.__init__] *)
Definition init (env : Env) : t :=
  {| task_map :=
      [ ("text_extraction", _handle_text_extraction);
        ("youtube_transcript", _handle_youtube);
        ("summarization", _handle_summarization env);
        ("sentiment_analysis", _handle_sentiment env);
        ("code_explanation", _handle_code env);
        ("qa", _handle_qa env);
        ("unknown", _handle_unknown) ] |}.

Fixpoint map_lookup (m : list (string * handler)) (k : string) : option handler :=
  match m with
  | [] => None
  | (k', h) :: m' => if String.eqb k' k then Some h else map_lookup m' k
  end.

(** [self.task_map.get(intent, self._handle_unknown)]: the keys are
    strings; another hashable object finds none of them; an unhashable one
    makes the lookup raise. *)
Definition select_handler (self : t) (intent : value) : result handler :=
  match intent with
  | VStr s => Ok (from_option id _handle_unknown (map_lookup (task_map self) s))
  | _ =>
      if Py.hashable intent then Ok _handle_unknown
      else Raise (TypeError ("unhashable type: '" +:+ Py.type_name intent +:+ "'"))
  end.

Definition execute (self : t) (env : Env) (intent : value) (content : string)
    (user_query : option string) : result value :=
  handler <- select_handler self intent;;
  try_except
    (result <- handler content user_query;;
     result <- Py.setitem result "task_type" intent;;
     Ok result)
    (fun e =>
       Ok (VDict [ ("task_type", intent);
                   ("success", VBool false);
                   ("error", VStr (exn_str e));
                   ("message",
                    VStr ("Failed to execute " +:+ fmt env intent +:+ " task")) ])).

End TaskRouter.

(* ===================================================================== *)
(** ** app.py *)
(* ===================================================================== *)

Module App.

(** an uploaded file: its name and its bytes *)
Record UploadFile := { filename : string; file_bytes : list Byte.byte }.

(** an entry of [conversation_contexts]: the dictionary with the keys
    [extracted_content] and [extraction_metadata] *)
Record SessionContext := {
  extracted_content : string;
  extraction_metadata : value }.

(** The calls the endpoints make to the two agents, in order. The list is
    a ghost record of the run: it lets a statement say which agent was
    invoked and with which arguments. *)
Inductive Call : Type :=
| Classify (extracted_text : string) (user_query : option string)
| Execute (intent : value) (content : string) (user_query : option string).

(** what outlives a request: the module-level [conversation_contexts] and
    the record of calls *)
Record World := {
  conversation_contexts : gmap string SessionContext;
  calls : list Call }.

(** a [JSONResponse]: its content and its status code *)
Record JSONResponse := { body : value; status_code : Z }.

(** [JSONResponse(content, status_code=...)]: the body is rendered when the
    response is built, by [json.dumps(content, allow_nan=False, ...)], which
    raises [ValueError] on a float that is an infinity or NaN. *)
Definition json_response (content : value) (status_code : Z) : result JSONResponse :=
  if Json.compliant content
  then Ok {| body := content; status_code := status_code |}
  else Raise Json.out_of_range.

(** the state of a request in progress: the world and the local [logs] *)
Record State := { world : World; logs : list string }.

Definition M (A : Type) : Type := State -> result A * State.

Definition ret {A} (a : A) : M A := fun st => (Ok a, st).

Definition bind {A B} (m : M A) (k : A -> M B) : M B := fun st =>
  match m st with
  | (Ok a, st') => k a st'
  | (Raise e, st') => (Raise e, st')
  end.

Definition raise {A} (e : exn) : M A := fun st => (Raise e, st).

Definition lift {A} (r : result A) : M A := fun st => (r, st).

(** [logs.append(s)] *)
Definition log (s : string) : M unit := fun st =>
  (Ok tt, {| world := world st; logs := logs st ++ [s] |}).

Definition get_logs : M (list string) := fun st => (Ok (logs st), st).

(** [conversation_contexts.get(session_id)] *)
Definition contexts_get (session_id : string) : M (option SessionContext) :=
  fun st => (Ok (conversation_contexts (world st) !! session_id), st).

(** [conversation_contexts[session_id] = ctx] *)
Definition contexts_set (session_id : string) (ctx : SessionContext) : M unit :=
  fun st =>
    (Ok tt,
     {| world := {| conversation_contexts :=
                      <[session_id := ctx]> (conversation_contexts (world st));
                    calls := calls (world st) |};
        logs := logs st |}).

(** [if session_id in conversation_contexts: del conversation_contexts[session_id]] *)
Definition contexts_del (session_id : string) : M unit := fun st =>
  (Ok tt,
   {| world := {| conversation_contexts :=
                    match conversation_contexts (world st) !! session_id with
                    | Some _ => delete session_id (conversation_contexts (world st))
                    | None => conversation_contexts (world st)
                    end;
                  calls := calls (world st) |};
      logs := logs st |}).

Definition record_call (c : Call) : M unit := fun st =>
  (Ok tt,
   {| world := {| conversation_contexts := conversation_contexts (world st);
                  calls := calls (world st) ++ [c] |};
      logs := logs st |}).

Declare Scope app_scope.
Delimit Scope app_scope with app.
Notation "x <- c1 ;; c2" := (bind c1 (fun x => c2))
  (at level 100, c1 at next level, right associativity) : app_scope.
Notation "c1 ;; c2" := (bind c1 (fun _ => c2))
  (at level 100, right associativity) : app_scope.
Local Open Scope app_scope.

(** [intent_classifier.classify(extracted_text, user_query)] *)
Definition call_classify (env : Env) (extracted_text : string)
    (user_query : option string) : M value :=
  record_call (Classify extracted_text user_query);;
  lift (IntentClassifier.classify env extracted_text user_query).

(** [task_router.execute(intent, content, user_query)] *)
Definition call_execute (env : Env) (intent : value) (content : string)
    (user_query : option string) : M value :=
  record_call (Execute intent content user_query);;
  lift (TaskRouter.execute (TaskRouter.init env) env intent content user_query).

(** [f"{v:.2f}"] *)
Definition fmt_2f (env : Env) (v : value) : result string :=
  match v with
  | VFloat x => Ok (format_2f env x)
  | VInt n =>
      match Float.of_int n with
      | Some q => Ok (format_2f env (Finite q))
      | None => Raise Float.overflow
      end
  | VBool b => Ok (format_2f env (Finite (if b then 1 else 0)))
  | VStr _ => Raise (ValueError "Unknown format code 'f' for object of type 'str'")
  | _ => Raise (TypeError ("unsupported format string passed to "
                           +:+ Py.type_name v +:+ ".__format__"))
  end.

(** [s[:n] + "..." if len(s) > n else s] *)
Definition preview (n : nat) (s : string) : string :=
  if Z.of_nat n <? Str.len s then Str.take n s +:+ "..." else s.

Definition error_text (e : option string) : string :=
  from_option id "Unknown error" e.

(** STEP 1 of [process_input]: content extraction. Returns
    [(extracted_content, extraction_metadata)]. *)
Definition extraction_step (env : Env) (text : option string)
    (file : option UploadFile) : M (string * value) :=
  match file with
  | Some f =>
      let bytes := file_bytes f in
      let fname := Str.lower (filename f) in
      log ("Received file: " +:+ filename f);;
      if Str.endswith_any [".png"; ".jpg"; ".jpeg"; ".bmp"; ".gif"] fname then
        log "Extracting text from image using OCR...";;
        let result := extract_from_image env bytes in
        if img_success result then
          log ("✓ OCR completed (confidence: "
               +:+ fmt env (img_confidence result) +:+ "%)");;
          ret (img_text result,
               VDict [ ("type", VStr "image");
                       ("method", VStr (img_method result));
                       ("confidence", img_confidence result) ])
        else
          log ("✗ OCR failed: " +:+ error_text (img_error result));;
          raise (HTTPException 400 "Image extraction failed")
      else if Str.endswith ".pdf" fname then
        log "Extracting text from PDF...";;
        let result := extract_from_pdf env bytes in
        if pdf_success result then
          log ("✓ PDF extraction completed (" +:+ pretty (pdf_pages result)
               +:+ " pages, method: " +:+ pdf_method result +:+ ")");;
          ret (pdf_text result,
               VDict [ ("type", VStr "pdf");
                       ("method", VStr (pdf_method result));
                       ("pages", VInt (pdf_pages result)) ])
        else
          log ("✗ PDF extraction failed: " +:+ error_text (pdf_error result));;
          raise (HTTPException 400 "PDF extraction failed")
      else if Str.endswith_any [".mp3"; ".wav"; ".m4a"; ".ogg"; ".flac"] fname then
        log "Transcribing audio using Whisper...";;
        let result := extract_from_audio env bytes fname in
        if aud_success result then
          log ("✓ Audio transcribed (" +:+ fmt env (aud_duration result)
               +:+ "s, language: " +:+ aud_language result +:+ ")");;
          ret (aud_text result,
               VDict [ ("type", VStr "audio");
                       ("language", VStr (aud_language result));
                       ("duration", aud_duration result) ])
        else
          log ("✗ Audio transcription failed: " +:+ error_text (aud_error result));;
          raise (HTTPException 400 "Audio transcription failed")
      else
        log ("✗ Unsupported file type: " +:+ fname);;
        raise (HTTPException 400 ("Unsupported file type: " +:+ fname))
  | None =>
      match text with
      | Some (String c t' as t) =>
          if YoutubeExtractor.is_youtube_url t then
            log "Detected YouTube URL, fetching transcript...";;
            let url := YoutubeExtractor.extract_youtube_url t in
            let result := extract_youtube_transcript env url in
            if yt_success result then
              log ("✓ YouTube transcript fetched: " +:+ yt_title result);;
              ret (yt_text result,
                   VDict [ ("type", VStr "youtube");
                           ("title", VStr (yt_title result));
                           ("duration", yt_duration result) ])
            else
              log ("ℹ YouTube transcript unavailable: "
                   +:+ error_text (yt_error result));;
              ret (t, VDict [("type", VStr "text")])
          else
            log "Processing text input...";;
            ret (t, VDict [("type", VStr "text")])
      | _ =>
          log "✗ No input provided";;
          raise (HTTPException 400 "No input provided (text or file required)")
      end
  end.

(** The two [except] clauses that close both endpoints:
    [except HTTPException: raise] and
    [except Exception as e: ... return JSONResponse(..., status_code=500)].
    The [try] block they close contains the construction of the responses,
    so they also see the [ValueError] of a body that does not render. *)
Definition guard (body : M JSONResponse) : M JSONResponse := fun st =>
  match body st with
  | (Ok r, st') => (Ok r, st')
  | (Raise (HTTPException c d), st') => (Raise (HTTPException c d), st')
  | (Raise e, st') =>
      let logs' := logs st' ++ ["✗ Error: " +:+ exn_str e] in
      (json_response (VDict [ ("status", VStr "error");
                              ("message", VStr (exn_str e));
                              ("logs", Py.vstr_list logs') ]) 500,
       {| world := world st'; logs := logs' |})
  end.

(** the response of the check on the extracted content *)
Definition insufficient_content (logs : list string) : JSONResponse :=
  {| body := VDict [ ("status", VStr "error");
                     ("message",
                      VStr "Could not extract meaningful content from input");
                     ("logs", Py.vstr_list logs) ];
     status_code := 200 |}.

(** the body of [process_input] after STEP 1 *)
Definition process_extracted (env : Env) (text : option string)
    (session_id : string) (extracted_content : string)
    (extraction_metadata : value) : M JSONResponse :=
  if negb (Str.truthy extracted_content)
     || (Str.len (Str.strip extracted_content) <? 5)
  then
    log "⚠ Warning: Very little content extracted";;
    logs <- get_logs;;
    lift (json_response (body (insufficient_content logs)) 200)
  else
    (* STEP 2: intent classification *)
    log "Analyzing your intent...";;
    intent_result <- call_classify env extracted_content text;;
    success <- lift (Py.get intent_result "success" VNone);;
    (if negb (Py.truthy success)
     then log "⚠ Intent classification failed, requesting clarification"
     else
       intent <- lift (Py.getitem intent_result "intent");;
       confidence <- lift (Py.getitem intent_result "confidence");;
       confidence_text <- lift (fmt_2f env confidence);;
       log ("✓ Intent identified: " +:+ fmt env intent
            +:+ " (confidence: " +:+ confidence_text +:+ ")"));;
    (* STEP 3: check for clarification *)
    needs_clarification <- lift (Py.get intent_result "needs_clarification" VNone);;
    if Py.truthy needs_clarification then
      log "ℹ Clarification needed from user";;
      contexts_set session_id
        {| extracted_content := extracted_content;
           extraction_metadata := extraction_metadata |};;
      question <- lift (Py.get intent_result "clarification_question" VNone);;
      reasoning <- lift (Py.get intent_result "reasoning" VNone);;
      logs <- get_logs;;
      lift (json_response
              (VDict [ ("status", VStr "needs_clarification");
                       ("extracted_content", VStr (preview 500 extracted_content));
                       ("extraction_metadata", extraction_metadata);
                       ("question", question);
                       ("reasoning", reasoning);
                       ("logs", Py.vstr_list logs);
                       ("session_id", VStr session_id) ]) 200)
    else
      (* STEP 4: execute the task *)
      intent <- lift (Py.getitem intent_result "intent");;
      log ("Executing task: " +:+ fmt env intent +:+ "...");;
      final_result <- call_execute env intent extracted_content text;;
      task_success <- lift (Py.get final_result "success" VNone);;
      (if Py.truthy task_success
       then log "✓ Task completed successfully"
       else log "⚠ Task completed with warnings");;
      (* STEP 5: return the results *)
      intent <- lift (Py.getitem intent_result "intent");;
      confidence <- lift (Py.getitem intent_result "confidence");;
      reasoning <- lift (Py.get intent_result "reasoning" VNone);;
      logs <- get_logs;;
      lift (json_response
              (VDict [ ("status", VStr "success");
                       ("extracted_content", VStr (preview 1000 extracted_content));
                       ("extraction_metadata", extraction_metadata);
                       ("intent",
                        VDict [ ("type", intent);
                                ("confidence", confidence);
                                ("reasoning", reasoning) ]);
                       ("result", final_result);
                       ("logs", Py.vstr_list logs) ]) 200).

Definition process_body (env : Env) (text : option string)
    (file : option UploadFile) (session_id : string) : M JSONResponse :=
  log "Processing your request...";;
  extracted <- extraction_step env text file;;
  let '(extracted_content, extraction_metadata) := extracted in
  process_extracted env text session_id extracted_content extraction_metadata.

(** run the body of an endpoint from the initial value of [logs] *)
Definition run_request (initial_logs : list string) (body : M JSONResponse)
    (w : World) : result JSONResponse * World :=
  let '(r, st) := guard body {| world := w; logs := initial_logs |} in
  (r, world st).

(** [POST /process] *)
Definition process_input (env : Env) (text : option string)
    (file : option UploadFile) (session_id : string) (w : World)
  : result JSONResponse * World :=
  run_request [] (process_body env text file session_id) w.

Definition session_error : exn :=
  HTTPException 400 "Session expired or invalid. Please resubmit your input.".

Definition clarify_body (env : Env) (clarification : string)
    (session_id : string) : M JSONResponse :=
  context <- contexts_get session_id;;
  (* [if not context]: a stored context has two keys, so it is true *)
  match context with
  | None =>
      log "✗ Session context not found";;
      raise session_error
  | Some context =>
      let extracted_content := extracted_content context in
      let extraction_metadata := extraction_metadata context in
      log "Re-analyzing intent with your clarification...";;
      intent_result <- call_classify env extracted_content (Some clarification);;
      needs_clarification <- lift (Py.get intent_result "needs_clarification" VNone);;
      if Py.truthy needs_clarification then
        log "ℹ Still need more clarification";;
        question <- lift (Py.get intent_result "clarification_question" VNone);;
        logs <- get_logs;;
        lift (json_response
                (VDict [ ("status", VStr "needs_clarification");
                         ("question", question);
                         ("logs", Py.vstr_list logs) ]) 200)
      else
        intent <- lift (Py.getitem intent_result "intent");;
        log ("✓ Intent clarified: " +:+ fmt env intent);;
        log ("Executing task: " +:+ fmt env intent +:+ "...");;
        final_result <- call_execute env intent extracted_content (Some clarification);;
        task_success <- lift (Py.get final_result "success" VNone);;
        (if Py.truthy task_success
         then log "✓ Task completed successfully"
         else ret tt);;
        contexts_del session_id;;
        confidence <- lift (Py.getitem intent_result "confidence");;
        logs <- get_logs;;
        lift (json_response
                (VDict [ ("status", VStr "success");
                         ("extracted_content", VStr (preview 1000 extracted_content));
                         ("extraction_metadata", extraction_metadata);
                         ("intent",
                          VDict [ ("type", intent);
                                  ("confidence", confidence) ]);
                         ("result", final_result);
                         ("logs", Py.vstr_list logs) ]) 200)
  end.

(** [POST /clarify] *)
Definition clarify_intent (env : Env) (clarification : string)
    (session_id : string) (w : World) : result JSONResponse * World :=
  run_request ["Processing your clarification..."]
    (clarify_body env clarification session_id) w.

(** the [status] tag of a response *)
Definition status (r : JSONResponse) : option value :=
  match body r with
  | VDict d => Py.dict_lookup d "status"
  | _ => None
  end.

(** a field of a response body *)
Definition field (r : JSONResponse) (k : string) : option value :=
  match body r with
  | VDict d => Py.dict_lookup d k
  | _ => None
  end.

Definition field_names (r : JSONResponse) : list string :=
  match body r with
  | VDict d => Py.keys d
  | _ => []
  end.

End App.


(* ===================================================================== *)
(** ** Vocabulary of the statements *)
(* ===================================================================== *)

(** A record with the six fields of a ClassificationResult, the numeric and
    boolean ones of their types. *)
Definition well_formed_classification (v : value) : Prop :=
  exists intent confidence needs question reasoning success,
    v = VDict [ ("intent", intent);
                ("confidence", VFloat confidence);
                ("needs_clarification", VBool needs);
                ("clarification_question", question);
                ("reasoning", reasoning);
                ("success", VBool success) ].

(** a field of a dictionary value *)
Definition vfield (v : value) (k : string) : option value :=
  match v with
  | VDict d => Py.dict_lookup d k
  | _ => None
  end.

(** the dictionary [execute] builds when the handler raised [e] *)
Definition failure_result (env : Env) (intent : value) (e : exn) : value :=
  VDict [ ("task_type", intent);
          ("success", VBool false);
          ("error", VStr (exn_str e));
          ("message", VStr ("Failed to execute " +:+ fmt env intent +:+ " task")) ].

(** the response the [except Exception] clause of an endpoint builds for
    [e], the log then being [lg] *)
Definition error_response (e : exn) (lg : list string) : App.JSONResponse :=
  {| App.body := VDict [ ("status", VStr "error");
                         ("message", VStr (exn_str e));
                         ("logs", Py.vstr_list lg) ];
     App.status_code := 500 |}.

(** How an endpoint answers when its [try] block ends in
    [return JSONResponse(content)], the log being [lg]: with that response,
    or, when rendering [content] raises, with the error response of the
    [except Exception] clause. *)
Definition answer (content : value) (lg : list string) : App.JSONResponse :=
  if Json.compliant content
  then {| App.body := content; App.status_code := 200 |}
  else error_response Json.out_of_range
         (lg ++ ["✗ Error: " +:+ exn_str Json.out_of_range]).

(** the keys of the routing table *)
Definition routed_intents : list string :=
  [ "text_extraction"; "youtube_transcript"; "summarization";
    "sentiment_analysis"; "code_explanation"; "qa"; "unknown" ].

(** the state of [process_input] when STEP 1 starts *)
Definition initial_state (w : App.World) : App.State :=
  {| App.world := w; App.logs := ["Processing your request..."] |}.






(** the field names of a submit response that asks for clarification *)
Definition submit_clarification_fields : list string :=
  [ "status"; "extracted_content"; "extraction_metadata"; "question";
    "reasoning"; "logs"; "session_id" ].

(** the field names of a clarify response that asks for clarification *)
Definition clarify_clarification_fields : list string :=
  [ "status"; "question"; "logs" ].

(** the text is empty or ends in white space *)
Fixpoint blank_end (s : string) : bool :=
  match s with
  | EmptyString => true
  | String c s' =>
      match s' with
      | EmptyString => Str.isspace c
      | String _ _ => blank_end s'
      end
  end.

(** the text is empty or begins with white space *)
Definition blank_start (s : string) : bool :=
  match s with
  | EmptyString => true
  | String c _ => Str.isspace c
  end.

Fixpoint all_chars (p : ascii -> bool) (s : string) : bool :=
  match s with
  | EmptyString => true
  | String c s' => p c && all_chars p s'
  end.

(** a video id as it stands in a link: not empty, no white space, no [&]
    (the eleven letters, digits, [-] and [_] of a YouTube id are of this
    kind) *)
Definition video_id_like (s : string) : bool :=
  Str.truthy s
  && all_chars (fun c => negb (Str.isspace c) && negb (Ascii.eqb c "&"%char)) s.

(** the remainders of the matcher, without the captures *)
Fixpoint rests (ic : bool) (r : Re.regex) (s : string) : list string :=
  match r with
  | Re.Eps => [s]
  | Re.Chr cp =>
      match s with
      | String a s' => if Re.char_matches ic cp a then [s'] else []
      | EmptyString => []
      end
  | Re.Seq r1 r2 => flat_map (rests ic r2) (rests ic r1 s)
  | Re.Alt r1 r2 => rests ic r1 s ++ rests ic r2 s
  | Re.Opt r1 => rests ic r1 s ++ [s]
  | Re.Plus cp => Re.plus_run ic cp s
  | Re.Group _ r1 => rests ic r1 s
  end.

(** the 256 characters *)
Definition all_ascii : list ascii := map ascii_of_nat (seq 0 256).

(** the character pattern matches no white space *)
Definition nospace_char (ic : bool) (cp : Re.charpat) : bool :=
  forallb (fun a => negb (Str.isspace a) || negb (Re.char_matches ic cp a)) all_ascii.

(** no part of the pattern matches white space *)
Fixpoint nospace (ic : bool) (r : Re.regex) : bool :=
  match r with
  | Re.Eps => true
  | Re.Chr cp | Re.Plus cp => nospace_char ic cp
  | Re.Seq r1 r2 | Re.Alt r1 r2 => nospace ic r1 && nospace ic r2
  | Re.Opt r1 | Re.Group _ r1 => nospace ic r1
  end.

(* ===================================================================== *)
(** ** Sample environments *)
(* ===================================================================== *)

Module Sample.

(** the backends of a machine with no network and no models installed *)
Definition offline : Env := {|
  call_llm := fun _ _ _ _ => Raise (LLMClientError "LLM_API_KEY is not set");
  json_loads := fun _ => Raise (JSONDecodeError "Expecting value");
  float_of_str := fun _ => None;
  str_of := fun _ => "?";
  format_2f := fun _ => "0.00";
  extract_from_image := fun _ =>
    {| img_text := ""; img_confidence := VInt 0; img_method := "tesseract_ocr";
       img_success := false; img_error := Some "cannot identify image file";
       img_confidence_finite := eq_refl |};
  extract_from_pdf := fun _ =>
    {| pdf_text := ""; pdf_pages := 0; pdf_method := "failed";
       pdf_success := false; pdf_error := Some "EOF marker not found" |};
  extract_from_audio := fun _ _ =>
    {| aud_text := ""; aud_language := "unknown"; aud_duration := VInt 0;
       aud_success := false; aud_error := Some "Whisper model not loaded";
       aud_duration_finite := eq_refl |};
  extract_youtube_transcript := fun _ =>
    {| yt_text := ""; yt_title := ""; yt_duration := VInt 0;
       yt_success := false; yt_error := Some "network unreachable";
       yt_duration_finite := eq_refl |};
  summarize_text := fun _ => Raise (OtherError "RuntimeError" "backend crashed");
  analyze_sentiment := fun _ =>
    Ok (VDict [ ("label", VStr "UNKNOWN"); ("confidence", VFloat 0);
                ("justification", VStr "Sentiment analysis model not loaded");
                ("success", VBool false);
                ("error", VStr "Model initialization failed") ]);
  explain_code := fun _ => Ok VNone;
  answer_question := fun _ _ =>
    Ok (VDict [ ("answer", VStr "no model"); ("has_context", VBool true);
                ("success", VBool false); ("error", VStr "no model") ]) |}.

(** the model replies; the reply parses to a classification that settles on
    [intent] without asking anything *)
Definition resolving (intent : string) : Env := {|
  call_llm := fun _ _ _ _ => Ok "{...}";
  json_loads := fun _ =>
    Ok (VDict [ ("intent", VStr intent); ("confidence", VFloat (9 # 10));
                ("needs_clarification", VBool false);
                ("clarification_question", VNone);
                ("reasoning", VStr "explicit instruction") ]);
  float_of_str := float_of_str offline;
  str_of := str_of offline;
  format_2f := fun _ => "0.90";
  extract_from_image := extract_from_image offline;
  extract_from_pdf := extract_from_pdf offline;
  extract_from_audio := extract_from_audio offline;
  extract_youtube_transcript := extract_youtube_transcript offline;
  summarize_text := summarize_text offline;
  analyze_sentiment := analyze_sentiment offline;
  explain_code := explain_code offline;
  answer_question := answer_question offline |}.


Definition empty_world : App.World :=
  {| App.conversation_contexts := ∅; App.calls := [] |}.

(** the response of a run that returned one *)
Definition response_of (run : result App.JSONResponse * App.World) : App.JSONResponse :=
  match fst run with
  | Ok r => r
  | Raise _ => {| App.body := VNone; App.status_code := 0 |}
  end.

End Sample.

(* ===================================================================== *)
(** ** Further vocabulary *)
(* ===================================================================== *)

(** the transport fails, or its reply is not JSON, whatever is asked *)
Definition oracle_unusable (env : Env) : Prop :=
  forall messages temperature max_tokens response_format,
    match call_llm env messages temperature max_tokens response_format with
    | Raise _ => True
    | Ok content => exists e, json_loads env content = Raise e
    end.

(** the file suffixes [process_input] accepts *)
Definition supported_suffixes : list string :=
  [ ".png"; ".jpg"; ".jpeg"; ".bmp"; ".gif"; ".pdf";
    ".mp3"; ".wav"; ".m4a"; ".ogg"; ".flac" ].

(** the reply of the transport to the classification request for this
    content and utterance *)
Definition classification_reply (env : Env) (extracted_text : string)
    (user_query : option string) : result string :=
  call_llm env
    [ ("system", IntentClassifier.system_message);
      ("user", IntentClassifier.build_prompt extracted_text user_query) ]
    (1 # 10)%Q 400 (Some (VDict [("type", VStr "json_object")])).

(** the metadata of a plain-text submit *)
Definition text_metadata : value := VDict [("type", VStr "text")].

(** [s * n] *)
Fixpoint repeat_text (n : nat) (s : string) : string :=
  match n with
  | O => ""
  | S n' => s +:+ repeat_text n' s
  end.

(* ===================================================================== *)
(** ** utils/llm_client.py *)
(* ===================================================================== *)

(** [o[0]] *)
Definition getitem0 (o : value) : result value :=
  match o with
  | VList (x :: _) => Ok x
  | VList [] => Raise (OtherError "IndexError" "list index out of range")
  | VStr (String c _) => Ok (VStr (String c EmptyString))
  | VStr EmptyString => Raise (OtherError "IndexError" "string index out of range")
  | VDict _ => Raise (OtherError "KeyError" "0")
  | _ => Raise (TypeError ("'" +:+ Py.type_name o +:+ "' object is not subscriptable"))
  end.

Module LlmClient.

Local Open Scope py_scope.

(** what [requests.post] returns: the status code, the body as text, and
    what [resp.json()] gives *)
Record Response := {
  status_code : Z;
  text : string;
  json : result value }.

(** The HTTP library and the process environment: [requests.post(url,
    json=payload, headers=headers, timeout=60)], the two class tests of the
    [except] clauses on what the library raises, and [os.getenv]. *)
Record Http := {
  post : string -> value -> list (string * string) -> Z -> result Response;
  is_request_exception : exn -> bool;
  is_value_error : exn -> bool;
  getenv : string -> option string }.

Definition LLM_API_KEY (http : Http) : option string := getenv http "LLM_API_KEY".

Definition LLM_BASE_URL (http : Http) : string :=
  from_option id "https://api.groq.com/openai/v1/chat/completions"
    (getenv http "LLM_BASE_URL").

Definition LLM_MODEL (http : Http) : string :=
  from_option id "llama-3.1-8b-instant" (getenv http "LLM_MODEL").

Definition missing_key_message : string :=
  "LLM_API_KEY is not set. Please create backend/.env with LLM_API_KEY=your_key".

(** returns the key when it is set and not empty *)
Definition _ensure_config (http : Http) : result string :=
  match LLM_API_KEY http with
  | Some key => if Str.truthy key then Ok key else Raise (LLMClientError missing_key_message)
  | None => Raise (LLMClientError missing_key_message)
  end.

(** the two [except] clauses, for an exception the library raised *)
Definition library_failure {A} (http : Http) (e : exn) : result A :=
  if is_request_exception http e
  then Raise (LLMClientError ("Network error calling LLM API: " +:+ exn_str e))
  else if is_value_error http e
       then Raise (LLMClientError ("Failed to parse LLM response JSON: " +:+ exn_str e))
       else Raise e.

Definition payload (http : Http) (messages : list (string * string))
    (temperature : Q) (max_tokens : Z) (response_format : option value) : value :=
  VDict ([ ("model", VStr (LLM_MODEL http));
           ("messages",
            VList (map (fun '(role, content) =>
                          VDict [("role", VStr role); ("content", VStr content)])
                     messages));
           ("temperature", VFloat temperature);
           ("max_tokens", VInt max_tokens) ]
         ++ match response_format with
            | Some f => [("response_format", f)]
            | None => []
            end).

(** What the code of the [try] block raises itself ([LLMClientError], and
    the errors of [.get] and [[0]] on a reply of another shape) is of
    neither class of the [except] clauses, so it leaves [call_llm] as it
    is; the clauses apply to what [requests.post] and [resp.json()] raise. *)
Definition call_llm (http : Http) (messages : list (string * string))
    (temperature : Q) (max_tokens : Z) (response_format : option value)
  : result string :=
  key <- _ensure_config http;;
  let headers := [ ("Authorization", "Bearer " +:+ key);
                   ("Content-Type", "application/json") ] in
  match post http (LLM_BASE_URL http)
          (payload http messages temperature max_tokens response_format) headers 60 with
  | Raise e => library_failure http e
  | Ok resp =>
      if negb (status_code resp =? 200) then
        Raise (LLMClientError ("LLM API error " +:+ pretty (status_code resp) +:+ ": "
                               +:+ Str.take 300 (text resp)))
      else
        match json resp with
        | Raise e => library_failure http e
        | Ok data =>
            choices <- Py.get data "choices" VNone;;
            if negb (Py.truthy choices) then
              Raise (LLMClientError "LLM response has no choices field")
            else
              first <- getitem0 choices;;
              found <- Py.get first "message" VNone;;
              let message := if Py.truthy found then found else VDict [] in
              content <- Py.get message "content" VNone;;
              match content with
              | VStr s => Ok s
              | _ => Raise (LLMClientError "LLM response message content is not a string")
              end
        end
  end.

End LlmClient.

(* ===================================================================== *)
(** ** tasks/summarizer.py *)
(* ===================================================================== *)

Module Summarizer.

Local Open Scope py_scope.

Definition q := IntentClassifier.q.

Definition prompt_head : string :=
"Summarize the following text in THREE distinct formats:

1. ONE-LINE: Create a single sentence summary (max 20 words)
2. BULLETS: Create exactly 3 bullet points capturing key information
3. PARAGRAPH: Create a 5-sentence detailed summary

Text to summarize:
".

Definition prompt_tail : string := String.concat "" [
"

Respond ONLY with valid JSON in this exact format:
{
  "; q "one_line"; ": "; q "your one sentence summary here"; ",
  "; q "bullets"; ": ["; q "first bullet point"; ", "; q "second bullet point"; ", ";
  q "third bullet point"; "],
  "; q "five_sentences"; ": ";
  q "First sentence. Second sentence. Third sentence. Fourth sentence. Fifth sentence."; "
}" ].

Definition system_message : string :=
  "You are a helpful summarization assistant. Always respond with VALID JSON only, matching the requested schema.".

(** [text[:4000] if len(text) > 4000 else text] *)
Definition text_preview (text : string) : string :=
  if 4000 <? Str.len text then Str.take 4000 text else text.

Definition parse_failure (e : exn) : value :=
  VDict [ ("one_line", VStr "Unable to generate structured summary");
          ("bullets", Py.vstr_list [ "Summary generation failed";
                                     "Please try again";
                                     "Check Ollama service" ]);
          ("five_sentences",
           VStr "The summarization service encountered an error. This could be due to the LLM provider being unavailable. Please check your API key and network connection, then try again.");
          ("success", VBool false);
          ("error", VStr (exn_str e)) ].

Definition other_failure (e : exn) : value :=
  VDict [ ("one_line", VStr "Error generating summary");
          ("bullets", Py.vstr_list [ "An error occurred";
                                     "Check logs for details";
                                     "Ensure Ollama is running" ]);
          ("five_sentences",
           VStr ("Failed to generate summary due to: " +:+ exn_str e
                 +:+ ". Please check that Ollama is running and the model is available."));
          ("success", VBool false);
          ("error", VStr (exn_str e)) ].

(** the messages of the request: the system message and the prompt *)
Definition messages (text : string) : list (string * string) :=
  let prompt := prompt_head +:+ text_preview text +:+ prompt_tail in
  [("system", system_message); ("user", prompt)].

Definition summarize_text (env : Env) (text : string) : result value :=
  try_except
    (content <- call_llm env (messages text) (3 # 10) 500
                  (Some (VDict [("type", VStr "json_object")]));;
     summary_data <- json_loads env content;;
     one_line <- Py.get summary_data "one_line" (VStr "Summary not available");;
     bullets <- Py.get summary_data "bullets"
                  (Py.vstr_list ["Point 1"; "Point 2"; "Point 3"]);;
     five_sentences <- Py.get summary_data "five_sentences"
                         (VStr "Detailed summary not available.");;
     Ok (VDict [ ("one_line", one_line);
                 ("bullets", bullets);
                 ("five_sentences", five_sentences);
                 ("success", VBool true) ]))
    (fun e =>
       match e with
       | JSONDecodeError _ | LLMClientError _ => Ok (parse_failure e)
       | _ => Ok (other_failure e)
       end).

End Summarizer.

(* ===================================================================== *)
(** ** tasks/code_explainer.py *)
(* ===================================================================== *)

Module CodeExplainer.

Local Open Scope py_scope.

Definition q := IntentClassifier.q.

Definition prompt_head : string :=
"Analyze the following code snippet:

```
".

Definition prompt_tail : string := String.concat "" [
"
```

Provide a detailed analysis with:
1. What the code does (in plain English, 2-3 sentences)
2. Programming language detected
3. Any bugs, issues, or potential problems (list them, or empty array if none)
4. Time complexity (Big O notation)
5. Space complexity (Big O notation)

Respond ONLY with valid JSON in this exact format:
{
  "; q "explanation"; ": "; q "Plain English explanation of what the code does"; ",
  "; q "language"; ": "; q "detected programming language"; ",
  "; q "bugs"; ": ["; q "bug or issue 1"; ", "; q "bug or issue 2"; "] or [],
  "; q "time_complexity"; ": "; q "O(n) or O(1) etc."; ",
  "; q "space_complexity"; ": "; q "O(n) or O(1) etc."; "
}" ].

Definition system_message : string :=
  "You are an expert code analysis engine. Always return STRICT JSON matching the requested schema.".

Definition parse_failure (e : exn) : value :=
  VDict [ ("explanation", VStr "Failed to parse code analysis response");
          ("language", VStr "unknown");
          ("bugs", Py.vstr_list ["JSON parsing error occurred"]);
          ("time_complexity", VStr "O(?)");
          ("space_complexity", VStr "O(?)");
          ("success", VBool false);
          ("error", VStr (exn_str e)) ].

Definition other_failure (e : exn) : value :=
  VDict [ ("explanation", VStr ("Error analyzing code: " +:+ exn_str e));
          ("language", VStr "unknown");
          ("bugs", Py.vstr_list ["Analysis failed - ensure LLM provider is reachable"]);
          ("time_complexity", VStr "O(?)");
          ("space_complexity", VStr "O(?)");
          ("success", VBool false);
          ("error", VStr (exn_str e)) ].

(** the messages of the request: the system message and the prompt *)
Definition messages (code_text : string) : list (string * string) :=
  let prompt := prompt_head +:+ code_text +:+ prompt_tail in
  [("system", system_message); ("user", prompt)].

Definition explain_code (env : Env) (code_text : string) : result value :=
  try_except
    (content <- call_llm env (messages code_text) (2 # 10) 600
                  (Some (VDict [("type", VStr "json_object")]));;
     code_analysis <- json_loads env content;;
     (* the argument of the logger.info call *)
     _ <- Py.get code_analysis "language" (VStr "unknown");;
     explanation <- Py.get code_analysis "explanation"
                      (VStr "Code explanation not available");;
     language <- Py.get code_analysis "language" (VStr "unknown");;
     bugs <- Py.get code_analysis "bugs" (VList []);;
     time_complexity <- Py.get code_analysis "time_complexity" (VStr "O(?)");;
     space_complexity <- Py.get code_analysis "space_complexity" (VStr "O(?)");;
     Ok (VDict [ ("explanation", explanation);
                 ("language", language);
                 ("bugs", bugs);
                 ("time_complexity", time_complexity);
                 ("space_complexity", space_complexity);
                 ("success", VBool true) ]))
    (fun e =>
       match e with
       | JSONDecodeError _ | LLMClientError _ => Ok (parse_failure e)
       | _ => Ok (other_failure e)
       end).

End CodeExplainer.

(* ===================================================================== *)
(** ** tasks/qa_handler.py *)
(* ===================================================================== *)

Module QaHandler.

Local Open Scope py_scope.

Definition system_message : string :=
  "You are a friendly and helpful AI assistant. Provide clear, conversational answers.".

Definition user_content (question : string) (context : option string) : string :=
  match context with
  | Some (String _ _ as ctx) =>
"Based on the following context, answer the question in a friendly and helpful manner.

Context:
" +:+ Str.take 2000 ctx +:+ "

Question: " +:+ question +:+ "
"
  | _ =>
"Answer the following question in a friendly and helpful manner:

Question: " +:+ question +:+ "
"
  end.

(** [context is not None] *)
Definition has_context (context : option string) : bool :=
  match context with Some _ => true | None => false end.

Definition answer_question (env : Env) (question : string) (context : option string)
  : result value :=
  try_except
    (let messages := [ ("system", system_message);
                       ("user", user_content question context) ] in
     reply <- call_llm env messages (7 # 10) 400 None;;
     let answer := Str.strip reply in
     Ok (VDict [ ("answer", VStr answer);
                 ("has_context", VBool (has_context context));
                 ("success", VBool true) ]))
    (fun e =>
       Ok (VDict [ ("answer",
                    VStr ("I apologize, but I encountered an error talking to the language model: "
                          +:+ exn_str e
                          +:+ ". Please check your API key and network, then try again."));
                   ("has_context", VBool (has_context context));
                   ("success", VBool false);
                   ("error", VStr (exn_str e)) ])).

End QaHandler.

(* ===================================================================== *)
(** ** tasks/sentiment.py *)
(* ===================================================================== *)

Module Sentiment.

Local Open Scope py_scope.

(** The module-level [sentiment_analyzer] ([None] when loading the pipeline
    raised) and the float operations of [analyze_sentiment] on finite
    floats: [round(x, 3)], [x * 100] (which may overflow to an infinity) and
    [f"{y:.1f}"]. *)
Record Backend := {
  sentiment_analyzer : option (string -> result value);
  round3 : Q -> Q;
  times100 : Q -> pyfloat;
  format_1f : pyfloat -> string }.

(** [round(v, 3)]: an infinity and NaN are returned as they are *)
Definition py_round3 (b : Backend) (v : value) : result value :=
  match v with
  | VFloat (Finite q) => Ok (VFloat (Finite (round3 b q)))
  | VFloat x => Ok (VFloat x)
  | VInt n => Ok (VInt n)
  | VBool t => Ok (VInt (if t then 1 else 0))
  | _ => Raise (TypeError ("type " +:+ Py.type_name v
                           +:+ " doesn't define __round__ method"))
  end.

(** [f"{v*100:.1f}"] for a number [v]: the product of an [int] is an
    [int], which the format converts to a float *)
Definition py_percent (b : Backend) (v : value) : result string :=
  match v with
  | VFloat (Finite q) => Ok (format_1f b (times100 b q))
  | VFloat x => Ok (format_1f b x)
  | VInt n =>
      match Float.of_int (n * 100) with
      | Some q => Ok (format_1f b (Finite q))
      | None => Raise Float.overflow
      end
  | VBool t => Ok (format_1f b (Finite (if t then 100 else 0)))
  | _ => Raise (TypeError "unsupported format string")
  end.

(** [v == s] for a string [s] *)
Definition eq_str (v : value) (s : string) : bool :=
  match v with
  | VStr x => String.eqb x s
  | _ => false
  end.

Definition not_loaded : value :=
  VDict [ ("label", VStr "UNKNOWN");
          ("confidence", VFloat 0);
          ("justification", VStr "Sentiment analysis model not loaded");
          ("success", VBool false);
          ("error", VStr "Model initialization failed") ].

Definition empty_text : value :=
  VDict [ ("label", VStr "NEUTRAL");
          ("confidence", VFloat 0);
          ("justification", VStr "No text provided for analysis");
          ("success", VBool false);
          ("error", VStr "Empty text") ].

Definition positive_text (percent : string) : string :=
  "The text expresses positive sentiment with " +:+ percent
  +:+ "% confidence, indicating favorable tone and constructive content.".

Definition negative_text (percent : string) : string :=
  "The text expresses negative sentiment with " +:+ percent
  +:+ "% confidence, indicating critical or unfavorable tone.".

(** [text[:500] if len(text) > 500 else text] *)
Definition text_preview (text : string) : string :=
  if 500 <? Str.len text then Str.take 500 text else text.

Definition analyze_sentiment (b : Backend) (text : string) : result value :=
  match sentiment_analyzer b with
  | None => Ok not_loaded
  | Some analyzer =>
      try_except
        (if negb (Str.truthy (Str.strip (text_preview text))) then Ok empty_text
         else
           results <- analyzer (text_preview text);;
           result <- getitem0 results;;
           label <- Py.getitem result "label";;
           score <- Py.getitem result "score";;
           confidence <- py_round3 b score;;
           percent <- py_percent b confidence;;
           let justification :=
             if eq_str label "POSITIVE" then positive_text percent
             else negative_text percent in
           Ok (VDict [ ("label", label);
                       ("confidence", confidence);
                       ("justification", VStr justification);
                       ("success", VBool true) ]))
        (fun e =>
           Ok (VDict [ ("label", VStr "UNKNOWN");
                       ("confidence", VFloat 0);
                       ("justification", VStr ("Error during analysis: " +:+ exn_str e));
                       ("success", VBool false);
                       ("error", VStr (exn_str e)) ]))
  end.

End Sentiment.

(* ===================================================================== *)
(** ** The modules as the repository imports them *)
(* ===================================================================== *)

(** [from utils.llm_client import call_llm] in the classifier and the task
    modules: the transport of [env] is the repository's client *)
Definition with_llm_client (http : LlmClient.Http) (env : Env) : Env := {|
  call_llm := LlmClient.call_llm http;
  json_loads := json_loads env;
  float_of_str := float_of_str env;
  str_of := str_of env;
  format_2f := format_2f env;
  extract_from_image := extract_from_image env;
  extract_from_pdf := extract_from_pdf env;
  extract_from_audio := extract_from_audio env;
  extract_youtube_transcript := extract_youtube_transcript env;
  summarize_text := summarize_text env;
  analyze_sentiment := analyze_sentiment env;
  explain_code := explain_code env;
  answer_question := answer_question env |}.

(** the imports of [agents/task_router.py]: the task modules behind the
    handlers are the repository's, over the transport and the JSON parser
    of [env] *)
Definition with_task_modules (b : Sentiment.Backend) (env : Env) : Env := {|
  call_llm := call_llm env;
  json_loads := json_loads env;
  float_of_str := float_of_str env;
  str_of := str_of env;
  format_2f := format_2f env;
  extract_from_image := extract_from_image env;
  extract_from_pdf := extract_from_pdf env;
  extract_from_audio := extract_from_audio env;
  extract_youtube_transcript := extract_youtube_transcript env;
  summarize_text := Summarizer.summarize_text env;
  analyze_sentiment := Sentiment.analyze_sentiment b;
  explain_code := CodeExplainer.explain_code env;
  answer_question := fun question context =>
    QaHandler.answer_question env question (Some context) |}.

(** the exceptions that leave [call_llm] without being raised by the HTTP
    library: the errors of [.get] and [[0]] on a reply of another shape *)
Definition shape_error (e : exn) : Prop :=
  match e with
  | AttributeError _ | TypeError _ => True
  | OtherError cls _ => cls = "KeyError"
  | _ => False
  end.

(** the process environment holds no usable API key *)
Definition no_api_key (http : LlmClient.Http) : Prop :=
  LlmClient.LLM_API_KEY http = None \/ LlmClient.LLM_API_KEY http = Some "".

Module Hosted.

(** The transport with the classes of the exceptions of [requests]: a
    connection error and a timeout are [RequestException]s; the
    [JSONDecodeError] that [resp.json()] raises is a [RequestException] and
    a [ValueError]. *)
Definition library_classes (getenv : string -> option string)
    (post : string -> value -> list (string * string) -> Z -> result LlmClient.Response)
  : LlmClient.Http := {|
  LlmClient.post := post;
  LlmClient.is_request_exception := fun e =>
    match e with
    | OtherError cls _ => String.eqb cls "ConnectionError" || String.eqb cls "Timeout"
    | JSONDecodeError _ => true
    | _ => false
    end;
  LlmClient.is_value_error := fun e =>
    match e with
    | ValueError _ | JSONDecodeError _ => true
    | _ => false
    end;
  LlmClient.getenv := getenv |}.

(** a machine with no [.env] file and no network *)
Definition no_key : LlmClient.Http :=
  library_classes (fun _ => None)
    (fun _ _ _ _ => Raise (OtherError "ConnectionError" "connection refused")).

(** a provider that answers every request with [reply] *)
Definition provider (reply : LlmClient.Response) : LlmClient.Http :=
  library_classes
    (fun k => if String.eqb k "LLM_API_KEY" then Some "gsk_test" else None)
    (fun _ _ _ _ => Ok reply).

(** a chat completion whose first choice says [content] *)
Definition chat_reply (content : string) : LlmClient.Response := {|
  LlmClient.status_code := 200;
  LlmClient.text := "{...}";
  LlmClient.json :=
    Ok (VDict [ ("id", VStr "chatcmpl-1");
                ("choices",
                 VList [ VDict [ ("index", VInt 0);
                                 ("message",
                                  VDict [ ("role", VStr "assistant");
                                          ("content", VStr content) ]) ] ]) ]) |}.

(** a 200 reply whose body is a JSON list *)
Definition list_reply : LlmClient.Response := {|
  LlmClient.status_code := 200;
  LlmClient.text := "[]";
  LlmClient.json := Ok (VList []) |}.

(** [Sample.offline] with a JSON parser that returns [parsed] *)
Definition parsing (parsed : value) : Env := {|
  call_llm := call_llm Sample.offline;
  json_loads := fun _ => Ok parsed;
  float_of_str := float_of_str Sample.offline;
  str_of := str_of Sample.offline;
  format_2f := format_2f Sample.offline;
  extract_from_image := extract_from_image Sample.offline;
  extract_from_pdf := extract_from_pdf Sample.offline;
  extract_from_audio := extract_from_audio Sample.offline;
  extract_youtube_transcript := extract_youtube_transcript Sample.offline;
  summarize_text := summarize_text Sample.offline;
  analyze_sentiment := analyze_sentiment Sample.offline;
  explain_code := explain_code Sample.offline;
  answer_question := answer_question Sample.offline |}.

(** the provider's reply is [content], which parses to [parsed] *)
Definition replying (content : string) (parsed : value) : Env :=
  with_llm_client (provider (chat_reply content)) (parsing parsed).

(** a loaded model that labels every text [label] with score [score] *)
Definition model (label : string) (score : Q) : Sentiment.Backend := {|
  Sentiment.sentiment_analyzer :=
    Some (fun _ => Ok (VList [VDict [("label", VStr label); ("score", VFloat score)]]));
  Sentiment.round3 := fun x => x;
  Sentiment.times100 := fun x => Finite (x * 100);
  Sentiment.format_1f := fun _ => "99.9" |}.

End Hosted.

(* ===================================================================== *)
(** ** Properties of the classifier *)
(* ===================================================================== *)

Lemma dict_lookup_set (d : Py.dict) (k : string) (v : value) :
  Py.dict_lookup (Py.dict_set d k v) k = Some v.
Proof.
  induction d as [|[k' v'] d IH]; simpl.
  - now rewrite String.eqb_refl.
  - destruct (String.eqb k' k) eqn:E; simpl; rewrite E; [reflexivity | exact IH].
Qed.

Lemma dict_lookup_set_other (d : Py.dict) (k k' : string) (v : value) :
  k <> k' -> Py.dict_lookup (Py.dict_set d k v) k' = Py.dict_lookup d k'.
Proof.
  intros Hne. induction d as [|[k0 v0] d IH]; simpl.
  - destruct (String.eqb k k') eqn:E; [apply String.eqb_eq in E; contradiction | reflexivity].
  - destruct (String.eqb k0 k) eqn:E; simpl.
    + apply String.eqb_eq in E. subst k0.
      destruct (String.eqb k k') eqn:E'; [apply String.eqb_eq in E'; contradiction | reflexivity].
    + now rewrite IH.
Qed.

(** Whatever the transport and the parser do, [classify] returns one of two
    shapes: the record built from the reply, or the fallback. *)
Lemma classify_cases (env : Env) (extracted_text : string) (user_query : option string) :
  (exists intent confidence needs question reasoning,
      IntentClassifier.classify env extracted_text user_query =
      Ok (VDict [ ("intent", intent);
                  ("confidence", VFloat confidence);
                  ("needs_clarification", VBool needs);
                  ("clarification_question", question);
                  ("reasoning", reasoning);
                  ("success", VBool true) ]))
  \/ IntentClassifier.classify env extracted_text user_query =
     Ok IntentClassifier._get_fallback_intent.
Proof.
  unfold IntentClassifier.classify.
  destruct (call_llm env _ _ _ _) as [content|e]; [|right; reflexivity].
  cbn [Py.bind]. destruct (json_loads env content) as [data|e]; [|right; reflexivity].
  cbn [Py.bind]. destruct data as [| | | | |l|d]; try (right; reflexivity).
  cbn [Py.get Py.bind].
  destruct (py_float env _) as [c|e]; [|right; reflexivity].
  left. cbn [Py.bind Py.try_except]. eauto 10.
Qed.

(** C1. For every extracted text and user query, [classify] returns (it
    never raises) and what it returns is a well-formed ClassificationResult;
    when the result has [success = false] it is the fixed fallback: intent
    "unknown", confidence 0.0, [needs_clarification = true] and the canned
    clarification question, which is not null. *)
Theorem classify_total_with_fallback :
  forall (env : Env) (extracted_text : string) (user_query : option string),
  exists r,
    IntentClassifier.classify env extracted_text user_query = Ok r
    /\ well_formed_classification r
    /\ (vfield r "success" = Some (VBool false) ->
        vfield r "intent" = Some (VStr "unknown")
        /\ vfield r "confidence" = Some (VFloat 0)
        /\ vfield r "needs_clarification" = Some (VBool true)
        /\ vfield r "clarification_question"
           = Some (VStr IntentClassifier.canned_question)
        /\ vfield r "clarification_question" <> Some VNone).
Proof.
  intros env text uq.
  destruct (classify_cases env text uq)
    as [(i & c & n & cq & rs & Heq) | Heq]; rewrite Heq; eexists; split; try reflexivity.
  - split; [unfold well_formed_classification; eauto 10 |].
    cbn. intros H. discriminate H.
  - split; [unfold well_formed_classification, IntentClassifier._get_fallback_intent; eauto 10 |].
    intros _. cbn. repeat split; discriminate.
Qed.

(* ===================================================================== *)
(** ** Properties of the task router *)
(* ===================================================================== *)

(** a string intent always selects a handler *)
Lemma select_handler_string (self : TaskRouter.t) (intent : string) :
  TaskRouter.select_handler self (VStr intent)
  = Ok (from_option id TaskRouter._handle_unknown
          (TaskRouter.map_lookup (TaskRouter.task_map self) intent)).
Proof. reflexivity. Qed.

(** [execute] with a selected handler: the two ways it ends *)
Lemma execute_with_handler (self : TaskRouter.t) (env : Env) (intent : value)
    (content : string) (user_query : option string) (h : TaskRouter.handler) :
  TaskRouter.select_handler self intent = Ok h ->
  TaskRouter.execute self env intent content user_query =
  match h content user_query with
  | Ok (VDict d) => Ok (VDict (Py.dict_set d "task_type" intent))
  | Ok r =>
      match Py.setitem r "task_type" intent with
      | Ok r' => Ok r'
      | Raise e => Ok (failure_result env intent e)
      end
  | Raise e => Ok (failure_result env intent e)
  end.
Proof.
  intros Hsel. unfold TaskRouter.execute. rewrite Hsel. cbn [Py.bind].
  destruct (h content user_query) as [[| | | | | |d]|e]; reflexivity.
Qed.

(** [execute] returns a dictionary whose [task_type] is the intent, for
    every router and every hashable intent. *)
Lemma execute_task_type (self : TaskRouter.t) (env : Env) (intent : value)
    (content : string) (user_query : option string) (h : TaskRouter.handler) :
  TaskRouter.select_handler self intent = Ok h ->
  exists d, TaskRouter.execute self env intent content user_query = Ok (VDict d)
            /\ Py.dict_lookup d "task_type" = Some intent.
Proof.
  intros Hsel. rewrite (execute_with_handler _ _ _ _ _ _ Hsel).
  destruct (h content user_query) as [[| | | | | |d]|e];
    eexists; (split; [reflexivity|]); try reflexivity.
  apply dict_lookup_set.
Qed.

Lemma map_lookup_unrouted (env : Env) (intent : string) :
  ~ In intent routed_intents ->
  TaskRouter.map_lookup (TaskRouter.task_map (TaskRouter.init env)) intent = None.
Proof.
  intros Hnot. unfold TaskRouter.init.
  cbn [TaskRouter.task_map TaskRouter.map_lookup].
  repeat match goal with
         | |- context [String.eqb ?k intent] =>
             let E := fresh "E" in
             destruct (String.eqb k intent) eqn:E;
             [apply String.eqb_eq in E; exfalso; apply Hnot; rewrite <- E; cbn; tauto|]
         end.
  reflexivity.
Qed.

(** the result of a handler of the table, when it returns, names its key *)
Lemma routed_handler_result_type (env : Env) (intent : string)
    (h : TaskRouter.handler) (content : string) (user_query : option string) (r : value) :
  TaskRouter.map_lookup (TaskRouter.task_map (TaskRouter.init env)) intent = Some h ->
  h content user_query = Ok r ->
  exists d, r = VDict d /\ Py.dict_lookup d "result_type" = Some (VStr intent).
Proof.
  unfold TaskRouter.init. cbn [TaskRouter.task_map TaskRouter.map_lookup].
  intros Hh Hr.
  repeat match type of Hh with
         | context [String.eqb ?k intent] =>
             let E := fresh "E" in
             destruct (String.eqb k intent) eqn:E;
             [apply String.eqb_eq in E; subst intent; injection Hh as <- |]
         end; try discriminate Hh.
  all: revert Hr;
    unfold TaskRouter._handle_text_extraction, TaskRouter._handle_youtube,
      TaskRouter._handle_summarization, TaskRouter._handle_sentiment,
      TaskRouter._handle_code, TaskRouter._handle_qa, TaskRouter._handle_unknown,
      Py.bind.
  all: repeat case_match; intros Hr; try discriminate Hr;
    injection Hr as <-; eexists; split; reflexivity.
Qed.

(** C4, as the code has it. For every intent string, content and utterance,
    [execute] returns a dictionary whose [task_type] is the requested intent,
    also when the intent is outside the routing table and the unknown-intent
    handler runs. The [result_type] field names the handler that ran: for an
    intent outside the table it is "unknown"; for a key of the table it is
    the requested intent whenever the handler of that key returned, and when
    that handler raised the result is the failure record, which has no
    [result_type]. *)
Theorem execute_task_type_is_intent :
  forall (env : Env) (intent content : string) (user_query : option string),
  exists d,
    TaskRouter.execute (TaskRouter.init env) env (VStr intent) content user_query
    = Ok (VDict d)
    /\ Py.dict_lookup d "task_type" = Some (VStr intent)
    /\ (~ In intent routed_intents ->
        Py.dict_lookup d "result_type" = Some (VStr "unknown"))
    /\ (In intent routed_intents ->
        exists h,
          TaskRouter.map_lookup (TaskRouter.task_map (TaskRouter.init env)) intent
          = Some h
          /\ (forall r, h content user_query = Ok r ->
                        Py.dict_lookup d "result_type" = Some (VStr intent))
          /\ (forall e, h content user_query = Raise e ->
                        VDict d = failure_result env (VStr intent) e
                        /\ Py.dict_lookup d "result_type" = None
                        /\ Py.dict_lookup d "success" = Some (VBool false))).
Proof.
  intros env intent content uq.
  pose proof (select_handler_string (TaskRouter.init env) intent) as Hsel.
  rewrite (execute_with_handler _ _ _ _ _ _ Hsel).
  destruct (TaskRouter.map_lookup (TaskRouter.task_map (TaskRouter.init env)) intent)
    as [h|] eqn:Hlk; cbn [from_option id].
  - assert (Hin : In intent routed_intents).
    { destruct (in_dec string_dec intent routed_intents) as [Hin|Hnot]; [exact Hin|].
      rewrite (map_lookup_unrouted env intent Hnot) in Hlk. discriminate Hlk. }
    destruct (h content uq) as [r|e] eqn:Hr.
    + destruct (routed_handler_result_type env intent h content uq r Hlk Hr)
        as (d & -> & Hrt).
      eexists. split; [reflexivity|]. split; [apply dict_lookup_set|].
      split; [intros Hnot; contradiction|]. intros _. exists h.
      split; [reflexivity|].
      split; [|intros e He; rewrite Hr in He; discriminate He].
      intros r' _. rewrite dict_lookup_set_other; [exact Hrt | discriminate].
    + eexists. split; [reflexivity|]. split; [reflexivity|].
      split; [intros Hnot; contradiction|]. intros _. exists h.
      split; [reflexivity|].
      split; [intros r Hr'; rewrite Hr in Hr'; discriminate Hr'|].
      intros e' He. rewrite Hr in He. injection He as <-. repeat split.
  - assert (Hnot : ~ In intent routed_intents).
    { intros Hin. cbn in Hin.
      repeat (destruct Hin as [<-|Hin]; [cbn in Hlk; discriminate Hlk|]).
      exact Hin. }
    cbn. eexists. split; [reflexivity|]. split; [reflexivity|].
    split; [intros _; reflexivity | intros Hin; contradiction].
Qed.

(** C4, counterexample to the claim as stated: for the intent "translate",
    which is outside the routing table, the result has [task_type]
    "translate" but its [result_type] is "unknown", not the requested
    intent. *)
Lemma execute_result_type_differs :
  exists d,
    TaskRouter.execute (TaskRouter.init Sample.offline) Sample.offline
      (VStr "translate") "Bonjour tout le monde" None = Ok (VDict d)
    /\ Py.dict_lookup d "task_type" = Some (VStr "translate")
    /\ Py.dict_lookup d "result_type" = Some (VStr "unknown")
    /\ Py.dict_lookup d "result_type" <> Some (VStr "translate").
Proof.
  eexists. split; [reflexivity|]. cbn. repeat split. discriminate.
Qed.

(** C5. [execute] never lets a handler's exception out: for every router,
    intent, content and utterance, when the selected handler raises [e],
    [execute] returns the dictionary with [success = false], [task_type] the
    requested intent, [error] the text of [e], and the message
    "Failed to execute <intent> task". *)
Theorem execute_contains_handler_failure :
  forall (self : TaskRouter.t) (env : Env) (intent : value) (content : string)
         (user_query : option string) (h : TaskRouter.handler) (e : exn),
    TaskRouter.select_handler self intent = Ok h ->
    h content user_query = Raise e ->
    TaskRouter.execute self env intent content user_query
    = Ok (VDict [ ("task_type", intent);
                  ("success", VBool false);
                  ("error", VStr (exn_str e));
                  ("message",
                   VStr ("Failed to execute " +:+ fmt env intent +:+ " task")) ]).
Proof.
  intros self env intent content uq h e Hsel Hraise.
  rewrite (execute_with_handler _ _ _ _ _ _ Hsel), Hraise. reflexivity.
Qed.

(** C5 at a concrete run: the summarization backend crashes. *)
Lemma execute_contains_handler_failure_witness :
  TaskRouter.execute (TaskRouter.init Sample.offline) Sample.offline
    (VStr "summarization") "A long report." None
  = Ok (VDict [ ("task_type", VStr "summarization");
                ("success", VBool false);
                ("error", VStr "backend crashed");
                ("message", VStr "Failed to execute summarization task") ]).
Proof.
  exact (execute_contains_handler_failure (TaskRouter.init Sample.offline)
           Sample.offline (VStr "summarization") "A long report." None
           (TaskRouter._handle_summarization Sample.offline)
           (OtherError "RuntimeError" "backend crashed")
           eq_refl eq_refl).
Defined.

(* ===================================================================== *)
(** ** Properties of the endpoints *)
(* ===================================================================== *)

Import App.

Lemma execute_raises_only_unhashable (self : TaskRouter.t) (env : Env)
    (intent : value) (content : string) (user_query : option string) (e : exn) :
  TaskRouter.execute self env intent content user_query = Raise e ->
  e = TypeError ("unhashable type: '" +:+ Py.type_name intent +:+ "'")
  /\ Py.hashable intent = false.
Proof.
  unfold TaskRouter.execute.
  destruct (TaskRouter.select_handler self intent) as [h|e'] eqn:Hsel.
  - cbn [Py.bind]. destruct (h content user_query) as [[| | | | | |d]|e'']; discriminate.
  - cbn [Py.bind]. intros [= <-].
    destruct intent; cbn in Hsel; try discriminate Hsel;
      injection Hsel as <-; split; reflexivity.
Qed.

Lemma execute_returns_dict (self : TaskRouter.t) (env : Env)
    (intent : value) (content : string) (user_query : option string) (final : value) :
  TaskRouter.execute self env intent content user_query = Ok final ->
  exists d, final = VDict d.
Proof.
  unfold TaskRouter.execute.
  destruct (TaskRouter.select_handler self intent) as [h|e'] eqn:Hsel;
    cbn [Py.bind]; [|discriminate].
  destruct (h content user_query) as [[| | | | | |d]|e'']; cbn;
    intros [= <-]; eauto.
Qed.

(** a list of strings renders *)
Lemma compliant_vstr_list (l : list string) : Json.compliant (Py.vstr_list l) = true.
Proof.
  unfold Py.vstr_list. cbn [Json.compliant].
  induction l as [|a l IH]; [reflexivity | exact IH].
Qed.

(** the body of an error response renders *)
Lemma compliant_error_body (e : exn) (lg : list string) :
  Json.compliant (body (error_response e lg)) = true.
Proof.
  cbn [error_response body Json.compliant forallb snd].
  change (VList (map VStr lg)) with (Py.vstr_list lg).
  now rewrite compliant_vstr_list.
Qed.

(** the body of a submit response that asks for clarification renders when
    its metadata, question and reasoning do *)
Lemma compliant_clarification_body (preview sid : string) (md question reasoning : value)
    (lg : list string) :
  Json.compliant (VDict [ ("status", VStr "needs_clarification");
                          ("extracted_content", VStr preview);
                          ("extraction_metadata", md);
                          ("question", question);
                          ("reasoning", reasoning);
                          ("logs", Py.vstr_list lg);
                          ("session_id", VStr sid) ])
  = Json.compliant md && Json.compliant question && Json.compliant reasoning.
Proof.
  cbn [Json.compliant forallb snd].
  change (forallb Json.compliant (map VStr lg)) with (Json.compliant (Py.vstr_list lg)).
  rewrite compliant_vstr_list.
  destruct (Json.compliant md), (Json.compliant question), (Json.compliant reasoning);
    reflexivity.
Qed.

(** the body of a clarify response that asks again renders when its
    question does *)
Lemma compliant_question_body (question : value) (lg : list string) :
  Json.compliant (VDict [ ("status", VStr "needs_clarification");
                          ("question", question);
                          ("logs", Py.vstr_list lg) ])
  = Json.compliant question.
Proof.
  cbn [Json.compliant forallb snd].
  change (forallb Json.compliant (map VStr lg)) with (Json.compliant (Py.vstr_list lg)).
  rewrite compliant_vstr_list. destruct (Json.compliant question); reflexivity.
Qed.



(** a request whose [try] block ends in [return JSONResponse(content)] *)
Lemma run_request_answer (lg0 : list string) (m : M JSONResponse) (w : World)
    (content : value) (st' : State) :
  m {| world := w; logs := lg0 |} = (json_response content 200, st') ->
  run_request lg0 m w = (Ok (answer content (logs st')), world st').
Proof.
  intros Hm. unfold run_request, guard. rewrite Hm.
  unfold json_response, answer.
  destruct (Json.compliant content); [reflexivity|].
  cbn [Json.out_of_range]. cbv zeta.
  pose proof (compliant_error_body Json.out_of_range
                (logs st' ++ ["✗ Error: " +:+ exn_str Json.out_of_range])) as Hc.
  cbn [error_response body] in Hc. cbn [Json.out_of_range] in Hc.
  unfold json_response. rewrite Hc. reflexivity.
Qed.

(** a request whose [try] block raises another exception than an HTTP error *)
Lemma run_request_error (lg0 : list string) (m : M JSONResponse) (w : World)
    (e : exn) (st' : State) :
  m {| world := w; logs := lg0 |} = (Raise e, st') ->
  (forall c d, e <> HTTPException c d) ->
  run_request lg0 m w
  = (Ok (error_response e (logs st' ++ ["✗ Error: " +:+ exn_str e])), world st').
Proof.
  intros Hm Hne. unfold run_request, guard. rewrite Hm.
  pose proof (compliant_error_body e (logs st' ++ ["✗ Error: " +:+ exn_str e])) as Hc.
  cbn [error_response body] in Hc.
  destruct e; try (exfalso; eapply Hne; reflexivity);
    cbv zeta; unfold json_response; rewrite Hc; reflexivity.
Qed.

Lemma process_extracted_short (env : Env) (text : option string) (sid c : string)
    (md : value) (st : State) :
  negb (Str.truthy c) || (Str.len (Str.strip c) <? 5) = true ->
  process_extracted env text sid c md st
  = (Ok (insufficient_content (logs st ++ ["⚠ Warning: Very little content extracted"])),
     {| world := world st;
        logs := logs st ++ ["⚠ Warning: Very little content extracted"] |}).
Proof.
  intros H. unfold process_extracted. rewrite H.
  unfold bind, log, get_logs, lift, json_response. cbn [world logs].
  pose proof (compliant_vstr_list
                (logs st ++ ["⚠ Warning: Very little content extracted"])) as Hc.
  cbn [insufficient_content body Json.compliant forallb snd].
  change (forallb Json.compliant
            (map VStr (logs st ++ ["⚠ Warning: Very little content extracted"])))
    with (Json.compliant
            (Py.vstr_list (logs st ++ ["⚠ Warning: Very little content extracted"]))).
  rewrite Hc. reflexivity.
Qed.

Lemma process_extracted_long (env : Env) (text : option string) (sid c : string)
    (md : value) (st : State) :
  negb (Str.truthy c) || (Str.len (Str.strip c) <? 5) = false ->
  exists intent confidence needs question reasoning success,
    IntentClassifier.classify env c text
    = Ok (VDict [ ("intent", intent);
                  ("confidence", VFloat confidence);
                  ("needs_clarification", VBool needs);
                  ("clarification_question", question);
                  ("reasoning", reasoning);
                  ("success", VBool success) ])
    /\ if needs then
        exists lg,
        process_extracted env text sid c md st
        = (json_response
             (VDict [ ("status", VStr "needs_clarification");
                      ("extracted_content", VStr (preview 500 c));
                      ("extraction_metadata", md);
                      ("question", question);
                      ("reasoning", reasoning);
                      ("logs", Py.vstr_list lg);
                      ("session_id", VStr sid) ]) 200,
           {| world :=
                {| conversation_contexts :=
                     <[sid := {| extracted_content := c; extraction_metadata := md |}]>
                       (conversation_contexts (world st));
                   calls := calls (world st) ++ [Classify c text] |};
              logs := lg |})
      else
        match TaskRouter.execute (TaskRouter.init env) env intent c text with
        | Ok final =>
            exists lg,
            process_extracted env text sid c md st
            = (json_response
                 (VDict [ ("status", VStr "success");
                          ("extracted_content", VStr (preview 1000 c));
                          ("extraction_metadata", md);
                          ("intent",
                           VDict [ ("type", intent);
                                   ("confidence", VFloat confidence);
                                   ("reasoning", reasoning) ]);
                          ("result", final);
                          ("logs", Py.vstr_list lg) ]) 200,
               {| world :=
                    {| conversation_contexts := conversation_contexts (world st);
                       calls := (calls (world st) ++ [Classify c text])
                                ++ [Execute intent c text] |};
                  logs := lg |})
        | Raise e =>
            exists lg,
            process_extracted env text sid c md st
            = (Raise e,
               {| world :=
                    {| conversation_contexts := conversation_contexts (world st);
                       calls := (calls (world st) ++ [Classify c text])
                                ++ [Execute intent c text] |};
                  logs := lg |})
        end.
Proof.
  intros H.
  assert (Hshape : exists intent confidence needs question reasoning success,
             IntentClassifier.classify env c text
             = Ok (VDict [ ("intent", intent);
                           ("confidence", VFloat confidence);
                           ("needs_clarification", VBool needs);
                           ("clarification_question", question);
                           ("reasoning", reasoning);
                           ("success", VBool success) ])).
  { destruct (classify_cases env c text) as [(i & cf & n & cq & rs & Heq) | Heq];
      rewrite Heq; unfold IntentClassifier._get_fallback_intent; eauto 10. }
  destruct Hshape as (i & cf & n & cq & rs & s & Heq).
  exists i, cf, n, cq, rs, s. split; [exact Heq|].
  unfold process_extracted. rewrite H.
  unfold bind, call_classify, call_execute, record_call, lift, log, get_logs, ret,
    contexts_set.
  cbn [world logs conversation_contexts calls]. rewrite Heq.
  destruct n, s;
    cbn -[TaskRouter.execute preview String.append json_response];
    try (eexists; reflexivity).
  all: destruct (TaskRouter.execute (TaskRouter.init env) env i c text)
         as [final|e] eqn:Hex;
    cbn -[preview String.append json_response]; try (eexists; reflexivity).
  all: destruct (execute_returns_dict _ _ _ _ _ _ Hex) as [d ->];
    cbn -[preview String.append json_response];
    destruct (Py.truthy _); eexists; reflexivity.
Qed.

(** STEP 1 touches the log only, and fails only with an HTTP 400. *)
Lemma extraction_step_effect (env : Env) (text : option string)
    (file : option UploadFile) (st : State) :
  world (snd (extraction_step env text file st)) = world st
  /\ forall e, fst (extraction_step env text file st) = Raise e ->
               exists detail, e = HTTPException 400 detail.
Proof.
  unfold extraction_step, bind, log, ret, raise.
  repeat case_match; cbn; split; try reflexivity; intros e0 He; try discriminate He;
    injection He as <-; eauto.
Qed.

(** the metadata STEP 1 returns renders *)
Lemma extraction_step_compliant (env : Env) (text : option string)
    (file : option UploadFile) (st : State) (c : string) (md : value) (st1 : State) :
  extraction_step env text file st = (Ok (c, md), st1) ->
  Json.compliant md = true.
Proof.
  unfold extraction_step, bind, log, ret, raise.
  repeat case_match; intros Hx; simplify_eq; cbn [Json.compliant forallb snd];
    rewrite ?img_confidence_finite, ?aud_duration_finite, ?yt_duration_finite;
    reflexivity.
Qed.

(** [process_input] when STEP 1 fails: the HTTP error goes to the caller. *)
Lemma process_input_rejected (env : Env) (text : option string)
    (file : option UploadFile) (sid : string) (w : World) (e : exn) (st1 : State) :
  extraction_step env text file (initial_state w) = (Raise e, st1) ->
  process_input env text file sid w = (Raise e, w).
Proof.
  intros Hex.
  destruct (extraction_step_effect env text file (initial_state w)) as [Hw Hhttp].
  rewrite Hex in Hw, Hhttp. cbn in Hw, Hhttp.
  destruct (Hhttp e eq_refl) as [detail ->].
  unfold process_input, run_request, guard, process_body, bind, log.
  cbn [world logs app]. change {| world := w; logs := ["Processing your request..."] |}
    with (initial_state w).
  rewrite Hex. cbn. now rewrite Hw.
Qed.

(** [process_input] when STEP 1 returns: the rest of the body runs under the
    two [except] clauses. *)
Lemma process_input_extracted (env : Env) (text : option string)
    (file : option UploadFile) (sid : string) (w : World) (c : string) (md : value)
    (st1 : State) :
  extraction_step env text file (initial_state w) = (Ok (c, md), st1) ->
  world st1 = w
  /\ process_input env text file sid w
     = run_request (logs st1) (process_extracted env text sid c md) w.
Proof.
  intros Hex.
  destruct (extraction_step_effect env text file (initial_state w)) as [Hw _].
  rewrite Hex in Hw. cbn in Hw. split; [exact Hw|].
  unfold process_input, run_request, guard, process_body, bind, log.
  cbn [world logs app]. change {| world := w; logs := ["Processing your request..."] |}
    with (initial_state w).
  rewrite Hex. destruct st1 as [w1 l1]. cbn in Hw. subst w1. reflexivity.
Qed.

Lemma clarify_intent_unknown_session (env : Env) (clarification sid : string) (w : World) :
  conversation_contexts w !! sid = None ->
  clarify_intent env clarification sid w = (Raise session_error, w).
Proof.
  intros Hnone.
  unfold clarify_intent, run_request, guard, clarify_body, bind, contexts_get, log, raise.
  cbn [world logs]. rewrite Hnone. reflexivity.
Qed.

(** the body of [clarify_intent] for a stored session: the ways it ends *)
Lemma clarify_body_known_session (env : Env) (clarification sid : string) (w : World)
    (ctx : SessionContext) :
  conversation_contexts w !! sid = Some ctx ->
  exists intent confidence needs question reasoning success,
    IntentClassifier.classify env (extracted_content ctx) (Some clarification)
    = Ok (VDict [ ("intent", intent);
                  ("confidence", VFloat confidence);
                  ("needs_clarification", VBool needs);
                  ("clarification_question", question);
                  ("reasoning", reasoning);
                  ("success", VBool success) ])
    /\ if needs then
         exists lg,
         clarify_body env clarification sid
           {| world := w; logs := ["Processing your clarification..."] |}
         = (json_response
              (VDict [ ("status", VStr "needs_clarification");
                       ("question", question);
                       ("logs", Py.vstr_list lg) ]) 200,
            {| world :=
                 {| conversation_contexts := conversation_contexts w;
                    calls := calls w
                             ++ [Classify (extracted_content ctx) (Some clarification)] |};
               logs := lg |})
       else
         match TaskRouter.execute (TaskRouter.init env) env intent
                 (extracted_content ctx) (Some clarification) with
         | Ok final =>
             exists lg,
             clarify_body env clarification sid
               {| world := w; logs := ["Processing your clarification..."] |}
             = (json_response
                  (VDict [ ("status", VStr "success");
                           ("extracted_content",
                            VStr (preview 1000 (extracted_content ctx)));
                           ("extraction_metadata", extraction_metadata ctx);
                           ("intent",
                            VDict [ ("type", intent);
                                    ("confidence", VFloat confidence) ]);
                           ("result", final);
                           ("logs", Py.vstr_list lg) ]) 200,
                {| world :=
                     {| conversation_contexts := delete sid (conversation_contexts w);
                        calls := (calls w
                                  ++ [Classify (extracted_content ctx)
                                        (Some clarification)])
                                 ++ [Execute intent (extracted_content ctx)
                                       (Some clarification)] |};
                   logs := lg |})
         | Raise e =>
             exists lg,
             clarify_body env clarification sid
               {| world := w; logs := ["Processing your clarification..."] |}
             = (Raise e,
                {| world :=
                     {| conversation_contexts := conversation_contexts w;
                        calls := (calls w
                                  ++ [Classify (extracted_content ctx)
                                        (Some clarification)])
                                 ++ [Execute intent (extracted_content ctx)
                                       (Some clarification)] |};
                   logs := lg |})
         end.
Proof.
  intros Hctx.
  assert (Hshape : exists intent confidence needs question reasoning success,
             IntentClassifier.classify env (extracted_content ctx) (Some clarification)
             = Ok (VDict [ ("intent", intent);
                           ("confidence", VFloat confidence);
                           ("needs_clarification", VBool needs);
                           ("clarification_question", question);
                           ("reasoning", reasoning);
                           ("success", VBool success) ])).
  { destruct (classify_cases env (extracted_content ctx) (Some clarification))
      as [(i & cf & n & cq & rs & Heq) | Heq];
      rewrite Heq; unfold IntentClassifier._get_fallback_intent; eauto 10. }
  destruct Hshape as (i & cf & n & cq & rs & s & Heq).
  exists i, cf, n, cq, rs, s. split; [exact Heq|].
  unfold clarify_body, bind, contexts_get,
    call_classify, call_execute, record_call, lift, log, get_logs, ret, contexts_del.
  cbn [world logs conversation_contexts calls]. rewrite Hctx.
  cbn [world logs conversation_contexts calls]. rewrite Heq.
  destruct n;
    cbn -[TaskRouter.execute preview String.append lookup delete json_response];
    try (eexists; reflexivity).
  destruct (TaskRouter.execute (TaskRouter.init env) env i (extracted_content ctx)
              (Some clarification)) as [final|e] eqn:Hex;
    cbn -[preview String.append lookup delete json_response].
  - destruct (execute_returns_dict _ _ _ _ _ _ Hex) as [d ->].
    cbn -[preview String.append lookup delete json_response].
    destruct (Py.truthy _); cbn -[preview String.append lookup delete json_response];
      rewrite Hctx; eexists; reflexivity.
  - eexists; reflexivity.
Qed.

(** [clarify_intent] for a stored session: the ways it answers. A response
    built in the [try] block is answered as [answer] says. *)
Lemma clarify_intent_known_session (env : Env) (clarification sid : string) (w : World)
    (ctx : SessionContext) :
  conversation_contexts w !! sid = Some ctx ->
  exists intent confidence needs question reasoning success,
    IntentClassifier.classify env (extracted_content ctx) (Some clarification)
    = Ok (VDict [ ("intent", intent);
                  ("confidence", VFloat confidence);
                  ("needs_clarification", VBool needs);
                  ("clarification_question", question);
                  ("reasoning", reasoning);
                  ("success", VBool success) ])
    /\ if needs then
         exists lg,
         clarify_intent env clarification sid w
         = (Ok (answer (VDict [ ("status", VStr "needs_clarification");
                                ("question", question);
                                ("logs", Py.vstr_list lg) ]) lg),
            {| conversation_contexts := conversation_contexts w;
               calls := calls w
                        ++ [Classify (extracted_content ctx) (Some clarification)] |})
       else
         match TaskRouter.execute (TaskRouter.init env) env intent
                 (extracted_content ctx) (Some clarification) with
         | Ok final =>
             exists lg,
             clarify_intent env clarification sid w
             = (Ok (answer
                      (VDict [ ("status", VStr "success");
                               ("extracted_content",
                                VStr (preview 1000 (extracted_content ctx)));
                               ("extraction_metadata", extraction_metadata ctx);
                               ("intent",
                                VDict [ ("type", intent);
                                        ("confidence", VFloat confidence) ]);
                               ("result", final);
                               ("logs", Py.vstr_list lg) ]) lg),
                {| conversation_contexts := delete sid (conversation_contexts w);
                   calls := (calls w
                             ++ [Classify (extracted_content ctx) (Some clarification)])
                            ++ [Execute intent (extracted_content ctx)
                                  (Some clarification)] |})
         | Raise e =>
             exists lg,
             clarify_intent env clarification sid w
             = (Ok (error_response e lg),
                {| conversation_contexts := conversation_contexts w;
                   calls := (calls w
                             ++ [Classify (extracted_content ctx) (Some clarification)])
                            ++ [Execute intent (extracted_content ctx)
                                  (Some clarification)] |})
         end.
Proof.
  intros Hctx.
  destruct (clarify_body_known_session env clarification sid w ctx Hctx)
    as (i & cf & n & cq & rs & s & Heq & Hcase).
  exists i, cf, n, cq, rs, s. split; [exact Heq|]. unfold clarify_intent.
  destruct n.
  - destruct Hcase as [lg Hp]. exists lg.
    rewrite (run_request_answer _ _ _ _ _ Hp). reflexivity.
  - destruct (TaskRouter.execute (TaskRouter.init env) env i (extracted_content ctx)
                (Some clarification)) as [final|e] eqn:Hx.
    + destruct Hcase as [lg Hp]. exists lg.
      rewrite (run_request_answer _ _ _ _ _ Hp). reflexivity.
    + destruct Hcase as [lg Hp].
      destruct (execute_raises_only_unhashable _ _ _ _ _ _ Hx) as [-> _].
      eexists. rewrite (run_request_error _ _ _ _ _ Hp); [reflexivity | discriminate].
Qed.

Lemma too_short_iff (c : string) :
  negb (Str.truthy c) || (Str.len (Str.strip c) <? 5)
  = (Str.len (Str.strip c) <? 5).
Proof. destruct c; reflexivity. Qed.

(** [process_input] once STEP 1 has returned a content of sufficient
    length: the three ways it ends. A response built in the [try] block is
    answered as [answer] says. *)
Lemma process_input_classified (env : Env) (text : option string)
    (file : option UploadFile) (sid : string) (w : World) (c : string) (md : value)
    (st1 : State) :
  extraction_step env text file (initial_state w) = (Ok (c, md), st1) ->
  5 <= Str.len (Str.strip c) ->
  exists intent confidence needs question reasoning success,
    IntentClassifier.classify env c text
    = Ok (VDict [ ("intent", intent);
                  ("confidence", VFloat confidence);
                  ("needs_clarification", VBool needs);
                  ("clarification_question", question);
                  ("reasoning", reasoning);
                  ("success", VBool success) ])
    /\ if needs then
        exists lg,
        process_input env text file sid w
        = (Ok (answer (VDict [ ("status", VStr "needs_clarification");
                               ("extracted_content", VStr (preview 500 c));
                               ("extraction_metadata", md);
                               ("question", question);
                               ("reasoning", reasoning);
                               ("logs", Py.vstr_list lg);
                               ("session_id", VStr sid) ]) lg),
           {| conversation_contexts :=
                <[sid := {| extracted_content := c; extraction_metadata := md |}]>
                  (conversation_contexts w);
              calls := calls w ++ [Classify c text] |})
      else
        match TaskRouter.execute (TaskRouter.init env) env intent c text with
        | Ok final =>
            exists lg,
            process_input env text file sid w
            = (Ok (answer (VDict [ ("status", VStr "success");
                                   ("extracted_content", VStr (preview 1000 c));
                                   ("extraction_metadata", md);
                                   ("intent",
                                    VDict [ ("type", intent);
                                            ("confidence", VFloat confidence);
                                            ("reasoning", reasoning) ]);
                                   ("result", final);
                                   ("logs", Py.vstr_list lg) ]) lg),
               {| conversation_contexts := conversation_contexts w;
                  calls := (calls w ++ [Classify c text]) ++ [Execute intent c text] |})
        | Raise e =>
            exists lg,
            process_input env text file sid w
            = (Ok (error_response e lg),
               {| conversation_contexts := conversation_contexts w;
                  calls := (calls w ++ [Classify c text]) ++ [Execute intent c text] |})
        end.
Proof.
  intros Hex Hlen.
  destruct (process_input_extracted env text file sid w c md st1 Hex) as [Hw ->].
  assert (Hlong : negb (Str.truthy c) || (Str.len (Str.strip c) <? 5) = false).
  { rewrite too_short_iff. apply Z.ltb_ge. exact Hlen. }
  destruct (process_extracted_long env text sid c md
              {| world := w; logs := logs st1 |} Hlong)
    as (i & cf & n & cq & rs & s & Heq & Hrun).
  exists i, cf, n, cq, rs, s. split; [exact Heq|].
  cbn [world logs] in Hrun.
  destruct n.
  - destruct Hrun as [lg Hp]. exists lg.
    rewrite (run_request_answer _ _ _ _ _ Hp). reflexivity.
  - destruct (TaskRouter.execute (TaskRouter.init env) env i c text) as [final|e] eqn:Hx.
    + destruct Hrun as [lg Hp]. exists lg.
      rewrite (run_request_answer _ _ _ _ _ Hp). reflexivity.
    + destruct Hrun as [lg Hp].
      destruct (execute_raises_only_unhashable _ _ _ _ _ _ Hx) as [-> _].
      eexists. rewrite (run_request_error _ _ _ _ _ Hp); [reflexivity | discriminate].
Qed.

Lemma process_input_short (env : Env) (text : option string)
    (file : option UploadFile) (sid : string) (w : World) (c : string) (md : value)
    (st1 : State) :
  extraction_step env text file (initial_state w) = (Ok (c, md), st1) ->
  Str.len (Str.strip c) < 5 ->
  process_input env text file sid w
  = (Ok (insufficient_content
           (logs st1 ++ ["⚠ Warning: Very little content extracted"])), w).
Proof.
  intros Hex Hlen.
  destruct (process_input_extracted env text file sid w c md st1 Hex) as [Hw ->].
  assert (Hshort : negb (Str.truthy c) || (Str.len (Str.strip c) <? 5) = true).
  { rewrite too_short_iff. apply Z.ltb_lt. exact Hlen. }
  unfold run_request, guard.
  rewrite (process_extracted_short env text sid c md _ Hshort). reflexivity.
Qed.

(** the status of an answer: that of its content, or "error" *)
Lemma answer_status (content : list (string * value)) (lg : list string) (tag : string) :
  Py.dict_lookup content "status" = Some (VStr tag) ->
  tag <> "error" ->
  status (answer (VDict content) lg) = Some (VStr tag)
  -> answer (VDict content) lg = {| body := VDict content; status_code := 200 |}.
Proof.
  intros Hs Hne. unfold answer.
  destruct (Json.compliant (VDict content)); [reflexivity|].
  cbn. intros H. injection H as H. congruence.
Qed.

(** a submit response that asks for clarification: where it comes from *)
Lemma process_input_clarification_inv (env : Env) (text : option string)
    (file : option UploadFile) (sid : string) (w : World) (r1 : JSONResponse)
    (w1 : World) :
  process_input env text file sid w = (Ok r1, w1) ->
  status r1 = Some (VStr "needs_clarification") ->
  exists c md st1 question reasoning lg,
    extraction_step env text file (initial_state w) = (Ok (c, md), st1)
    /\ r1 = {| body := VDict [ ("status", VStr "needs_clarification");
                               ("extracted_content", VStr (preview 500 c));
                               ("extraction_metadata", md);
                               ("question", question);
                               ("reasoning", reasoning);
                               ("logs", Py.vstr_list lg);
                               ("session_id", VStr sid) ];
               status_code := 200 |}
    /\ w1 = {| conversation_contexts :=
                 <[sid := {| extracted_content := c; extraction_metadata := md |}]>
                   (conversation_contexts w);
               calls := calls w ++ [Classify c text] |}.
Proof.
  intros Hrun Hstatus.
  destruct (extraction_step env text file (initial_state w)) as [[[c md]|e] st1] eqn:Hex.
  - destruct (Z_lt_le_dec (Str.len (Str.strip c)) 5) as [Hlt|Hge].
    + rewrite (process_input_short _ _ _ _ _ _ _ _ Hex Hlt) in Hrun.
      injection Hrun as <- <-. discriminate Hstatus.
    + destruct (process_input_classified _ _ _ sid _ _ _ _ Hex Hge)
        as (i & cf & n & cq & rs & s & Heq & Hcase).
      destruct n.
      * destruct Hcase as [lg Hp]. rewrite Hp in Hrun. injection Hrun as <- <-.
        exists c, md, st1, cq, rs, lg. split; [reflexivity|]. split; [|reflexivity].
        apply (answer_status _ _ "needs_clarification");
          [reflexivity | discriminate | exact Hstatus].
      * destruct (TaskRouter.execute _ _ _ _ _); destruct Hcase as [lg Hp];
          rewrite Hp in Hrun; injection Hrun as <- <-; [|discriminate Hstatus].
        exfalso. revert Hstatus. unfold answer.
        destruct (Json.compliant _); discriminate.
  - rewrite (process_input_rejected _ _ _ _ _ _ _ Hex) in Hrun. discriminate Hrun.
Qed.

(** C6. A clarify request whose session id has no stored SessionContext
    ends in the session-protocol error (HTTP 400, "Session expired or
    invalid. Please resubmit your input."): no response with a success
    status, no other exception; the world is unchanged, so neither the
    classifier nor the router was called. *)
Theorem clarify_without_session :
  forall (env : Env) (clarification session_id : string) (w : World),
    conversation_contexts w !! session_id = None ->
    clarify_intent env clarification session_id w
    = (Raise (HTTPException 400
                "Session expired or invalid. Please resubmit your input."), w).
Proof.
  intros env clarification sid w Hnone.
  exact (clarify_intent_unknown_session env clarification sid w Hnone).
Qed.

(** C6 at a concrete run: a session id that no submit ever issued. *)
Lemma clarify_without_session_witness :
  clarify_intent (Sample.resolving "summarization") "summarize it" "never-issued"
    Sample.empty_world
  = (Raise (HTTPException 400
              "Session expired or invalid. Please resubmit your input."),
     Sample.empty_world).
Proof.
  exact (clarify_without_session (Sample.resolving "summarization") "summarize it"
           "never-issued" Sample.empty_world eq_refl).
Defined.

(** C7, as the code has it. For every submit request: when the extraction
    step rejects it (no input, unsupported file type, failed extraction),
    the request ends with an HTTP 400 error, the world unchanged. When the
    extraction step returns a content with fewer than 5 characters after
    trimming, the request ends with the "error" response of insufficient
    content, the world unchanged, so no classification was invoked; when the
    content has 5 characters or more (exactly 5 included), the classifier is
    invoked on that content and the request's text. Among the requests
    whose extraction step returns, the length check is thus the only path
    that ends without classification. *)
Theorem length_check_guards_classification :
  forall (env : Env) (text : option string) (file : option UploadFile)
         (session_id : string) (w : World),
    match extraction_step env text file (initial_state w) with
    | (Raise e, _) =>
        (exists detail, e = HTTPException 400 detail)
        /\ process_input env text file session_id w = (Raise e, w)
    | (Ok (c, md), st1) =>
        (Str.len (Str.strip c) < 5 ->
         process_input env text file session_id w
         = (Ok (insufficient_content
                  (logs st1 ++ ["⚠ Warning: Very little content extracted"])), w))
        /\ (5 <= Str.len (Str.strip c) ->
            exists rest,
              calls (snd (process_input env text file session_id w))
              = calls w ++ Classify c text :: rest)
        /\ (calls (snd (process_input env text file session_id w)) = calls w
            <-> Str.len (Str.strip c) < 5)
    end.
Proof.
  intros env text file sid w.
  destruct (extraction_step env text file (initial_state w)) as [[[c md]|e] st1] eqn:Hex.
  2:{ split; [|exact (process_input_rejected _ _ _ _ _ _ _ Hex)].
      destruct (extraction_step_effect env text file (initial_state w)) as [_ Hhttp].
      apply Hhttp. now rewrite Hex. }
  assert (Hshort : Str.len (Str.strip c) < 5 ->
                   process_input env text file sid w
                   = (Ok (insufficient_content
                            (logs st1 ++ ["⚠ Warning: Very little content extracted"])), w)).
  { intros Hlt. exact (process_input_short _ _ _ _ _ _ _ _ Hex Hlt). }
  assert (Hlong : 5 <= Str.len (Str.strip c) ->
                  exists rest,
                    calls (snd (process_input env text file sid w))
                    = calls w ++ Classify c text :: rest).
  { intros Hge.
    destruct (process_input_classified _ _ _ sid _ _ _ _ Hex Hge)
      as (i & cf & n & cq & rs & s & Heq & Hcase).
    destruct n.
    - destruct Hcase as [lg ->]. exists []. reflexivity.
    - destruct (TaskRouter.execute _ _ _ _ _); destruct Hcase as [lg ->];
        eexists; cbn [snd calls]; rewrite <- app_assoc; reflexivity. }
  split; [exact Hshort|]. split; [exact Hlong|]. split.
  - intros Hsame. destruct (Z_lt_le_dec (Str.len (Str.strip c)) 5) as [Hlt|Hge];
      [exact Hlt|].
    destruct (Hlong Hge) as [rest Hrest]. rewrite Hrest in Hsame.
    apply (f_equal (@length Call)) in Hsame. rewrite length_app in Hsame.
    cbn in Hsame. lia.
  - intros Hlt. rewrite (Hshort Hlt). reflexivity.
Qed.

(** C7 at the boundary: "hello" has exactly 5 characters, "hell" has 4. *)
Lemma length_check_guards_classification_witness :
  (exists rest,
      calls (snd (process_input Sample.offline (Some "hello") None "default"
                    Sample.empty_world))
      = calls Sample.empty_world ++ Classify "hello" (Some "hello") :: rest)
  /\ process_input Sample.offline (Some "hell") None "default" Sample.empty_world
     = (Ok (insufficient_content
              ["Processing your request..."; "Processing text input...";
               "⚠ Warning: Very little content extracted"]), Sample.empty_world).
Proof.
  split.
  - exact (proj1 (proj2
      (length_check_guards_classification Sample.offline (Some "hello") None
         "default" Sample.empty_world)) ltac:(vm_compute; discriminate)).
  - exact (proj1
      (length_check_guards_classification Sample.offline (Some "hell") None
         "default" Sample.empty_world) eq_refl).
Defined.

(** C7, counterexample to the claim as stated: a submit request with neither
    text nor file ends in an error (HTTP 400, "No input provided") without
    the classifier being invoked and without reaching the length check: its
    outcome is not the insufficient-content response. *)
Lemma no_input_bypasses_classification :
  process_input Sample.offline None None "default" Sample.empty_world
  = (Raise (HTTPException 400 "No input provided (text or file required)"),
     Sample.empty_world)
  /\ calls (snd (process_input Sample.offline None None "default" Sample.empty_world))
     = []
  /\ (forall lg,
        fst (process_input Sample.offline None None "default" Sample.empty_world)
        <> Ok (insufficient_content lg)).
Proof.
  split; [reflexivity|]. split; [reflexivity|]. intros lg. cbn. discriminate.
Qed.

(** the status tag of every response of [clarify_intent], and the shape of
    the one that asks again *)
Lemma clarify_intent_response_shape (env : Env) (clarification sid : string)
    (w : World) (r : JSONResponse) (w' : World) :
  clarify_intent env clarification sid w = (Ok r, w') ->
  (status r = Some (VStr "error")
   \/ status r = Some (VStr "needs_clarification")
   \/ status r = Some (VStr "success"))
  /\ (status r = Some (VStr "needs_clarification") ->
      field_names r = clarify_clarification_fields).
Proof.
  intros Hrun.
  destruct (conversation_contexts w !! sid) as [ctx|] eqn:Hctx.
  - destruct (clarify_intent_known_session env clarification sid w ctx Hctx)
      as (i & cf & n & cq & rs & s & Heq & Hcase).
    destruct n.
    + destruct Hcase as [lg Hp]. rewrite Hp in Hrun. injection Hrun as <- <-.
      unfold answer. destruct (Json.compliant _).
      * split; [right; left; reflexivity | intros _; reflexivity].
      * split; [left; reflexivity | intros H; discriminate H].
    + destruct (TaskRouter.execute _ _ _ _ _); destruct Hcase as [lg Hp];
        rewrite Hp in Hrun; injection Hrun as <- <-.
      * unfold answer. destruct (Json.compliant _).
        -- split; [right; right; reflexivity | intros H; discriminate H].
        -- split; [left; reflexivity | intros H; discriminate H].
      * split; [left; reflexivity | intros H; discriminate H].
  - rewrite (clarify_intent_unknown_session _ _ _ _ Hctx) in Hrun. discriminate Hrun.
Qed.

(** C8, as the code has it. Every response of the clarify endpoint carries
    one of the three status tags of the submit endpoint ("error",
    "needs_clarification", "success"). A clarify response with the
    needs_clarification outcome carries only the status, the question and
    the log; unlike the submit response with that outcome it has no content
    preview, no extraction metadata, no reasoning and no session id. *)
Theorem clarify_response_shape :
  forall (env : Env) (clarification session_id : string) (w : World)
         (r : JSONResponse) (w' : World),
    clarify_intent env clarification session_id w = (Ok r, w') ->
    (status r = Some (VStr "error")
     \/ status r = Some (VStr "needs_clarification")
     \/ status r = Some (VStr "success"))
    /\ (status r = Some (VStr "needs_clarification") ->
        field_names r = clarify_clarification_fields
        /\ field r "extracted_content" = None
        /\ field r "reasoning" = None
        /\ field r "session_id" = None)
    /\ (forall env0 text file sid0 w0 r0 w1,
          process_input env0 text file sid0 w0 = (Ok r0, w1) ->
          status r0 = Some (VStr "needs_clarification") ->
          field_names r0 = submit_clarification_fields).
Proof.
  intros env clarification sid w r w' Hrun.
  destruct (clarify_intent_response_shape _ _ _ _ _ _ Hrun) as [Htag Hnames].
  split; [exact Htag|]. split.
  - intros Hnc. specialize (Hnames Hnc).
    destruct r as [[| | | | | |d] code]; try discriminate Hnames.
    unfold field_names, field in *. cbn [body] in *.
    unfold clarify_clarification_fields in Hnames.
    destruct d as [|[k1 v1] [|[k2 v2] [|[k3 v3] [|]]]]; try discriminate Hnames.
    cbn in Hnames. injection Hnames as -> -> ->. repeat split; reflexivity.
  - intros env0 text file sid0 w0 r0 w1 Hsub Hnc.
    destruct (process_input_clarification_inv _ _ _ _ _ _ _ Hsub Hnc)
      as (c & md & st1 & cq & rs & lg & _ & -> & _).
    reflexivity.
Qed.

(** C8 at a concrete run: the classifier is unreachable at both requests. *)
Lemma clarify_response_shape_witness :
  let w1 := snd (process_input Sample.offline (Some "I love this product!") None
                   "s1" Sample.empty_world) in
  let r2 := Sample.response_of (clarify_intent Sample.offline "hmm" "s1" w1) in
  field_names r2 = clarify_clarification_fields
  /\ field r2 "extracted_content" = None
  /\ field r2 "reasoning" = None
  /\ field r2 "session_id" = None.
Proof.
  exact (proj1 (proj2
    (clarify_response_shape Sample.offline "hmm" "s1"
       (snd (process_input Sample.offline (Some "I love this product!") None
               "s1" Sample.empty_world))
       (Sample.response_of
          (clarify_intent Sample.offline "hmm" "s1"
             (snd (process_input Sample.offline (Some "I love this product!") None
                     "s1" Sample.empty_world))))
       (snd (clarify_intent Sample.offline "hmm" "s1"
               (snd (process_input Sample.offline (Some "I love this product!") None
                       "s1" Sample.empty_world))))
       eq_refl)) eq_refl).
Defined.

(** C8, counterexample to the claim as stated: a submit that asks for
    clarification answers with content preview, question, reasoning and
    session id; the clarify request that asks again answers with status,
    question and log only. *)
Lemma clarify_response_lacks_fields :
  let run1 := process_input Sample.offline (Some "I love this product!") None
                "s1" Sample.empty_world in
  let run2 := clarify_intent Sample.offline "hmm" "s1" (snd run1) in
  status (Sample.response_of run1) = Some (VStr "needs_clarification")
  /\ status (Sample.response_of run2) = Some (VStr "needs_clarification")
  /\ field_names (Sample.response_of run1)
     = [ "status"; "extracted_content"; "extraction_metadata"; "question";
         "reasoning"; "logs"; "session_id" ]
  /\ field_names (Sample.response_of run2) = [ "status"; "question"; "logs" ]
  /\ field_names (Sample.response_of run2) <> field_names (Sample.response_of run1)
  /\ field (Sample.response_of run1) "session_id" = Some (VStr "s1")
  /\ field (Sample.response_of run2) "session_id" = None.
Proof.
  cbv zeta. repeat split; try reflexivity. vm_compute. discriminate.
Qed.













(* ===================================================================== *)
(** ** Properties of the YouTube link functions *)
(* ===================================================================== *)

Lemma append_cons (a : ascii) (s t : string) : String a s +:+ t = String a (s +:+ t).
Proof. reflexivity. Qed.

Lemma append_nil_l (t : string) : "" +:+ t = t.
Proof. reflexivity. Qed.

Lemma append_assoc (s t u : string) : (s +:+ t) +:+ u = s +:+ (t +:+ u).
Proof. induction s as [|a s IH]; [reflexivity|]. rewrite !append_cons. now rewrite IH. Qed.

Lemma length_append (s t : string) :
  String.length (s +:+ t) = (String.length s + String.length t)%nat.
Proof. induction s as [|a s IH]; [reflexivity|]. rewrite append_cons. cbn. now rewrite IH. Qed.

Lemma take_append (s t : string) : Str.take (String.length s) (s +:+ t) = s.
Proof. induction s as [|a s IH]; [now destruct t|]. rewrite append_cons. cbn. now rewrite IH. Qed.

Lemma consumed_append (s t : string) : Re.consumed (s +:+ t) t = s.
Proof.
  unfold Re.consumed. rewrite length_append.
  replace (String.length s + String.length t - String.length t)%nat
    with (String.length s) by lia.
  apply take_append.
Qed.

(** the matcher and its capture-free reading agree on the remainders *)
Lemma run_rests (ic : bool) (r : Re.regex) :
  forall (s : string) (caps : Re.captures),
    map fst (Re.run ic r s caps) = rests ic r s.
Proof.
  induction r as [|cp|r1 IH1 r2 IH2|r1 IH1 r2 IH2|r1 IH1|cp|n r1 IH1];
    intros s caps; cbn [Re.run rests].
  - reflexivity.
  - destruct s as [|a s']; [reflexivity|]. now destruct (Re.char_matches ic cp a).
  - rewrite <- (IH1 s caps).
    induction (Re.run ic r1 s caps) as [|[s1 c1] l IHl]; [reflexivity|].
    cbn [flat_map map fst]. rewrite map_app, IH2, IHl. reflexivity.
  - now rewrite map_app, IH1, IH2.
  - now rewrite map_app, IH1.
  - rewrite map_map. cbn. apply map_id.
  - rewrite <- (IH1 s caps), map_map. apply map_ext. now intros [s1 c1].
Qed.

Lemma run_nil_iff (ic : bool) (r : Re.regex) (s : string) (caps : Re.captures) :
  Re.run ic r s caps = [] <-> rests ic r s = [].
Proof.
  rewrite <- (run_rests ic r s caps).
  destruct (Re.run ic r s caps); cbn; split; intros H; try reflexivity; discriminate H.
Qed.

Lemma ascii_in_all (a : ascii) : In a all_ascii.
Proof.
  unfold all_ascii. rewrite <- (ascii_nat_embedding a).
  apply in_map, in_seq. pose proof (nat_ascii_bounded a). lia.
Qed.

Lemma nospace_char_sound (ic : bool) (cp : Re.charpat) (a : ascii) :
  nospace_char ic cp = true -> Str.isspace a = true -> Re.char_matches ic cp a = false.
Proof.
  unfold nospace_char. rewrite forallb_forall. intros Hall Hsp.
  specialize (Hall a (ascii_in_all a)). rewrite Hsp in Hall. cbn in Hall.
  now destruct (Re.char_matches ic cp a).
Qed.

(** A pattern that matches no white space does not look past the next white
    space: its remainders before [sp] are the same whatever follows [sp]. *)
Lemma rests_local (ic : bool) (sp : ascii) (v v' : string) (r : Re.regex) :
  Str.isspace sp = true ->
  nospace ic r = true ->
  forall u : string,
  exists l : list string,
    rests ic r (u +:+ String sp v) = map (fun u' => u' +:+ String sp v) l
    /\ rests ic r (u +:+ String sp v') = map (fun u' => u' +:+ String sp v') l.
Proof.
  intros Hsp.
  induction r as [|cp|r1 IH1 r2 IH2|r1 IH1 r2 IH2|r1 IH1|cp|n r1 IH1];
    cbn [nospace rests]; intros Hns u.
  - exists [u]. split; reflexivity.
  - destruct u as [|a u'].
    + exists []. rewrite !append_nil_l. now rewrite (nospace_char_sound ic cp sp Hns Hsp).
    + rewrite !append_cons. destruct (Re.char_matches ic cp a);
        [exists [u'] | exists []]; split; reflexivity.
  - apply andb_prop in Hns as [Hns1 Hns2].
    destruct (IH1 Hns1 u) as (l1 & -> & ->). clear IH1.
    induction l1 as [|u1 l1 IHl]; [exists []; split; reflexivity|].
    destruct IHl as (l & Hl & Hl'). destruct (IH2 Hns2 u1) as (l2 & H2 & H2').
    exists (l2 ++ l). cbn [map flat_map]. rewrite H2, H2', Hl, Hl', !map_app.
    split; reflexivity.
  - apply andb_prop in Hns as [Hns1 Hns2].
    destruct (IH1 Hns1 u) as (l1 & -> & ->). destruct (IH2 Hns2 u) as (l2 & -> & ->).
    exists (l1 ++ l2). rewrite !map_app. split; reflexivity.
  - destruct (IH1 Hns u) as (l1 & -> & ->).
    exists (l1 ++ [u]). rewrite !map_app. split; reflexivity.
  - induction u as [|a u' IHu].
    + exists []. rewrite !append_nil_l. cbn [Re.plus_run].
      now rewrite (nospace_char_sound ic cp sp Hns Hsp).
    + rewrite !append_cons. cbn [Re.plus_run].
      destruct (Re.char_matches ic cp a); [|exists []; split; reflexivity].
      destruct IHu as (l & -> & ->). exists (l ++ [u']).
      rewrite !map_app. split; reflexivity.
  - exact (IH1 Hns u).
Qed.

Lemma run_nil_local (ic : bool) (r : Re.regex) (sp : ascii) (u v : string)
    (caps caps' : Re.captures) :
  Str.isspace sp = true ->
  nospace ic r = true ->
  Re.run ic r (u +:+ String sp "") caps = [] ->
  Re.run ic r (u +:+ String sp v) caps' = [].
Proof.
  intros Hsp Hns Hnil. apply run_nil_iff. apply run_nil_iff in Hnil.
  destruct (rests_local ic sp "" v r Hsp Hns u) as (l & Hshort & Hlong).
  rewrite Hlong. rewrite Hshort in Hnil. destruct l; [reflexivity | discriminate Hnil].
Qed.

Lemma blank_end_split (a : ascii) (s : string) :
  blank_end (String a s) = true ->
  exists u sp, String a s = u +:+ String sp "" /\ Str.isspace sp = true.
Proof.
  revert a. induction s as [|b s IH]; intros a H.
  - exists "", a. split; [reflexivity | exact H].
  - destruct (IH b H) as (u & sp & Heq & Hsp).
    exists (String a u), sp. rewrite append_cons, <- Heq. split; [reflexivity | exact Hsp].
Qed.

Lemma blank_end_tail (a : ascii) (s : string) :
  blank_end (String a s) = true -> blank_end s = true.
Proof. destruct s; [reflexivity | exact (fun H => H)]. Qed.

(** [re.search] steps over a text that holds no match and ends in white
    space (or is empty), whatever follows it. *)
Lemma search_skip (ic : bool) (r : Re.regex) (rest : string) :
  nospace ic r = true ->
  forall before : string,
    blank_end before = true ->
    Re.search ic r before = None ->
    Re.search ic r (before +:+ rest) = Re.search ic r rest.
Proof.
  intros Hns. induction before as [|a before IH]; intros Hblank Hnone; [reflexivity|].
  cbn [Re.search] in Hnone.
  destruct (Re.run ic (Re.Group 0 r) (String a before) []) as [|[x c] l] eqn:Hrun;
    [|discriminate Hnone].
  destruct (blank_end_split a before Hblank) as (u & sp & Heq & Hsp).
  assert (Hnil : Re.run ic (Re.Group 0 r) (String a (before +:+ rest)) [] = []).
  { change (String a (before +:+ rest)) with (String a before +:+ rest).
    rewrite Heq, append_assoc. change (String sp "" +:+ rest) with (String sp rest).
    rewrite Heq in Hrun.
    exact (run_nil_local ic (Re.Group 0 r) sp u rest [] [] Hsp Hns Hrun). }
  change (String a before +:+ rest) with (String a (before +:+ rest)).
  cbn [Re.search]. rewrite Hnil.
  apply IH; [exact (blank_end_tail a before Hblank) | exact Hnone].
Qed.

(** [re.search] finds a match in every text that holds one. *)
Lemma search_finds (ic : bool) (r : Re.regex) (rest : string) :
  Re.run ic (Re.Group 0 r) rest [] <> [] ->
  forall before : string, is_Some (Re.search ic r (before +:+ rest)).
Proof.
  intros Hrun.
  assert (Hhere : is_Some (Re.search ic r rest)).
  { destruct rest as [|b rest]; cbn [Re.search].
    - destruct (Re.run ic (Re.Group 0 r) "" []) as [|[x c] l];
        [contradiction | eauto].
    - destruct (Re.run ic (Re.Group 0 r) (String b rest) []) as [|[x c] l];
        [contradiction | eauto]. }
  induction before as [|a before IH]; [exact Hhere|].
  change (String a before +:+ rest) with (String a (before +:+ rest)).
  cbn [Re.search].
  destruct (Re.run ic (Re.Group 0 r) (String a (before +:+ rest)) []) as [|[x c] l];
    [exact IH | eauto].
Qed.

(** [cp+] on a run of matching characters that ends where the text ends or
    a character does not match: the longest repetition comes first. *)
Lemma plus_run_longest (ic : bool) (cp : Re.charpat) (after : string) :
  match after with
  | EmptyString => True
  | String c _ => Re.char_matches ic cp c = false
  end ->
  forall token : string,
    Str.truthy token = true ->
    all_chars (Re.char_matches ic cp) token = true ->
    exists others, Re.plus_run ic cp (token +:+ after) = after :: others.
Proof.
  intros Hafter.
  assert (Hstop : Re.plus_run ic cp after = []).
  { destruct after as [|c after']; [reflexivity|]. cbn. now rewrite Hafter. }
  induction token as [|a token IH]; intros Hne Hall; [discriminate Hne|].
  cbn [all_chars] in Hall. apply andb_prop in Hall as [Ha Hall].
  rewrite append_cons. cbn [Re.plus_run]. rewrite Ha.
  destruct token as [|b token].
  - rewrite append_nil_l, Hstop. exists []. reflexivity.
  - destruct (IH eq_refl Hall) as [others ->]. eexists. reflexivity.
Qed.


Lemma all_chars_impl (p q : ascii -> bool) (s : string) :
  (forall c, p c = true -> q c = true) ->
  all_chars p s = true -> all_chars q s = true.
Proof.
  intros Hpq. induction s as [|c s IH]; [reflexivity|]. cbn.
  intros H. apply andb_prop in H as [Hc Hs]. now rewrite (Hpq c Hc), (IH Hs).
Qed.

(** the shared head of the two patterns on a [https://youtu.be/] link: one
    way to match, with groups 1 and 3 set *)
Lemma run_url_head_short_link (tail : string) :
  Re.run true YoutubeExtractor.url_head ("https://youtu.be/" +:+ tail) []
  = [ (tail,
       [ (3%nat, Re.consumed ("youtu.be/" +:+ tail) tail);
         (1%nat, Re.consumed ("https://youtu.be/" +:+ tail) ("youtu.be/" +:+ tail)) ]) ].
Proof. reflexivity. Qed.

Lemma blank_start_stops (items : list Re.set_item) (after : string) :
  In Re.ISpace items ->
  blank_start after = true ->
  match after with
  | EmptyString => True
  | String c _ => Re.char_matches true (Re.CNotIn items) c = false
  end.
Proof.
  intros Hin Hblank. destruct after as [|c after']; [exact I|].
  cbn in Hblank. cbn [Re.char_matches].
  assert (H : existsb (Re.item_matches c) items = true).
  { apply existsb_exists. exists Re.ISpace. split; [exact Hin | exact Hblank]. }
  now rewrite H.
Qed.

(** [extract_youtube_url]'s search, started at a [https://youtu.be/] link
    that ends at white space or at the end of the text *)
Lemma search_at_short_link (vid after : string) :
  video_id_like vid = true ->
  blank_start after = true ->
  exists caps,
    Re.search true YoutubeExtractor.extract_pattern
      ("https://youtu.be/" +:+ (vid +:+ after))
    = Some {| Re.captured :=
                (0%nat, "https://youtu.be/" +:+ vid) :: (4%nat, vid) :: caps |}.
Proof.
  intros Hid Hafter. unfold video_id_like in Hid. apply andb_prop in Hid as [Hne Hall].
  destruct (plus_run_longest true (Re.CNotIn [Re.ISpace; Re.IChar "&"%char]) after
              (blank_start_stops [Re.ISpace; Re.IChar "&"%char] after
                 (or_introl eq_refl) Hafter) vid Hne)
    as [others Hplus].
  { revert Hall. apply all_chars_impl. intros c Hc. cbn.
    apply andb_prop in Hc as [H1 H2]. apply negb_true_iff in H1, H2.
    now rewrite H1, H2. }
  eexists.
  change ("https://youtu.be/" +:+ (vid +:+ after))
    with (String "h" ("ttps://youtu.be/" +:+ (vid +:+ after))).
  cbn [Re.search].
  change (String "h" ("ttps://youtu.be/" +:+ (vid +:+ after)))
    with ("https://youtu.be/" +:+ (vid +:+ after)).
  unfold YoutubeExtractor.extract_pattern. cbn [Re.run].
  rewrite run_url_head_short_link. cbn [flat_map Re.run]. rewrite Hplus.
  cbn [map app].
  rewrite (consumed_append vid after).
  rewrite <- (append_assoc "https://youtu.be/" vid after).
  rewrite (consumed_append ("https://youtu.be/" +:+ vid) after).
  reflexivity.
Qed.

(** [is_youtube_url]'s pattern matches at a [https://youtu.be/] link *)
Lemma detect_at_short_link (vid after : string) :
  video_id_like vid = true ->
  blank_start after = true ->
  Re.run true (Re.Group 0 YoutubeExtractor.detect_pattern)
    ("https://youtu.be/" +:+ (vid +:+ after)) [] <> [].
Proof.
  intros Hid Hafter. unfold video_id_like in Hid. apply andb_prop in Hid as [Hne Hall].
  destruct (plus_run_longest true (Re.CNotIn [Re.ISpace]) after
              (blank_start_stops [Re.ISpace] after (or_introl eq_refl) Hafter) vid Hne)
    as [others Hplus].
  { revert Hall. apply all_chars_impl. intros c Hc. cbn.
    apply andb_prop in Hc as [H1 _]. apply negb_true_iff in H1. now rewrite H1. }
  unfold YoutubeExtractor.detect_pattern. cbn [Re.run].
  rewrite run_url_head_short_link. cbn [flat_map Re.run]. rewrite Hplus.
  cbn [map app]. discriminate.
Qed.

(** [extract_youtube_url] returns the empty text only when its search finds
    nothing *)
Lemma extract_empty_no_match (text : string) :
  YoutubeExtractor.extract_youtube_url text = "" ->
  Re.search true YoutubeExtractor.extract_pattern text = None.
Proof.
  unfold YoutubeExtractor.extract_youtube_url. cbn [YoutubeExtractor.extract_loop].
  destruct (Re.search true YoutubeExtractor.extract_pattern text) as [m|];
    [|reflexivity].
  destruct (Str.contains "youtu.be" _);
    [intros H; rewrite append_cons in H; discriminate H|].
  destruct (YoutubeExtractor.fmt_group (Re.group m 0)) as [|a g0] eqn:Hg0.
  - cbn [Str.startswith]. intros H. rewrite append_cons in H. discriminate H.
  - destruct (Str.startswith "http" (String a g0)); intros H;
      [|rewrite append_cons in H]; discriminate H.
Qed.

Lemma extract_pattern_nospace : nospace true YoutubeExtractor.extract_pattern = true.
Proof. vm_compute. reflexivity. Qed.

(** C9, as the code has it. For every text in which the link
    https://youtu.be/ID stands between white space (or at an end of the
    text), ID being a video id, [is_youtube_url] returns true; and when no
    YouTube link can be extracted from the text before it,
    [extract_youtube_url] returns the canonical form
    https://www.youtube.com/watch?v=ID. *)
Theorem short_link_detected_and_normalized :
  forall (before after vid : string),
    blank_end before = true ->
    blank_start after = true ->
    video_id_like vid = true ->
    YoutubeExtractor.is_youtube_url
      (before +:+ ("https://youtu.be/" +:+ (vid +:+ after))) = true
    /\ (YoutubeExtractor.extract_youtube_url before = "" ->
        YoutubeExtractor.extract_youtube_url
          (before +:+ ("https://youtu.be/" +:+ (vid +:+ after)))
        = "https://www.youtube.com/watch?v=" +:+ vid).
Proof.
  intros before after vid Hbefore Hafter Hid. split.
  - unfold YoutubeExtractor.is_youtube_url. cbn [existsb]. rewrite orb_false_r.
    apply bool_decide_eq_true.
    apply search_finds. exact (detect_at_short_link vid after Hid Hafter).
  - intros Hnone. apply extract_empty_no_match in Hnone.
    unfold YoutubeExtractor.extract_youtube_url. cbn [YoutubeExtractor.extract_loop].
    rewrite (search_skip true YoutubeExtractor.extract_pattern _
               extract_pattern_nospace before Hbefore Hnone).
    destruct (search_at_short_link vid after Hid Hafter) as [caps ->].
    unfold Re.group. cbn [Re.captured Re.group_lookup Nat.eqb YoutubeExtractor.fmt_group
                            from_option id].
    change (Str.contains "youtu.be" ("https://youtu.be/" +:+ vid)) with true.
    reflexivity.
Qed.

(** C9 at a concrete text, the link in the middle of a sentence. *)
Lemma short_link_detected_and_normalized_witness :
  YoutubeExtractor.is_youtube_url "Check https://youtu.be/dQw4w9WgXcQ now" = true
  /\ YoutubeExtractor.extract_youtube_url "Check https://youtu.be/dQw4w9WgXcQ now"
     = "https://www.youtube.com/watch?v=dQw4w9WgXcQ".
Proof.
  destruct (short_link_detected_and_normalized "Check " " now" "dQw4w9WgXcQ"
              eq_refl eq_refl eq_refl) as [Hdetect Hextract].
  split; [exact Hdetect | exact (Hextract eq_refl)].
Defined.

(** C9, counterexample to the claim as stated: the text holds
    https://youtu.be/dQw4w9WgXcQ between white space, in the middle of a
    sentence, and [extract_youtube_url] does not return
    https://www.youtube.com/watch?v=dQw4w9WgXcQ: it returns the link made
    from the first match, youtu.be/abc. *)
Lemma earlier_link_wins :
  YoutubeExtractor.is_youtube_url
    "see youtu.be/abc then https://youtu.be/dQw4w9WgXcQ now" = true
  /\ YoutubeExtractor.extract_youtube_url
       "see youtu.be/abc then https://youtu.be/dQw4w9WgXcQ now"
     = "https://www.youtube.com/watch?v=abc"
  /\ YoutubeExtractor.extract_youtube_url
       "see youtu.be/abc then https://youtu.be/dQw4w9WgXcQ now"
     <> "https://www.youtube.com/watch?v=dQw4w9WgXcQ".
Proof.
  split; [vm_compute; reflexivity|]. split; [vm_compute; reflexivity|].
  vm_compute. discriminate.
Qed.

(* ===================================================================== *)
(** ** Further properties of the endpoints, the classifier and the router *)
(* ===================================================================== *)

Lemma classify_oracle_unusable (env : Env) (t : string) (q : option string) :
  oracle_unusable env ->
  IntentClassifier.classify env t q = Ok IntentClassifier._get_fallback_intent.
Proof.
  intros H. unfold IntentClassifier.classify.
  specialize (H [("system", IntentClassifier.system_message);
                 ("user", IntentClassifier.build_prompt t q)]
                (1 # 10)%Q 400 (Some (VDict [("type", VStr "json_object")]))).
  destruct (call_llm env _ _ _ _) as [content|e]; [|reflexivity].
  cbn [Py.bind]. destruct H as [e ->]. reflexivity.
Qed.

(** What a submit does to the store: it writes the entry of its session
    exactly when the classification asks for clarification. The entry is
    written before the response is built. *)
Lemma process_input_store (env : Env) (text : option string)
    (file : option UploadFile) (sid : string) (w : World) :
  (exists c md st1 cls resp,
      extraction_step env text file (initial_state w) = (Ok (c, md), st1)
      /\ 5 <= Str.len (Str.strip c)
      /\ IntentClassifier.classify env c text = Ok cls
      /\ vfield cls "needs_clarification" = Some (VBool true)
      /\ conversation_contexts (snd (process_input env text file sid w))
         = <[sid := {| extracted_content := c; extraction_metadata := md |}]>
             (conversation_contexts w)
      /\ fst (process_input env text file sid w) = Ok resp
      /\ (status resp = Some (VStr "needs_clarification")
          \/ (status resp = Some (VStr "error") /\ status_code resp = 500
              /\ field resp "message" = Some (VStr (exn_str Json.out_of_range)))))
  \/ (conversation_contexts (snd (process_input env text file sid w))
      = conversation_contexts w
      /\ forall resp, fst (process_input env text file sid w) = Ok resp ->
                      status resp <> Some (VStr "needs_clarification")).
Proof.
  destruct (extraction_step env text file (initial_state w)) as [[[c md]|e] st1] eqn:Hex.
  - destruct (Z_lt_le_dec (Str.len (Str.strip c)) 5) as [Hlt|Hge].
    + rewrite (process_input_short _ _ _ sid _ _ _ _ Hex Hlt). right.
      split; [reflexivity|]. intros resp [= <-]. discriminate.
    + destruct (process_input_classified _ _ _ sid _ _ _ _ Hex Hge)
        as (i & cf & n & cq & rs & s & Heq & Hcase).
      destruct n.
      * destruct Hcase as [lg ->]. left. exists c, md, st1. do 2 eexists.
        split; [reflexivity|]. split; [exact Hge|]. split; [exact Heq|].
        split; [reflexivity|]. split; [reflexivity|]. split; [reflexivity|].
        unfold answer. destruct (Json.compliant _);
          [left; reflexivity | right; repeat split].
      * destruct (TaskRouter.execute _ _ _ _ _); destruct Hcase as [lg ->];
          right; (split; [reflexivity|]); intros resp [= <-]; [|discriminate].
        unfold answer. destruct (Json.compliant _); discriminate.
  - rewrite (process_input_rejected _ _ _ sid _ _ _ Hex). right.
    split; [reflexivity|]. intros resp H. discriminate H.
Qed.

(** What a clarify request does to the store: it deletes the entry of its
    session, or leaves the store as it is; a success response is returned
    only after the deletion. *)
Lemma clarify_intent_store (env : Env) (clarification sid : string) (w : World) :
  (exists resp,
      fst (clarify_intent env clarification sid w) = Ok resp
      /\ (status resp = Some (VStr "success")
          \/ (status resp = Some (VStr "error") /\ status_code resp = 500))
      /\ conversation_contexts (snd (clarify_intent env clarification sid w))
         = delete sid (conversation_contexts w))
  \/ (conversation_contexts (snd (clarify_intent env clarification sid w))
      = conversation_contexts w
      /\ forall resp, fst (clarify_intent env clarification sid w) = Ok resp ->
                      status resp <> Some (VStr "success")).
Proof.
  destruct (conversation_contexts w !! sid) as [ctx|] eqn:Hctx.
  - destruct (clarify_intent_known_session env clarification sid w ctx Hctx)
      as (i & cf & n & cq & rs & s & Heq & Hcase).
    destruct n.
    + destruct Hcase as [lg ->]. right. split; [reflexivity|].
      intros resp [= <-]. unfold answer. destruct (Json.compliant _); discriminate.
    + destruct (TaskRouter.execute _ _ _ _ _); destruct Hcase as [lg ->].
      * left. eexists. split; [reflexivity|]. split; [|reflexivity].
        unfold answer. destruct (Json.compliant _); [left | right; split]; reflexivity.
      * right. split; [reflexivity|]. intros resp [= <-]. discriminate.
  - rewrite (clarify_intent_unknown_session _ _ _ _ Hctx). right.
    split; [reflexivity|]. intros resp H. discriminate H.
Qed.

(** X1. A submit or a clarify request made under one session id leaves the
    stored context of every other session id as it was. *)
Theorem other_sessions_untouched :
  forall (env : Env) (text : option string) (file : option UploadFile)
         (clarification session_id other : string) (w : World),
    session_id <> other ->
    conversation_contexts (snd (process_input env text file session_id w)) !! other
    = conversation_contexts w !! other
    /\ conversation_contexts (snd (clarify_intent env clarification session_id w)) !! other
       = conversation_contexts w !! other.
Proof.
  intros env text file clarification sid other w Hne. split.
  - destruct (process_input_store env text file sid w)
      as [(c & md & st1 & cls & resp & _ & _ & _ & _ & -> & _) | [-> _]]; [|reflexivity].
    now apply lookup_insert_ne.
  - destruct (clarify_intent_store env clarification sid w)
      as [(resp & _ & _ & ->) | [-> _]]; [|reflexivity].
    now apply lookup_delete_ne.
Qed.


(** X2. A clarify request that answers [success] removes the context of its
    session: the session id then has no entry, and the next clarify request
    under it, whatever the backends, is refused with the session error and
    changes nothing. *)
Theorem context_consumed_by_success :
  forall (env : Env) (clarification session_id : string) (w w' : World)
         (resp : JSONResponse),
    clarify_intent env clarification session_id w = (Ok resp, w') ->
    status resp = Some (VStr "success") ->
    conversation_contexts w' !! session_id = None
    /\ forall (env2 : Env) (again : string),
        clarify_intent env2 again session_id w'
        = (Raise (HTTPException 400
                    "Session expired or invalid. Please resubmit your input."), w').
Proof.
  intros env clarification sid w w' resp Hrun Hstatus.
  assert (Hgone : conversation_contexts w' !! sid = None).
  { destruct (clarify_intent_store env clarification sid w)
      as [(resp' & _ & _ & Hstore) | [_ Hnot]].
    - rewrite Hrun in Hstore. cbn in Hstore. rewrite Hstore. apply lookup_delete_eq.
    - rewrite Hrun in Hnot. exfalso. exact (Hnot resp eq_refl Hstatus). }
  split; [exact Hgone|]. intros env2 again.
  exact (clarify_intent_unknown_session env2 again sid w' Hgone).
Qed.

Lemma context_consumed_by_success_witness :
  let w1 := snd (process_input Sample.offline (Some "I love this product!") None
                   "s1" Sample.empty_world) in
  let run2 := clarify_intent (Sample.resolving "text_extraction") "show the text" "s1" w1 in
  conversation_contexts (snd run2) !! "s1" = None
  /\ forall (env2 : Env) (again : string),
      clarify_intent env2 again "s1" (snd run2)
      = (Raise (HTTPException 400
                  "Session expired or invalid. Please resubmit your input."), snd run2).
Proof.
  cbv zeta.
  exact (context_consumed_by_success (Sample.resolving "text_extraction") "show the text"
           "s1"
           (snd (process_input Sample.offline (Some "I love this product!") None
                   "s1" Sample.empty_world))
           (snd (clarify_intent (Sample.resolving "text_extraction") "show the text" "s1"
                   (snd (process_input Sample.offline (Some "I love this product!") None
                           "s1" Sample.empty_world))))
           (Sample.response_of
              (clarify_intent (Sample.resolving "text_extraction") "show the text" "s1"
                 (snd (process_input Sample.offline (Some "I love this product!") None
                         "s1" Sample.empty_world))))
           eq_refl eq_refl).
Defined.

Lemma other_sessions_untouched_witness :
  conversation_contexts
    (snd (process_input Sample.offline (Some "def hello(): pass") None "s2"
            (snd (process_input Sample.offline (Some "I love this product!") None
                    "s1" Sample.empty_world)))) !! "s1"
  = Some {| extracted_content := "I love this product!";
            extraction_metadata := VDict [("type", VStr "text")] |}.
Proof.
  rewrite (proj1 (other_sessions_untouched Sample.offline (Some "def hello(): pass") None
                    "" "s2" "s1"
                    (snd (process_input Sample.offline (Some "I love this product!") None
                            "s1" Sample.empty_world))
                    ltac:(discriminate))).
  reflexivity.
Defined.

(** X3. When the transport to the model always fails or its replies are
    never JSON, every submit that passes the length check answers
    [needs_clarification] with the canned question, the content preview of
    500 characters and its metadata, and stores the context; every clarify
    request under a stored session asks the canned question again and keeps
    the store. *)
Theorem unusable_oracle_asks_canned_question :
  forall (env : Env),
    oracle_unusable env ->
    (forall (text : option string) (file : option UploadFile) (session_id : string)
            (w : World) (c : string) (md : value) (st1 : State),
        extraction_step env text file (initial_state w) = (Ok (c, md), st1) ->
        5 <= Str.len (Str.strip c) ->
        exists lg,
          process_input env text file session_id w
          = (Ok {| body :=
                     VDict [ ("status", VStr "needs_clarification");
                             ("extracted_content", VStr (preview 500 c));
                             ("extraction_metadata", md);
                             ("question", VStr IntentClassifier.canned_question);
                             ("reasoning",
                              VStr "Classification service unavailable - requesting user clarification");
                             ("logs", Py.vstr_list lg);
                             ("session_id", VStr session_id) ];
                   status_code := 200 |},
             {| conversation_contexts :=
                  <[session_id := {| extracted_content := c;
                                     extraction_metadata := md |}]>
                    (conversation_contexts w);
                calls := calls w ++ [Classify c text] |}))
    /\ (forall (clarification session_id : string) (w : World) (ctx : SessionContext),
          conversation_contexts w !! session_id = Some ctx ->
          exists lg,
            clarify_intent env clarification session_id w
            = (Ok {| body :=
                       VDict [ ("status", VStr "needs_clarification");
                               ("question", VStr IntentClassifier.canned_question);
                               ("logs", Py.vstr_list lg) ];
                     status_code := 200 |},
               {| conversation_contexts := conversation_contexts w;
                  calls := calls w
                           ++ [Classify (extracted_content ctx) (Some clarification)] |})).
Proof.
  intros env Hdown. split.
  - intros text file sid w c md st1 Hex Hge.
    destruct (process_input_classified _ _ _ sid _ _ _ _ Hex Hge)
      as (i & cf & n & cq & rs & s & Heq & Hcase).
    rewrite (classify_oracle_unusable env c text Hdown) in Heq.
    injection Heq as <- <- <- <- <- <-. destruct Hcase as [lg Hp]. exists lg.
    rewrite Hp. unfold answer.
    rewrite compliant_clarification_body,
      (extraction_step_compliant _ _ _ _ _ _ _ Hex). reflexivity.
  - intros clarification sid w ctx Hctx.
    destruct (clarify_intent_known_session env clarification sid w ctx Hctx)
      as (i & cf & n & cq & rs & s & Heq & Hcase).
    rewrite (classify_oracle_unusable env _ _ Hdown) in Heq.
    injection Heq as <- <- <- <- <- <-. destruct Hcase as [lg Hp]. exists lg.
    rewrite Hp. unfold answer. rewrite compliant_question_body. reflexivity.
Qed.

Lemma sample_offline_unusable : oracle_unusable Sample.offline.
Proof. intros m t k f. exact I. Qed.

Lemma unusable_oracle_asks_canned_question_witness :
  exists lg,
    process_input Sample.offline (Some "I love this product!") None "s1" Sample.empty_world
    = (Ok {| body :=
               VDict [ ("status", VStr "needs_clarification");
                       ("extracted_content", VStr (preview 500 "I love this product!"));
                       ("extraction_metadata", VDict [("type", VStr "text")]);
                       ("question", VStr IntentClassifier.canned_question);
                       ("reasoning",
                        VStr "Classification service unavailable - requesting user clarification");
                       ("logs", Py.vstr_list lg);
                       ("session_id", VStr "s1") ];
             status_code := 200 |},
       {| conversation_contexts :=
            <["s1" := {| extracted_content := "I love this product!";
                         extraction_metadata := VDict [("type", VStr "text")] |}]>
              (conversation_contexts Sample.empty_world);
          calls := calls Sample.empty_world
                   ++ [Classify "I love this product!" (Some "I love this product!")] |}).
Proof.
  exact (proj1 (unusable_oracle_asks_canned_question Sample.offline
                  sample_offline_unusable)
           (Some "I love this product!") None "s1" Sample.empty_world
           "I love this product!" (VDict [("type", VStr "text")])
           {| world := Sample.empty_world;
              logs := ["Processing your request..."; "Processing text input..."] |}
           eq_refl ltac:(vm_compute; discriminate)).
Defined.




Lemma take_length_le (n : nat) (s : string) : (String.length (Str.take n s) <= n)%nat.
Proof.
  revert s. induction n as [|n IH]; intros s; [cbn; lia|].
  destruct s as [|a s]; cbn; [lia|]. specialize (IH s). lia.
Qed.

Lemma take_all (n : nat) (s : string) :
  (String.length s <= n)%nat -> Str.take n s = s.
Proof.
  revert s. induction n as [|n IH]; intros s H.
  - destruct s; [reflexivity | cbn in H; lia].
  - destruct s as [|a s]; [reflexivity|]. cbn in *. rewrite IH; [reflexivity | lia].
Qed.

Lemma preview_bound (n : nat) (s : string) :
  Str.len (preview n s) <= Z.of_nat n + 3
  /\ (Str.len s <= Z.of_nat n -> preview n s = s)
  /\ (Z.of_nat n < Str.len s -> preview n s = Str.take n s +:+ "...").
Proof.
  unfold preview, Str.len.
  destruct (Z.of_nat n <? Z.of_nat (String.length s)) eqn:E.
  - apply Z.ltb_lt in E. rewrite length_append. pose proof (take_length_le n s).
    cbn [String.length]. repeat split; try lia.
  - apply Z.ltb_ge in E. repeat split; try lia.
Qed.

(** X6. Whenever a response of either endpoint has an [extracted_content]
    field, it is a string of at most 1003 characters, and of at most 503 in
    a [needs_clarification] response, whatever the length of the content. *)
Theorem response_preview_is_bounded :
  forall (env : Env) (text : option string) (file : option UploadFile)
         (clarification session_id : string) (w : World) (resp : JSONResponse)
         (v : value),
    (fst (process_input env text file session_id w) = Ok resp
     \/ fst (clarify_intent env clarification session_id w) = Ok resp) ->
    field resp "extracted_content" = Some v ->
    exists p,
      v = VStr p
      /\ Str.len p <= 1003
      /\ (status resp = Some (VStr "needs_clarification") -> Str.len p <= 503).
Proof.
  intros env text file clarification sid w resp v Hrun Hfield.
  assert (H500 : forall c, Str.len (preview 500 c) <= 503)
    by (intros c; apply (preview_bound 500 c)).
  assert (H1000 : forall c, Str.len (preview 1000 c) <= 1003)
    by (intros c; apply (preview_bound 1000 c)).
  destruct Hrun as [Hr|Hr].
  - destruct (extraction_step env text file (initial_state w)) as [[[c md]|e'] st1] eqn:Hex.
    + destruct (Z_lt_le_dec (Str.len (Str.strip c)) 5) as [Hlt|Hge].
      * rewrite (process_input_short _ _ _ sid _ _ _ _ Hex Hlt) in Hr.
        injection Hr as <-. discriminate Hfield.
      * destruct (process_input_classified _ _ _ sid _ _ _ _ Hex Hge)
          as (i & cf & n & cq & rs & s & Heq & Hcase).
        destruct n.
        { destruct Hcase as [lg Hp]. rewrite Hp in Hr. injection Hr as <-.
          revert Hfield. unfold answer.
          destruct (Json.compliant _); intros Hfield; [|discriminate Hfield].
          injection Hfield as <-. eexists. split; [reflexivity|].
          specialize (H500 c). split; [lia | intros _; exact H500]. }
        destruct (TaskRouter.execute _ _ _ _ _); destruct Hcase as [lg Hp];
          rewrite Hp in Hr; injection Hr as <-; [|discriminate Hfield].
        revert Hfield. unfold answer.
        destruct (Json.compliant _); intros Hfield; [|discriminate Hfield].
        injection Hfield as <-. eexists. split; [reflexivity|].
        split; [apply H1000 | intros H; discriminate H].
    + rewrite (process_input_rejected _ _ _ sid _ _ _ Hex) in Hr. discriminate Hr.
  - destruct (conversation_contexts w !! sid) as [ctx|] eqn:Hctx.
    + destruct (clarify_intent_known_session env clarification sid w ctx Hctx)
        as (i & cf & n & cq & rs & s & Heq & Hcase).
      destruct n.
      { destruct Hcase as [lg Hp]. rewrite Hp in Hr. injection Hr as <-.
        revert Hfield. unfold answer.
        destruct (Json.compliant _); intros Hfield; discriminate Hfield. }
      destruct (TaskRouter.execute _ _ _ _ _); destruct Hcase as [lg Hp];
        rewrite Hp in Hr; injection Hr as <-; [|discriminate Hfield].
      revert Hfield. unfold answer.
      destruct (Json.compliant _); intros Hfield; [|discriminate Hfield].
      injection Hfield as <-. eexists. split; [reflexivity|].
      split; [apply H1000 | intros H; discriminate H].
    + rewrite (clarify_intent_unknown_session _ _ _ _ Hctx) in Hr. discriminate Hr.
Qed.

Lemma response_preview_is_bounded_witness :
  exists p,
    VStr "I love this product!" = VStr p
    /\ Str.len p <= 1003
    /\ (status (Sample.response_of
                  (process_input Sample.offline (Some "I love this product!") None
                     "s1" Sample.empty_world))
        = Some (VStr "needs_clarification") -> Str.len p <= 503).
Proof.
  exact (response_preview_is_bounded Sample.offline (Some "I love this product!") None
           "" "s1" Sample.empty_world _ (VStr "I love this product!")
           (or_introl eq_refl) eq_refl).
Defined.

(** X7. A submit with non-empty text and no file is never rejected by the
    extraction step: its content is the fetched transcript when the text is
    detected as a YouTube link and the fetch succeeds, and otherwise the text
    itself with the metadata of plain text (also when the fetch fails); the
    step changes nothing in the world. *)
Theorem text_extraction_falls_back_to_plain_text :
  forall (env : Env) (t : string) (st : State),
    t <> "" ->
    let fetched :=
      extract_youtube_transcript env (YoutubeExtractor.extract_youtube_url t) in
    fst (extraction_step env (Some t) None st)
    = Ok (if YoutubeExtractor.is_youtube_url t && yt_success fetched
          then (yt_text fetched,
                VDict [ ("type", VStr "youtube");
                        ("title", VStr (yt_title fetched));
                        ("duration", yt_duration fetched) ])
          else (t, text_metadata))
    /\ world (snd (extraction_step env (Some t) None st)) = world st.
Proof.
  intros env t st Hne fetched. subst fetched.
  destruct t as [|a t]; [contradiction|].
  unfold extraction_step, bind, log, ret.
  destruct (YoutubeExtractor.is_youtube_url (String a t)); cbn [andb];
    [destruct (yt_success _)|]; split; reflexivity.
Qed.

Lemma text_extraction_falls_back_to_plain_text_witness :
  fst (extraction_step Sample.offline
         (Some "Check https://youtu.be/dQw4w9WgXcQ now") None
         (initial_state Sample.empty_world))
  = Ok ("Check https://youtu.be/dQw4w9WgXcQ now", text_metadata).
Proof.
  exact (proj1 (text_extraction_falls_back_to_plain_text Sample.offline
                  "Check https://youtu.be/dQw4w9WgXcQ now"
                  (initial_state Sample.empty_world) ltac:(discriminate))).
Defined.

(** X8. A file whose lower-cased name ends with none of the eleven supported
    suffixes is refused with HTTP 400 and the detail "Unsupported file type:"
    followed by the lower-cased name, also when text is submitted with it;
    nothing is classified or stored. *)
Theorem unsupported_file_is_rejected :
  forall (env : Env) (text : option string) (f : UploadFile)
         (session_id : string) (w : World),
    Str.endswith_any supported_suffixes (Str.lower (filename f)) = false ->
    process_input env text (Some f) session_id w
    = (Raise (HTTPException 400
                ("Unsupported file type: " +:+ Str.lower (filename f))), w).
Proof.
  intros env text f sid w H.
  unfold supported_suffixes, Str.endswith_any in H. cbn [existsb] in H.
  repeat (apply orb_false_elim in H as [? H]).
  apply (process_input_rejected env text (Some f) sid w _
           {| world := w;
              logs := ["Processing your request..."; "Received file: " +:+ filename f;
                       "✗ Unsupported file type: " +:+ Str.lower (filename f)] |}).
  unfold extraction_step, bind, log, raise, Str.endswith_any. cbn [existsb].
  repeat match goal with Hx : Str.endswith _ _ = false |- _ => rewrite Hx; clear Hx end.
  reflexivity.
Qed.

Lemma unsupported_file_is_rejected_witness :
  process_input Sample.offline (Some "Please summarize the attached notes") 
    (Some {| filename := "Notes.DOCX"; file_bytes := [] |}) "s1" Sample.empty_world
  = (Raise (HTTPException 400 "Unsupported file type: notes.docx"), Sample.empty_world).
Proof.
  exact (unsupported_file_is_rejected Sample.offline
           (Some "Please summarize the attached notes")
           {| filename := "Notes.DOCX"; file_bytes := [] |} "s1" Sample.empty_world
           eq_refl).
Defined.

Lemma take_take (n : nat) (s : string) : Str.take n (Str.take n s) = Str.take n s.
Proof.
  revert s. induction n as [|n IH]; intros s; [reflexivity|].
  destruct s as [|a s]; [reflexivity|]. cbn. now rewrite IH.
Qed.

(** X11. [classify] depends on the extracted text only through its first 800
    characters: two texts with the same first 800 characters are classified
    alike; and an empty utterance is classified as no utterance. *)
Theorem classify_reads_first_800_characters :
  forall (env : Env) (t1 t2 : string) (q : option string),
    Str.take 800 t1 = Str.take 800 t2 ->
    IntentClassifier.classify env t1 q = IntentClassifier.classify env t2 q
    /\ IntentClassifier.classify env t1 (Some "") = IntentClassifier.classify env t1 None.
Proof.
  intros env t1 t2 q H. split; [|reflexivity].
  unfold IntentClassifier.classify, IntentClassifier.build_prompt. now rewrite H.
Qed.

Lemma classify_reads_first_800_characters_witness :
  IntentClassifier.classify Sample.offline
    (repeat_text 400 "ab" +:+ " and the end of the first text") None
  = IntentClassifier.classify Sample.offline
      (repeat_text 400 "ab" +:+ " but another end here") None.
Proof.
  exact (proj1 (classify_reads_first_800_characters Sample.offline
                  (repeat_text 400 "ab" +:+ " and the end of the first text")
                  (repeat_text 400 "ab" +:+ " but another end here") None
                  ltac:(vm_compute; reflexivity))).
Defined.

(** the result of [classify], read off the reply *)
Lemma classify_by_reply (env : Env) (t : string) (q : option string) :
  IntentClassifier.classify env t q =
  match classification_reply env t q with
  | Raise _ => Ok IntentClassifier._get_fallback_intent
  | Ok content =>
      match json_loads env content with
      | Ok (VDict d) =>
          match py_float env (from_option id (VFloat 0) (Py.dict_lookup d "confidence")) with
          | Ok confidence =>
              Ok (VDict [ ("intent",
                           from_option id (VStr "unknown") (Py.dict_lookup d "intent"));
                          ("confidence", VFloat confidence);
                          ("needs_clarification",
                           VBool (Py.truthy
                                    (from_option id (VBool false)
                                       (Py.dict_lookup d "needs_clarification"))));
                          ("clarification_question",
                           from_option id VNone (Py.dict_lookup d "clarification_question"));
                          ("reasoning",
                           from_option id (VStr "No reasoning provided")
                             (Py.dict_lookup d "reasoning"));
                          ("success", VBool true) ])
          | Raise _ => Ok IntentClassifier._get_fallback_intent
          end
      | _ => Ok IntentClassifier._get_fallback_intent
      end
  end.
Proof.
  unfold IntentClassifier.classify, classification_reply.
  destruct (call_llm env _ _ _ _) as [content|e]; [|reflexivity].
  cbn [Py.bind]. destruct (json_loads env content) as [data|e]; [|reflexivity].
  cbn [Py.bind]. destruct data as [| | | | |l|d]; try reflexivity.
  cbn [Py.get Py.bind]. destruct (py_float env _) as [c|e]; reflexivity.
Qed.

(** an integer of 2^1024 or more, or of -2^1024 or less, rounds to a double
    beyond the range *)
Lemma round_int_large (n : Z) :
  2 ^ 1024 <= Z.abs n -> 2 ^ 1024 <= Z.abs (Float.round_int n).
Proof.
  intros H. unfold Float.round_int.
  assert (Hpos : 0 < 2 ^ 1024) by (apply Z.pow_pos_nonneg; lia).
  assert (Hm : 0 < Z.abs n) by lia.
  assert (Hlog : 1024 <= Z.log2 (Z.abs n)) by (apply Z.log2_le_pow2; lia).
  destruct (Z.log2_spec (Z.abs n) Hm) as [Hlow _].
  remember (Z.abs n) as m eqn:Em.
  remember (Z.log2 m - 52) as e eqn:Ee.
  destruct (Z.leb_spec e 0) as [Hle|Hlt]; [lia|].
  cbv zeta.
  assert (Hpe : 0 < 2 ^ e) by (apply Z.pow_pos_nonneg; lia).
  assert (Hsplit : 2 ^ Z.log2 m = 2 ^ 52 * 2 ^ e).
  { rewrite <- Z.pow_add_r by lia. f_equal. lia. }
  assert (Hq : 2 ^ 52 <= Z.shiftr m e).
  { rewrite Z.shiftr_div_pow2 by lia. apply Z.div_le_lower_bound; [exact Hpe|].
    rewrite Z.mul_comm, <- Hsplit. exact Hlow. }
  assert (Hbig : 2 ^ 1024 <= 2 ^ Z.log2 m) by (apply Z.pow_le_mono_r; lia).
  match goal with
  | |- context [Z.shiftl ?q' e] =>
      assert (Hq' : Z.shiftr m e <= q') by (destruct (_ || _); lia);
      generalize dependent q'
  end.
  intros q' Hq'. rewrite Z.shiftl_mul_pow2 by lia.
  assert (Hx : 2 ^ 1024 <= q' * 2 ^ e).
  { rewrite Hsplit in Hbig. nia. }
  destruct n as [|p|p]; cbn [Z.sgn] in *; [cbn in Em; subst m; lia| |].
  - rewrite Z.mul_1_l. rewrite Z.abs_eq; lia.
  - replace (-1 * (q' * 2 ^ e)) with (- (q' * 2 ^ e)) by lia.
    rewrite Z.abs_opp, Z.abs_eq; lia.
Qed.

(** [float(n)] raises [OverflowError] for such an integer *)
Lemma of_int_overflow (n : Z) : 2 ^ 1024 <= Z.abs n -> Float.of_int n = None.
Proof.
  intros H. unfold Float.of_int. cbv zeta.
  pose proof (round_int_large n H) as Hr.
  destruct (Z.ltb_spec (Z.abs (Float.round_int n)) (2 ^ 1024)); [lia | reflexivity].
Qed.

(** X12. [classify] reports [success] exactly when the transport returned a
    reply, the reply parsed to a JSON object, and [float] accepts its
    [confidence] (0.0 when absent); in every other case the result is the
    fall-back record. [float] does not accept every number: a reply whose
    confidence is an integer of 2^1024 or more (or of -2^1024 or less), which
    no double holds, gives the fall-back. *)
Theorem classify_succeeds_iff_reply_usable :
  forall (env : Env) (t : string) (q : option string),
    ((exists r, IntentClassifier.classify env t q = Ok r
                /\ vfield r "success" = Some (VBool true))
     <-> (exists content d confidence,
             classification_reply env t q = Ok content
             /\ json_loads env content = Ok (VDict d)
             /\ py_float env (from_option id (VFloat 0) (Py.dict_lookup d "confidence"))
                = Ok confidence))
    /\ (forall r, IntentClassifier.classify env t q = Ok r ->
                  vfield r "success" <> Some (VBool true) ->
                  r = IntentClassifier._get_fallback_intent)
    /\ (forall content d n,
          classification_reply env t q = Ok content ->
          json_loads env content = Ok (VDict d) ->
          Py.dict_lookup d "confidence" = Some (VInt n) ->
          2 ^ 1024 <= Z.abs n ->
          IntentClassifier.classify env t q = Ok IntentClassifier._get_fallback_intent).
Proof.
  intros env t q. rewrite classify_by_reply. split; [split|split].
  - intros (r & Hr & Hs).
    destruct (classification_reply env t q) as [content|e];
      [|injection Hr as <-; discriminate Hs].
    destruct (json_loads env content) as [[| | | | | |d]|e] eqn:Hj;
      try (injection Hr as <-; discriminate Hs).
    destruct (py_float env _) as [c|e] eqn:Hf;
      [|injection Hr as <-; discriminate Hs].
    exists content, d, c. repeat split; assumption.
  - intros (content & d & c & -> & -> & ->). eexists. split; reflexivity.
  - intros r Hr Hs.
    destruct (classification_reply env t q) as [content|e];
      [|now injection Hr as <-].
    destruct (json_loads env content) as [[| | | | | |d]|e];
      try (now injection Hr as <-).
    destruct (py_float env _) as [c|e]; [|now injection Hr as <-].
    injection Hr as <-. exfalso. apply Hs. reflexivity.
  - intros content d n -> -> Hc Hn. rewrite Hc. cbn [from_option id py_float].
    now rewrite (of_int_overflow n Hn).
Qed.


(** X13. [execute] raises exactly for an intent that cannot be a dictionary
    key (a list or a dictionary): the [TypeError] of the lookup in the
    routing table, "unhashable type: 'list'" or "unhashable type: 'dict'",
    which its own [try] does not cover. For every other intent it returns a
    dictionary with that intent as [task_type], and an intent that is not a
    string (a number, a boolean, [None]) runs the unknown-intent handler. *)
Theorem execute_raises_iff_intent_unhashable :
  forall (self : TaskRouter.t) (env : Env) (intent : value) (content : string)
         (user_query : option string),
    (Py.hashable intent = false ->
     TaskRouter.execute self env intent content user_query
     = Raise (TypeError ("unhashable type: '" +:+ Py.type_name intent +:+ "'"))
     /\ (Py.type_name intent = "list" \/ Py.type_name intent = "dict"))
    /\ (Py.hashable intent = true ->
        exists d,
          TaskRouter.execute self env intent content user_query = Ok (VDict d)
          /\ Py.dict_lookup d "task_type" = Some intent)
    /\ (Py.hashable intent = true -> (forall s, intent <> VStr s) ->
        exists d,
          TaskRouter.execute self env intent content user_query = Ok (VDict d)
          /\ Py.dict_lookup d "result_type" = Some (VStr "unknown")
          /\ Py.dict_lookup d "success" = Some (VBool false)
          /\ Py.dict_lookup d "task_type" = Some intent).
Proof.
  intros self env intent content uq. split; [|split].
  - intros H. split.
    + unfold TaskRouter.execute. destruct intent; try discriminate H; reflexivity.
    + destruct intent; try discriminate H; [left | right]; reflexivity.
  - intros H.
    assert (Hsel : exists h, TaskRouter.select_handler self intent = Ok h).
    { destruct intent; try discriminate H; cbn; eauto. }
    destruct Hsel as [h Hsel].
    exact (execute_task_type self env intent content uq h Hsel).
  - intros H Hnot.
    assert (Hsel : TaskRouter.select_handler self intent = Ok TaskRouter._handle_unknown).
    { destruct intent; try discriminate H; try reflexivity.
      exfalso. exact (Hnot s eq_refl). }
    rewrite (execute_with_handler _ _ _ _ _ _ Hsel). cbn.
    eexists. repeat split.
Qed.

Lemma count_words_bounds (s : string) :
  forall inword : bool,
    0 <= Str.count_words inword s
    /\ 2 * Str.count_words inword s <= Str.len s + (if inword then 0 else 1).
Proof.
  unfold Str.len. induction s as [|c s IH]; intros inword.
  - cbn. destruct inword; lia.
  - cbn [Str.count_words String.length]. rewrite Nat2Z.inj_succ.
    destruct (Str.isspace c).
    + destruct (IH false) as [H0 H1]. destruct inword; lia.
    + destruct (IH true) as [H0 H1]. destruct inword; lia.
Qed.

Lemma lstrip_empty_iff (s : string) :
  Str.lstrip s = "" <-> all_chars Str.isspace s = true.
Proof.
  induction s as [|c s IH]; [cbn; tauto|]. cbn.
  destruct (Str.isspace c); cbn; [exact IH|]. split; discriminate.
Qed.

Lemma rstrip_nonspace_head (c : ascii) (s : string) :
  Str.isspace c = false -> Str.rstrip (String c s) <> "".
Proof.
  intros Hc. cbn. destruct (Str.rstrip s); [rewrite Hc|]; discriminate.
Qed.

Lemma strip_empty_iff (s : string) :
  Str.strip s = "" <-> all_chars Str.isspace s = true.
Proof.
  unfold Str.strip. rewrite <- lstrip_empty_iff. split.
  - intros H. destruct (Str.lstrip s) as [|c t] eqn:E; [reflexivity|].
    exfalso. revert H. apply rstrip_nonspace_head.
    clear -E. induction s as [|a s IH]; [discriminate E|]. cbn in E.
    destruct (Str.isspace a) eqn:Ha; [exact (IH E)|]. now injection E as <- _.
  - intros ->. reflexivity.
Qed.

Lemma count_words_zero_iff (s : string) :
  Str.count_words false s = 0 <-> all_chars Str.isspace s = true.
Proof.
  induction s as [|c s IH]; [cbn; tauto|]. cbn.
  destruct (Str.isspace c); cbn; [exact IH|].
  pose proof (count_words_bounds s true). split; [lia | discriminate].
Qed.

(** X15. The text-extraction handler returns the content itself, its length
    as [character_count], and a [word_count] that is non-negative, at most
    half the length rounded up, and zero exactly when the content is empty
    or white space. *)
Theorem text_extraction_counts :
  forall (env : Env) (content : string) (user_query : option string),
  exists d words,
    TaskRouter.execute (TaskRouter.init env) env (VStr "text_extraction") content user_query
    = Ok (VDict d)
    /\ Py.dict_lookup d "extracted_text" = Some (VStr content)
    /\ Py.dict_lookup d "success" = Some (VBool true)
    /\ Py.dict_lookup d "character_count" = Some (VInt (Str.len content))
    /\ Py.dict_lookup d "word_count" = Some (VInt words)
    /\ 0 <= words
    /\ 2 * words <= Str.len content + 1
    /\ (words = 0 <-> Str.strip content = "").
Proof.
  intros env content uq. eexists _, (Str.count_words false content).
  split; [reflexivity|]. repeat split; try reflexivity;
    try apply (count_words_bounds content false).
  - intros H. apply strip_empty_iff, count_words_zero_iff, H.
  - intros H. apply count_words_zero_iff, strip_empty_iff, H.
Qed.

(** X14. For an intent string outside the routing table the result has
    [success] false and a [content_preview] of at most 203 characters: the
    content itself up to 200 characters, else its first 200 characters
    followed by an ellipsis. *)
Theorem unknown_intent_echoes_bounded_preview :
  forall (env : Env) (intent content : string) (user_query : option string),
    ~ In intent routed_intents ->
    exists d p,
      TaskRouter.execute (TaskRouter.init env) env (VStr intent) content user_query
      = Ok (VDict d)
      /\ Py.dict_lookup d "success" = Some (VBool false)
      /\ Py.dict_lookup d "content_preview" = Some (VStr p)
      /\ Str.len p <= 203
      /\ (Str.len content <= 200 -> p = content)
      /\ (200 < Str.len content -> p = Str.take 200 content +:+ "...").
Proof.
  intros env intent content uq Hnot.
  pose proof (select_handler_string (TaskRouter.init env) intent) as Hsel.
  rewrite (map_lookup_unrouted env intent Hnot) in Hsel. cbn [from_option id] in Hsel.
  rewrite (execute_with_handler _ _ _ _ _ _ Hsel). cbn -[Z.ltb Str.len Str.take String.append].
  do 2 eexists. split; [reflexivity|]. split; [reflexivity|]. split; [reflexivity|].
  exact (preview_bound 200 content).
Qed.

Lemma unknown_intent_echoes_bounded_preview_witness :
  exists d p,
    TaskRouter.execute (TaskRouter.init Sample.offline) Sample.offline
      (VStr "translate") "Bonjour tout le monde" None = Ok (VDict d)
    /\ Py.dict_lookup d "success" = Some (VBool false)
    /\ Py.dict_lookup d "content_preview" = Some (VStr p)
    /\ Str.len p <= 203
    /\ (Str.len "Bonjour tout le monde" <= 200 -> p = "Bonjour tout le monde")
    /\ (200 < Str.len "Bonjour tout le monde"
        -> p = Str.take 200 "Bonjour tout le monde" +:+ "...").
Proof.
  exact (unknown_intent_echoes_bounded_preview Sample.offline "translate"
           "Bonjour tout le monde" None
           ltac:(cbn; intros H; repeat (destruct H as [H|H]; [discriminate H|]); exact H)).
Defined.


Lemma search_unfold (ic : bool) (r : Re.regex) (s : string) :
  Re.search ic r s =
  match Re.run ic (Re.Group 0 r) s [] with
  | (_, caps) :: _ => Some {| Re.captured := caps |}
  | [] => match s with
          | EmptyString => None
          | String _ s' => Re.search ic r s'
          end
  end.
Proof. destruct s; reflexivity. Qed.

(** [extract_youtube_url]'s search started at a link: the head of the
    pattern matches [prefix] in one way, the video id follows and ends at
    [after] *)
Lemma search_at_link (prefix vid after : string) (caps0 : Re.captures) :
  Re.run true YoutubeExtractor.url_head (prefix +:+ (vid +:+ after)) []
  = [(vid +:+ after, caps0)] ->
  video_id_like vid = true ->
  match after with
  | EmptyString => True
  | String c _ =>
      Re.char_matches true (Re.CNotIn [Re.ISpace; Re.IChar "&"%char]) c = false
  end ->
  Re.search true YoutubeExtractor.extract_pattern (prefix +:+ (vid +:+ after))
  = Some {| Re.captured := (0%nat, prefix +:+ vid) :: (4%nat, vid) :: caps0 |}.
Proof.
  intros Hhead Hid Hafter. unfold video_id_like in Hid.
  apply andb_prop in Hid as [Hne Hall].
  destruct (plus_run_longest true (Re.CNotIn [Re.ISpace; Re.IChar "&"%char]) after
              Hafter vid Hne) as [others Hplus].
  { revert Hall. apply all_chars_impl. intros c Hc. cbn.
    apply andb_prop in Hc as [H1 H2]. apply negb_true_iff in H1, H2.
    now rewrite H1, H2. }
  rewrite search_unfold. unfold YoutubeExtractor.extract_pattern. cbn [Re.run].
  rewrite Hhead. cbn [flat_map Re.run]. rewrite Hplus. cbn [map app].
  rewrite (consumed_append vid after).
  rewrite <- (append_assoc prefix vid after).
  rewrite (consumed_append (prefix +:+ vid) after).
  reflexivity.
Qed.

Lemma plus_run_weaker (s : string) :
  Re.plus_run true (Re.CNotIn [Re.ISpace; Re.IChar "&"%char]) s <> [] ->
  Re.plus_run true (Re.CNotIn [Re.ISpace]) s <> [].
Proof.
  destruct s as [|a s]; [intros H; exact H|]. cbn.
  destruct (Str.isspace a); cbn; [intros H; exact H|].
  intros _. destruct (Re.plus_run true (Re.CNotIn [Re.ISpace]) s); discriminate.
Qed.

Lemma extract_match_is_detect_match (s : string) :
  Re.run true (Re.Group 0 YoutubeExtractor.extract_pattern) s [] <> [] ->
  Re.run true (Re.Group 0 YoutubeExtractor.detect_pattern) s [] <> [].
Proof.
  intros H Hnil. apply H. apply run_nil_iff. apply run_nil_iff in Hnil.
  cbn [rests YoutubeExtractor.extract_pattern YoutubeExtractor.detect_pattern] in *.
  unfold YoutubeExtractor.extract_pattern, YoutubeExtractor.detect_pattern in *.
  cbn [rests] in *.
  induction (rests true YoutubeExtractor.url_head s) as [|x l IH]; [reflexivity|].
  cbn [flat_map] in *. apply app_eq_nil in Hnil as [Hx Hl].
  rewrite (IH Hl), app_nil_r.
  destruct (Re.plus_run true (Re.CNotIn [Re.ISpace; Re.IChar "&"%char]) x) eqn:E;
    [reflexivity|].
  exfalso. apply (plus_run_weaker x); [rewrite E; discriminate | exact Hx].
Qed.

Lemma search_detects_what_extracts (text : string) :
  Re.search true YoutubeExtractor.extract_pattern text <> None ->
  Re.search true YoutubeExtractor.detect_pattern text <> None.
Proof.
  induction text as [|a text IH]; cbn [Re.search]; intros H.
  - destruct (Re.run true (Re.Group 0 YoutubeExtractor.extract_pattern) "" [])
      as [|[x c] l] eqn:E; [contradiction|].
    pose proof (extract_match_is_detect_match "") as Hd. rewrite E in Hd.
    destruct (Re.run true (Re.Group 0 YoutubeExtractor.detect_pattern) "" [])
      as [|[y c'] l']; [exfalso; apply Hd; [discriminate | reflexivity] | discriminate].
  - destruct (Re.run true (Re.Group 0 YoutubeExtractor.extract_pattern) (String a text) [])
      as [|[x c] l] eqn:E.
    + destruct (Re.run true (Re.Group 0 YoutubeExtractor.detect_pattern) (String a text) [])
        as [|[y c'] l']; [exact (IH H) | discriminate].
    + pose proof (extract_match_is_detect_match (String a text)) as Hd. rewrite E in Hd.
      destruct (Re.run true (Re.Group 0 YoutubeExtractor.detect_pattern) (String a text) [])
        as [|[y c'] l']; [exfalso; apply Hd; [discriminate | reflexivity] | discriminate].
Qed.

(** X16. Every text from which [extract_youtube_url] extracts a link is
    detected by [is_youtube_url]; the converse fails: for
    "https://youtu.be/&list=PL1" detection succeeds and extraction returns
    the empty string. *)
Theorem extracted_link_is_detected :
  (forall text : string,
      YoutubeExtractor.extract_youtube_url text <> "" ->
      YoutubeExtractor.is_youtube_url text = true)
  /\ (exists text : string,
         YoutubeExtractor.is_youtube_url text = true
         /\ YoutubeExtractor.extract_youtube_url text = "").
Proof.
  split.
  - intros text Hne. unfold YoutubeExtractor.is_youtube_url. cbn [existsb].
    rewrite orb_false_r. apply bool_decide_eq_true.
    apply not_eq_None_Some. apply search_detects_what_extracts.
    intros Hnone. apply Hne. unfold YoutubeExtractor.extract_youtube_url.
    cbn [YoutubeExtractor.extract_loop]. now rewrite Hnone.
  - exists "https://youtu.be/&list=PL1". split; vm_compute; reflexivity.
Qed.

(** X17. [extract_youtube_url] returns the empty string exactly when its
    pattern matches nowhere in the text, and every link it returns starts
    with "http". *)
Theorem extracted_link_starts_with_http :
  forall text : string,
    (YoutubeExtractor.extract_youtube_url text = ""
     <-> Re.search true YoutubeExtractor.extract_pattern text = None)
    /\ (YoutubeExtractor.extract_youtube_url text <> "" ->
        Str.startswith "http" (YoutubeExtractor.extract_youtube_url text) = true).
Proof.
  intros text. split; [split; [apply extract_empty_no_match|]|].
  - intros H. unfold YoutubeExtractor.extract_youtube_url.
    cbn [YoutubeExtractor.extract_loop]. now rewrite H.
  - unfold YoutubeExtractor.extract_youtube_url. cbn [YoutubeExtractor.extract_loop].
    destruct (Re.search true YoutubeExtractor.extract_pattern text) as [m|];
      [|intros H; contradiction].
    intros _. destruct (Str.contains "youtu.be" _); [reflexivity|].
    destruct (Str.startswith "http" (YoutubeExtractor.fmt_group (Re.group m 0))) eqn:E;
      [exact E | reflexivity].
Qed.

Lemma run_url_head_watch_link (tail : string) :
  exists caps,
    Re.run true YoutubeExtractor.url_head
      ("https://www.youtube.com/watch?v=" +:+ tail) [] = [(tail, caps)].
Proof. eexists. reflexivity. Qed.

Lemma run_url_head_upper_short_link (tail : string) :
  exists caps,
    Re.run true YoutubeExtractor.url_head ("https://YOUTU.BE/" +:+ tail) []
    = [(tail, caps)].
Proof. eexists. reflexivity. Qed.

(** X18. For a watch link followed by further query parameters,
    [extract_youtube_url] returns the link up to the video id and drops
    everything from the first ampersand on, provided the link is preceded by
    white space or the start of the text and no link can be extracted from
    the text before it. *)
Theorem watch_link_parameters_are_dropped :
  forall (before vid rest : string),
    blank_end before = true ->
    YoutubeExtractor.extract_youtube_url before = "" ->
    video_id_like vid = true ->
    YoutubeExtractor.extract_youtube_url
      (before +:+ ("https://www.youtube.com/watch?v=" +:+ (vid +:+ String "&" rest)))
    = "https://www.youtube.com/watch?v=" +:+ vid.
Proof.
  intros before vid rest Hbefore Hnone Hid.
  apply extract_empty_no_match in Hnone.
  unfold YoutubeExtractor.extract_youtube_url. cbn [YoutubeExtractor.extract_loop].
  rewrite (search_skip true YoutubeExtractor.extract_pattern _
             extract_pattern_nospace before Hbefore Hnone).
  destruct (run_url_head_watch_link (vid +:+ String "&" rest)) as [caps Hhead].
  rewrite (search_at_link _ vid (String "&" rest) caps Hhead Hid eq_refl).
  unfold Re.group. cbn [Re.captured Re.group_lookup Nat.eqb YoutubeExtractor.fmt_group
                          from_option].
  unfold id at 1 2 3.
  destruct (Str.contains "youtu.be" _); reflexivity.
Qed.

Lemma watch_link_parameters_are_dropped_witness :
  YoutubeExtractor.extract_youtube_url
    "Watch https://www.youtube.com/watch?v=dQw4w9WgXcQ&t=42s&list=PL1 tonight"
  = "https://www.youtube.com/watch?v=dQw4w9WgXcQ".
Proof.
  exact (watch_link_parameters_are_dropped "Watch " "dQw4w9WgXcQ"
           "t=42s&list=PL1 tonight" eq_refl eq_refl eq_refl).
Defined.

(** X19. A short link whose host is written in upper case is detected (the
    patterns ignore case) but not normalized: the test for "youtu.be" in the
    match is case-sensitive, so the link is returned as written instead of
    the canonical watch form. *)
Theorem upper_case_host_is_not_normalized :
  forall (before vid after : string),
    blank_end before = true ->
    YoutubeExtractor.extract_youtube_url before = "" ->
    video_id_like vid = true ->
    blank_start after = true ->
    Str.contains "youtu.be" vid = false ->
    YoutubeExtractor.is_youtube_url
      (before +:+ ("https://YOUTU.BE/" +:+ (vid +:+ after))) = true
    /\ YoutubeExtractor.extract_youtube_url
         (before +:+ ("https://YOUTU.BE/" +:+ (vid +:+ after)))
       = "https://YOUTU.BE/" +:+ vid.
Proof.
  intros before vid after Hbefore Hnone Hid Hafter Hvid.
  apply extract_empty_no_match in Hnone.
  assert (Hsearch :
    exists caps,
      Re.search true YoutubeExtractor.extract_pattern
        (before +:+ ("https://YOUTU.BE/" +:+ (vid +:+ after)))
      = Some {| Re.captured := (0%nat, "https://YOUTU.BE/" +:+ vid) :: (4%nat, vid) :: caps |}).
  { rewrite (search_skip true YoutubeExtractor.extract_pattern _
               extract_pattern_nospace before Hbefore Hnone).
    destruct (run_url_head_upper_short_link (vid +:+ after)) as [caps Hhead].
    exists caps.
    exact (search_at_link _ vid after caps Hhead Hid
             (blank_start_stops [Re.ISpace; Re.IChar "&"%char] after
                (or_introl eq_refl) Hafter)). }
  destruct Hsearch as [caps Hsearch]. split.
  - unfold YoutubeExtractor.is_youtube_url. cbn [existsb]. rewrite orb_false_r.
    apply bool_decide_eq_true. apply not_eq_None_Some.
    apply search_detects_what_extracts. rewrite Hsearch. discriminate.
  - unfold YoutubeExtractor.extract_youtube_url. cbn [YoutubeExtractor.extract_loop].
    rewrite Hsearch.
    unfold Re.group. cbn [Re.captured Re.group_lookup Nat.eqb YoutubeExtractor.fmt_group
                            from_option].
    unfold id at 1 2.
    change (Str.contains "youtu.be" ("https://YOUTU.BE/" +:+ vid))
      with (Str.contains "youtu.be" vid).
    rewrite Hvid. reflexivity.
Qed.

Lemma upper_case_host_is_not_normalized_witness :
  YoutubeExtractor.is_youtube_url "Check https://YOUTU.BE/dQw4w9WgXcQ now" = true
  /\ YoutubeExtractor.extract_youtube_url "Check https://YOUTU.BE/dQw4w9WgXcQ now"
     = "https://YOUTU.BE/dQw4w9WgXcQ".
Proof.
  exact (upper_case_host_is_not_normalized "Check " "dQw4w9WgXcQ" " now"
           eq_refl eq_refl eq_refl eq_refl eq_refl).
Defined.

(* ===================================================================== *)
(** ** Properties of the LLM client *)
(* ===================================================================== *)

Lemma library_failure_not_ok {A} (http : LlmClient.Http) (e : exn) (a : A) :
  LlmClient.library_failure http e <> Ok a.
Proof. unfold LlmClient.library_failure. repeat case_match; discriminate. Qed.

Lemma call_llm_no_key (http : LlmClient.Http) (messages : list (string * string))
    (temperature : Q) (max_tokens : Z) (response_format : option value) :
  no_api_key http ->
  LlmClient.call_llm http messages temperature max_tokens response_format
  = Raise (LLMClientError LlmClient.missing_key_message).
Proof.
  intros [H|H]; unfold LlmClient.call_llm, LlmClient._ensure_config; rewrite H;
    reflexivity.
Qed.

(** X20. When LLM_API_KEY is unset or empty, [call_llm] raises the
    configuration error whatever the HTTP library would do, and with this
    client the classifier returns its fall-back record, [summarize_text] and
    [explain_code] return their first failure record with that message as
    [error], and [answer_question] returns [success] false with it. *)
Theorem missing_api_key_fails_every_llm_task :
  forall (http : LlmClient.Http) (env : Env),
    no_api_key http ->
    (forall messages temperature max_tokens response_format,
        call_llm (with_llm_client http env) messages temperature max_tokens response_format
        = Raise (LLMClientError LlmClient.missing_key_message))
    /\ (forall text query,
          IntentClassifier.classify (with_llm_client http env) text query
          = Ok IntentClassifier._get_fallback_intent)
    /\ (forall text,
          Summarizer.summarize_text (with_llm_client http env) text
          = Ok (Summarizer.parse_failure (LLMClientError LlmClient.missing_key_message)))
    /\ (forall code_text,
          CodeExplainer.explain_code (with_llm_client http env) code_text
          = Ok (CodeExplainer.parse_failure (LLMClientError LlmClient.missing_key_message)))
    /\ (forall question context,
          exists d,
            QaHandler.answer_question (with_llm_client http env) question context
            = Ok (VDict d)
            /\ Py.dict_lookup d "success" = Some (VBool false)
            /\ Py.dict_lookup d "error" = Some (VStr LlmClient.missing_key_message)).
Proof.
  intros http env Hkey.
  assert (Hcall : forall m t k f,
             call_llm (with_llm_client http env) m t k f
             = Raise (LLMClientError LlmClient.missing_key_message)).
  { intros. cbn [call_llm with_llm_client]. now apply call_llm_no_key. }
  split; [exact Hcall|]. split; [|split; [|split]].
  - intros text query. apply classify_oracle_unusable.
    intros m t k f. now rewrite Hcall.
  - intros text. unfold Summarizer.summarize_text. now rewrite Hcall.
  - intros code_text. unfold CodeExplainer.explain_code. now rewrite Hcall.
  - intros question context. unfold QaHandler.answer_question. rewrite Hcall.
    eexists. split; [reflexivity|]. split; reflexivity.
Qed.

Lemma missing_api_key_fails_every_llm_task_witness :
  IntentClassifier.classify (with_llm_client Hosted.no_key Sample.offline)
    "I love this product!" None
  = Ok IntentClassifier._get_fallback_intent.
Proof.
  exact (proj1 (proj2 (missing_api_key_fails_every_llm_task Hosted.no_key Sample.offline
                         (or_introl eq_refl)))
           "I love this product!" None).
Defined.

(** X21. [call_llm] returns a string exactly when the key is set, the POST
    returns status 200, the body parses to a JSON object whose [choices] is
    a list starting with an object, whose [message] is an object, whose
    [content] is a string; the string returned is that content. *)
Theorem call_llm_returns_first_choice_content :
  forall (http : LlmClient.Http) (messages : list (string * string))
         (temperature : Q) (max_tokens : Z) (response_format : option value)
         (content : string),
    LlmClient.call_llm http messages temperature max_tokens response_format = Ok content
    <-> exists key resp d first rest message,
        LlmClient.LLM_API_KEY http = Some key
        /\ key <> ""
        /\ LlmClient.post http (LlmClient.LLM_BASE_URL http)
             (LlmClient.payload http messages temperature max_tokens response_format)
             [ ("Authorization", "Bearer " +:+ key);
               ("Content-Type", "application/json") ] 60
           = Ok resp
        /\ LlmClient.status_code resp = 200
        /\ LlmClient.json resp = Ok (VDict d)
        /\ Py.dict_lookup d "choices" = Some (VList (VDict first :: rest))
        /\ Py.dict_lookup first "message" = Some (VDict message)
        /\ Py.dict_lookup message "content" = Some (VStr content).
Proof.
  intros http messages temperature max_tokens response_format content. split.
  - unfold LlmClient.call_llm, LlmClient._ensure_config.
    destruct (LlmClient.LLM_API_KEY http) as [[|c key]|] eqn:Hk;
      cbn [Str.truthy Py.bind]; try discriminate.
    destruct (LlmClient.post http _ _ _ _) as [resp|e] eqn:Hp;
      [|intros H; now apply library_failure_not_ok in H].
    destruct (LlmClient.status_code resp =? 200) eqn:Hs; cbn [negb]; [|discriminate].
    apply Z.eqb_eq in Hs.
    destruct (LlmClient.json resp) as [data|e] eqn:Hj;
      [|intros H; now apply library_failure_not_ok in H].
    destruct data as [| | | | | |d]; cbn [Py.get Py.bind]; try discriminate.
    destruct (Py.dict_lookup d "choices") as [choices|] eqn:Hc;
      cbn [from_option id Py.truthy negb]; [|discriminate].
    destruct (Py.truthy choices) eqn:Ht; cbn [negb]; [|discriminate].
    destruct choices as [| | | |s|[|x rest]|cd]; cbn [getitem0 Py.bind];
      try discriminate.
    { destruct s; cbn [getitem0 Py.get Py.bind]; discriminate. }
    destruct x as [| | | | | |first]; cbn [Py.get Py.bind]; try discriminate.
    destruct (Py.dict_lookup first "message") as [found|] eqn:Hm;
      cbn [from_option id Py.truthy Py.get Py.bind Py.dict_lookup]; [|discriminate].
    destruct found as [| |n|x| |l|message];
      cbn [Py.truthy Py.get Py.bind Py.dict_lookup from_option id];
      try discriminate.
    + destruct b; cbn; discriminate.
    + destruct (negb (n =? 0)); cbn; discriminate.
    + destruct x as [q| |]; cbn [Py.truthy];
        [destruct (negb (Qeq_bool q 0))| |]; cbn; discriminate.
    + destruct (Str.truthy s); cbn; discriminate.
    + destruct l; cbn; discriminate.
    + destruct message as [|kv message']; [cbn; discriminate|].
      cbn [Py.get Py.bind].
      destruct (Py.dict_lookup (kv :: message') "content") as [v|] eqn:Hv;
        cbn [from_option id]; [|discriminate].
      destruct v; try discriminate. intros [= <-].
      exists (String c key), resp, d, first, rest, (kv :: message').
      repeat split; try assumption. discriminate.
  - intros (key & resp & d & first & rest & message & Hk & Hne & Hp & Hs & Hj & Hc & Hm & Hv).
    unfold LlmClient.call_llm, LlmClient._ensure_config. rewrite Hk.
    destruct key as [|c key]; [contradiction|]. cbn [Str.truthy Py.bind].
    rewrite Hp, Hs, Hj. cbn [Z.eqb Pos.eqb negb Py.get Py.bind]. rewrite Hc.
    cbn [from_option id Py.truthy negb getitem0 Py.bind Py.get]. rewrite Hm.
    cbn [from_option id Py.truthy].
    destruct message as [|kv message']; [discriminate Hv|].
    cbn [Py.get Py.bind]. rewrite Hv. reflexivity.
Qed.

(** X22. Every exception that leaves [call_llm] is an [LLMClientError], or
    an exception of the HTTP library that is neither a [RequestException]
    nor a [ValueError] (raised by the POST or by parsing the body), or the
    attribute, type or key error of a status-200 reply whose parsed body has
    another shape than a chat completion. *)
Theorem call_llm_escaping_errors :
  forall (http : LlmClient.Http) (messages : list (string * string))
         (temperature : Q) (max_tokens : Z) (response_format : option value) (e : exn),
    LlmClient.call_llm http messages temperature max_tokens response_format = Raise e ->
    (exists msg, e = LLMClientError msg)
    \/ (LlmClient.is_request_exception http e = false
        /\ LlmClient.is_value_error http e = false
        /\ exists key,
            LlmClient.LLM_API_KEY http = Some key
            /\ (LlmClient.post http (LlmClient.LLM_BASE_URL http)
                  (LlmClient.payload http messages temperature max_tokens response_format)
                  [ ("Authorization", "Bearer " +:+ key);
                    ("Content-Type", "application/json") ] 60
                = Raise e
                \/ exists resp,
                    LlmClient.post http (LlmClient.LLM_BASE_URL http)
                      (LlmClient.payload http messages temperature max_tokens
                         response_format)
                      [ ("Authorization", "Bearer " +:+ key);
                        ("Content-Type", "application/json") ] 60
                    = Ok resp
                    /\ LlmClient.json resp = Raise e))
    \/ (shape_error e
        /\ exists key resp data,
            LlmClient.LLM_API_KEY http = Some key
            /\ LlmClient.post http (LlmClient.LLM_BASE_URL http)
                 (LlmClient.payload http messages temperature max_tokens response_format)
                 [ ("Authorization", "Bearer " +:+ key);
                   ("Content-Type", "application/json") ] 60
               = Ok resp
            /\ LlmClient.status_code resp = 200
            /\ LlmClient.json resp = Ok data).
Proof.
  intros http messages temperature max_tokens response_format e.
  unfold LlmClient.call_llm, LlmClient._ensure_config.
  destruct (LlmClient.LLM_API_KEY http) as [[|c key]|] eqn:Hk;
    cbn [Str.truthy Py.bind]; try (intros [= <-]; left; eauto).
  destruct (LlmClient.post http _ _ _ _) as [resp|e'] eqn:Hp.
  2: { unfold LlmClient.library_failure.
       destruct (LlmClient.is_request_exception http e') eqn:Hr;
         [intros [= <-]; left; eauto|].
       destruct (LlmClient.is_value_error http e') eqn:Hv;
         [intros [= <-]; left; eauto|].
       intros [= <-]. right; left. repeat split; try assumption.
       exists (String c key). split; [reflexivity|]. now left. }
  destruct (LlmClient.status_code resp =? 200) eqn:Hs; cbn [negb];
    [|intros [= <-]; left; eauto].
  apply Z.eqb_eq in Hs.
  destruct (LlmClient.json resp) as [data|e'] eqn:Hj.
  2: { unfold LlmClient.library_failure.
       destruct (LlmClient.is_request_exception http e') eqn:Hr;
         [intros [= <-]; left; eauto|].
       destruct (LlmClient.is_value_error http e') eqn:Hv;
         [intros [= <-]; left; eauto|].
       intros [= <-]. right; left. repeat split; try assumption.
       exists (String c key). split; [reflexivity|]. right. eauto. }
  intros H.
  assert (Hcase : (exists msg, e = LLMClientError msg) \/ shape_error e).
  { revert H.
    destruct data as [| | | | | |d]; cbn [Py.get Py.bind];
      try (intros [= <-]; right; exact I).
    destruct (from_option id VNone (Py.dict_lookup d "choices"))
      as [| | | |s|[|x rest]|cd]; cbn [Py.truthy negb getitem0 Py.bind];
      try (intros [= <-]; left; eauto; fail).
    - destruct b; cbn [negb]; intros [= <-]; [right; exact I | left; eauto].
    - destruct (negb (n =? 0)); cbn [negb]; intros [= <-]; [right; exact I | left; eauto].
    - destruct x as [q| |]; cbn [Py.truthy negb];
        [destruct (negb (Qeq_bool q 0)); cbn [negb]| |]; intros [= <-];
        try (right; exact I); left; eauto.
    - destruct s; cbn [Str.truthy negb getitem0 Py.bind Py.get]; intros [= <-];
        [left; eauto | right; exact I].
    - unfold Py.get, Py.bind. repeat case_match; intros Hx; simplify_eq;
        try (left; eauto; fail); right; exact I.
    - destruct cd; cbn [negb Py.bind]; intros [= <-];
        [left; eauto | right; reflexivity]. }
  destruct Hcase as [Hl|Hsh]; [now left|].
  right; right. split; [exact Hsh|]. exists (String c key), resp, data. auto.
Qed.

Lemma call_llm_escaping_errors_witness :
  shape_error (AttributeError "'list' object has no attribute 'get'")
  /\ exists key resp data,
      LlmClient.LLM_API_KEY (Hosted.provider Hosted.list_reply) = Some key
      /\ LlmClient.post (Hosted.provider Hosted.list_reply)
           (LlmClient.LLM_BASE_URL (Hosted.provider Hosted.list_reply))
           (LlmClient.payload (Hosted.provider Hosted.list_reply)
              [("user", "hello")] (2 # 10)%Q 800 None)
           [ ("Authorization", "Bearer " +:+ key);
             ("Content-Type", "application/json") ] 60
         = Ok resp
      /\ LlmClient.status_code resp = 200
      /\ LlmClient.json resp = Ok data.
Proof.
  destruct (call_llm_escaping_errors (Hosted.provider Hosted.list_reply)
              [("user", "hello")] (2 # 10)%Q 800 None
              (AttributeError "'list' object has no attribute 'get'") eq_refl)
    as [[msg Hm] | [(_ & _ & key & _ & [Hp | (resp & Hp & Hj)]) | H]].
  - discriminate Hm.
  - cbn in Hp. discriminate Hp.
  - cbn in Hp. injection Hp as <-. cbn in Hj. discriminate Hj.
  - exact H.
Defined.

(* ===================================================================== *)
(** ** Properties of the task modules *)
(* ===================================================================== *)

Lemma preview_is_take (n : nat) (s : string) :
  (if Z.of_nat n <? Str.len s then Str.take n s else s) = Str.take n s.
Proof.
  destruct (Z.ltb_spec (Z.of_nat n) (Str.len s)) as [H|H]; [reflexivity|].
  symmetry. apply take_all. unfold Str.len in H. lia.
Qed.

Lemma summarizer_preview (text : string) :
  Summarizer.text_preview text = Str.take 4000 text.
Proof. exact (preview_is_take 4000 text). Qed.

Lemma sentiment_preview (text : string) :
  Sentiment.text_preview text = Str.take 500 text.
Proof. exact (preview_is_take 500 text). Qed.

Lemma take_nonempty (n : nat) (a b : string) :
  Str.take (S n) a = Str.take (S n) b -> Str.truthy a = Str.truthy b.
Proof. destruct a, b; cbn; congruence. Qed.

(** X23. [summarize_text] never raises. When the reply parses to a JSON
    object the result has [success] true, each of the three summaries being
    the object's field or else its placeholder (so an empty object is a
    success made of placeholders); in every other case the result has
    [success] false, three bullet strings and an [error] message. *)
Theorem summarize_text_always_answers :
  forall (env : Env) (text : string),
    (exists content d,
        call_llm env (Summarizer.messages text) (3 # 10)%Q 500
          (Some (VDict [("type", VStr "json_object")])) = Ok content
        /\ json_loads env content = Ok (VDict d)
        /\ Summarizer.summarize_text env text
           = Ok (VDict [ ("one_line",
                          from_option id (VStr "Summary not available")
                            (Py.dict_lookup d "one_line"));
                         ("bullets",
                          from_option id (Py.vstr_list ["Point 1"; "Point 2"; "Point 3"])
                            (Py.dict_lookup d "bullets"));
                         ("five_sentences",
                          from_option id (VStr "Detailed summary not available.")
                            (Py.dict_lookup d "five_sentences"));
                         ("success", VBool true) ]))
    \/ ((forall content d,
            call_llm env (Summarizer.messages text) (3 # 10)%Q 500
              (Some (VDict [("type", VStr "json_object")])) = Ok content ->
            json_loads env content <> Ok (VDict d))
        /\ exists one_line b1 b2 b3 five msg,
            Summarizer.summarize_text env text
            = Ok (VDict [ ("one_line", VStr one_line);
                          ("bullets", Py.vstr_list [b1; b2; b3]);
                          ("five_sentences", VStr five);
                          ("success", VBool false);
                          ("error", VStr msg) ])).
Proof.
  intros env text. unfold Summarizer.summarize_text.
  destruct (call_llm env _ _ _ _) as [content|e] eqn:Hc; cbn [Py.bind].
  - destruct (json_loads env content) as [parsed|e] eqn:Hj; cbn [Py.bind].
    + destruct parsed as [| | | | | |d].
      7: { left. exists content, d. repeat split; assumption. }
      all: right; split;
        [intros c' d' [= <-]; rewrite Hj; discriminate
        |cbn; unfold Summarizer.other_failure; do 6 eexists; reflexivity].
    + right. split; [intros c' d' [= <-]; rewrite Hj; discriminate|].
      cbn [try_except]. unfold Summarizer.parse_failure, Summarizer.other_failure.
      destruct e; do 6 eexists; reflexivity.
  - right. split; [discriminate|].
    cbn [try_except]. unfold Summarizer.parse_failure, Summarizer.other_failure.
    destruct e; do 6 eexists; reflexivity.
Qed.

(** X24. [explain_code] never raises. When the reply parses to a JSON object
    the result has [success] true with each field taken from the object or
    else its default; in every other case the result has [success] false,
    language "unknown", both complexities "O(?)", one bug entry and an
    [error] message. *)
Theorem explain_code_always_answers :
  forall (env : Env) (code_text : string),
    (exists content d,
        call_llm env (CodeExplainer.messages code_text) (2 # 10)%Q 600
          (Some (VDict [("type", VStr "json_object")])) = Ok content
        /\ json_loads env content = Ok (VDict d)
        /\ CodeExplainer.explain_code env code_text
           = Ok (VDict [ ("explanation",
                          from_option id (VStr "Code explanation not available")
                            (Py.dict_lookup d "explanation"));
                         ("language",
                          from_option id (VStr "unknown") (Py.dict_lookup d "language"));
                         ("bugs", from_option id (VList []) (Py.dict_lookup d "bugs"));
                         ("time_complexity",
                          from_option id (VStr "O(?)")
                            (Py.dict_lookup d "time_complexity"));
                         ("space_complexity",
                          from_option id (VStr "O(?)")
                            (Py.dict_lookup d "space_complexity"));
                         ("success", VBool true) ]))
    \/ ((forall content d,
            call_llm env (CodeExplainer.messages code_text) (2 # 10)%Q 600
              (Some (VDict [("type", VStr "json_object")])) = Ok content ->
            json_loads env content <> Ok (VDict d))
        /\ exists explanation bug msg,
            CodeExplainer.explain_code env code_text
            = Ok (VDict [ ("explanation", VStr explanation);
                          ("language", VStr "unknown");
                          ("bugs", Py.vstr_list [bug]);
                          ("time_complexity", VStr "O(?)");
                          ("space_complexity", VStr "O(?)");
                          ("success", VBool false);
                          ("error", VStr msg) ])).
Proof.
  intros env code_text. unfold CodeExplainer.explain_code.
  destruct (call_llm env _ _ _ _) as [content|e] eqn:Hc; cbn [Py.bind].
  - destruct (json_loads env content) as [parsed|e] eqn:Hj; cbn [Py.bind].
    + destruct parsed as [| | | | | |d].
      7: { left. exists content, d. repeat split; assumption. }
      all: right; split;
        [intros c' d' [= <-]; rewrite Hj; discriminate
        |cbn; unfold CodeExplainer.other_failure; do 3 eexists; reflexivity].
    + right. split; [intros c' d' [= <-]; rewrite Hj; discriminate|].
      cbn [try_except]. unfold CodeExplainer.parse_failure, CodeExplainer.other_failure.
      destruct e; do 3 eexists; reflexivity.
  - right. split; [discriminate|].
    cbn [try_except]. unfold CodeExplainer.parse_failure, CodeExplainer.other_failure.
    destruct e; do 3 eexists; reflexivity.
Qed.

Lemma rstrip_idem (s : string) : Str.rstrip (Str.rstrip s) = Str.rstrip s.
Proof.
  induction s as [|c s IH]; [reflexivity|]. cbn [Str.rstrip].
  destruct (Str.rstrip s) as [|c' t] eqn:E.
  - destruct (Str.isspace c) eqn:Hc; [reflexivity|]. cbn. now rewrite Hc.
  - cbn [Str.rstrip]. cbn [Str.rstrip] in IH. rewrite IH. reflexivity.
Qed.

Lemma lstrip_head (s : string) :
  Str.lstrip s = "" \/ exists c t, Str.lstrip s = String c t /\ Str.isspace c = false.
Proof.
  induction s as [|c s IH]; [now left|]. cbn.
  destruct (Str.isspace c) eqn:Hc; [exact IH|]. right. eauto.
Qed.

Lemma strip_idem (s : string) : Str.strip (Str.strip s) = Str.strip s.
Proof.
  unfold Str.strip. destruct (lstrip_head s) as [->|(c & t & -> & Hc)]; [reflexivity|].
  assert (H : Str.lstrip (Str.rstrip (String c t)) = Str.rstrip (String c t)).
  { cbn [Str.rstrip]. destruct (Str.rstrip t); [rewrite Hc|]; cbn; now rewrite Hc. }
  rewrite H. apply rstrip_idem.
Qed.

(** X25. [answer_question] never raises: it returns [answer],
    [has_context] and [success]. When the model replies, the result has
    [success] true and its answer is the reply without its leading and
    trailing white space; when the call raises [e], the result has
    [success] false, the text of [e] as [error] and inside the apology that
    is the answer. An empty context is asked as no context, and its result
    differs from that of no context only in [has_context]. *)
Theorem answer_question_always_answers :
  forall (env : Env) (question : string) (context : option string),
    (exists answer ok rest,
        QaHandler.answer_question env question context
        = Ok (VDict ([ ("answer", VStr answer);
                       ("has_context", VBool (QaHandler.has_context context));
                       ("success", VBool ok) ] ++ rest))
        /\ (ok = true ->
            rest = []
            /\ Str.strip answer = answer
            /\ exists reply,
                call_llm env
                  [ ("system", QaHandler.system_message);
                    ("user", QaHandler.user_content question context) ]
                  (7 # 10)%Q 400 None = Ok reply
                /\ answer = Str.strip reply)
        /\ (ok = false ->
            exists e,
              call_llm env
                [ ("system", QaHandler.system_message);
                  ("user", QaHandler.user_content question context) ]
                (7 # 10)%Q 400 None = Raise e
              /\ rest = [("error", VStr (exn_str e))]
              /\ answer
                 = "I apologize, but I encountered an error talking to the language model: "
                   +:+ exn_str e
                   +:+ ". Please check your API key and network, then try again."))
    /\ Py.bind (QaHandler.answer_question env question (Some ""))
         (fun r => Py.setitem r "has_context" (VBool false))
       = QaHandler.answer_question env question None.
Proof.
  intros env question context. split.
  - unfold QaHandler.answer_question.
    destruct (call_llm env _ _ _ _) as [reply|e] eqn:Hcall; cbn [Py.bind try_except].
    + exists (Str.strip reply), true, []. split; [reflexivity|].
      split; [|discriminate]. intros _. split; [reflexivity|].
      split; [apply strip_idem|]. exists reply. split; reflexivity.
    + eexists _, false, _. split; [reflexivity|].
      split; [discriminate|]. intros _. exists e. repeat split.
  - unfold QaHandler.answer_question. cbn [QaHandler.user_content].
    destruct (call_llm env _ _ _ _) as [reply|e]; reflexivity.
Qed.

(** X26. [analyze_sentiment] never raises. A failure has label "UNKNOWN" or
    "NEUTRAL", confidence 0.0 and an [error]; a success needs the loaded
    model, and its justification is the positive sentence only for the label
    "POSITIVE", every other label getting the negative sentence. *)
Theorem analyze_sentiment_always_answers :
  forall (b : Sentiment.Backend) (text : string),
    exists label confidence justification ok rest,
      Sentiment.analyze_sentiment b text
      = Ok (VDict ([ ("label", label);
                     ("confidence", confidence);
                     ("justification", VStr justification);
                     ("success", VBool ok) ] ++ rest))
      /\ (ok = true ->
          rest = []
          /\ Sentiment.sentiment_analyzer b <> None
          /\ exists percent,
              justification = if Sentiment.eq_str label "POSITIVE"
                              then Sentiment.positive_text percent
                              else Sentiment.negative_text percent)
      /\ (ok = false ->
          (label = VStr "UNKNOWN" \/ label = VStr "NEUTRAL")
          /\ confidence = VFloat 0
          /\ exists msg, rest = [("error", VStr msg)]).
Proof.
  intros b text. unfold Sentiment.analyze_sentiment.
  destruct (Sentiment.sentiment_analyzer b) as [analyzer|] eqn:Ha.
  2: { eexists _, _, _, false, _. split; [reflexivity|].
       split; [discriminate|]. intros _. split; [now left|]. split; eauto. }
  destruct (negb (Str.truthy (Str.strip (Sentiment.text_preview text)))).
  { eexists _, _, _, false, _. split; [reflexivity|].
    split; [discriminate|]. intros _. split; [now right|]. split; eauto. }
  match goal with
  | |- context [try_except ?body _] => destruct body as [r|e] eqn:Hbody
  end; cbn [try_except].
  - revert Hbody. unfold Py.bind.
    repeat case_match; intros Hx; simplify_eq.
    all: eexists _, _, _, true, []; (split; [reflexivity|]).
    all: split; [|discriminate]; intros _; (split; [reflexivity|]).
    all: split; [discriminate|]; eexists.
    all: match goal with
         | Hl : Sentiment.eq_str _ _ = _ |- _ => rewrite Hl
         end; reflexivity.
  - eexists _, _, _, false, _. split; [reflexivity|].
    split; [discriminate|]. intros _. split; [now left|]. split; eauto.
Qed.

(** X27. With the model loaded, a text whose first 500 characters are all
    white space is answered "NEUTRAL" with the error "Empty text" without
    the model being consulted, also when words follow after the first 500
    characters. *)
Theorem blank_preview_is_not_analyzed :
  forall (b : Sentiment.Backend) (analyzer : string -> result value) (text : string),
    Sentiment.sentiment_analyzer b = Some analyzer ->
    all_chars Str.isspace (Str.take 500 text) = true ->
    Sentiment.analyze_sentiment b text = Ok Sentiment.empty_text.
Proof.
  intros b analyzer text Ha Hblank. unfold Sentiment.analyze_sentiment. rewrite Ha.
  rewrite sentiment_preview. apply strip_empty_iff in Hblank. rewrite Hblank.
  reflexivity.
Qed.

Lemma blank_preview_is_not_analyzed_witness :
  Sentiment.analyze_sentiment (Hosted.model "POSITIVE" (9998 # 10000))
    (repeat_text 500 " " +:+ "I love this product!")
  = Ok Sentiment.empty_text.
Proof.
  exact (blank_preview_is_not_analyzed (Hosted.model "POSITIVE" (9998 # 10000)) _
           (repeat_text 500 " " +:+ "I love this product!") eq_refl
           ltac:(vm_compute; reflexivity)).
Defined.

(** X28. The task modules read a bounded prefix of their input: two texts
    with the same first 4000 characters get the same summary, with the same
    first 500 characters the same sentiment, and two contexts with the same
    first 2000 characters the same answer. *)
Theorem task_modules_read_bounded_prefixes :
  forall (env : Env) (b : Sentiment.Backend) (question t1 t2 : string),
    (Str.take 4000 t1 = Str.take 4000 t2 ->
     Summarizer.summarize_text env t1 = Summarizer.summarize_text env t2)
    /\ (Str.take 500 t1 = Str.take 500 t2 ->
        Sentiment.analyze_sentiment b t1 = Sentiment.analyze_sentiment b t2)
    /\ (Str.take 2000 t1 = Str.take 2000 t2 ->
        QaHandler.answer_question env question (Some t1)
        = QaHandler.answer_question env question (Some t2)).
Proof.
  intros env b question t1 t2. split; [|split]; intros H.
  - unfold Summarizer.summarize_text, Summarizer.messages.
    now rewrite !summarizer_preview, H.
  - unfold Sentiment.analyze_sentiment. now rewrite !sentiment_preview, H.
  - unfold QaHandler.answer_question, QaHandler.user_content.
    pose proof (take_nonempty _ _ _ H) as Hne.
    destruct t1 as [|a1 t1], t2 as [|a2 t2]; try discriminate Hne; [reflexivity|].
    now rewrite H.
Qed.

Lemma task_modules_read_bounded_prefixes_witness :
  Summarizer.summarize_text (Hosted.replying "{}" (VDict []))
    (repeat_text 2000 "ab" +:+ " and the end of the first text")
  = Summarizer.summarize_text (Hosted.replying "{}" (VDict []))
      (repeat_text 2000 "ab" +:+ " but another end here").
Proof.
  exact (proj1 (task_modules_read_bounded_prefixes (Hosted.replying "{}" (VDict []))
                  (Hosted.model "POSITIVE" (9998 # 10000)) "Why?"
                  (repeat_text 2000 "ab" +:+ " and the end of the first text")
                  (repeat_text 2000 "ab" +:+ " but another end here"))
           ltac:(vm_compute; reflexivity)).
Defined.

(* ===================================================================== *)
(** ** The router over the repository's task modules *)
(* ===================================================================== *)

Lemma summarize_text_success (env : Env) (text : string) :
  exists d ok, Summarizer.summarize_text env text = Ok (VDict d)
               /\ Py.dict_lookup d "success" = Some (VBool ok).
Proof.
  unfold Summarizer.summarize_text.
  destruct (call_llm env _ _ _ _) as [content|e]; cbn [Py.bind];
    [destruct (json_loads env content) as [[| | | | | |d]|e]|];
    cbn [Py.bind Py.get try_except]; try destruct e;
    eexists _, _; split; reflexivity.
Qed.

Lemma explain_code_success (env : Env) (code_text : string) :
  exists d ok, CodeExplainer.explain_code env code_text = Ok (VDict d)
               /\ Py.dict_lookup d "success" = Some (VBool ok).
Proof.
  unfold CodeExplainer.explain_code.
  destruct (call_llm env _ _ _ _) as [content|e]; cbn [Py.bind];
    [destruct (json_loads env content) as [[| | | | | |d]|e]|];
    cbn [Py.bind Py.get try_except]; try destruct e;
    eexists _, _; split; reflexivity.
Qed.

Lemma answer_question_success (env : Env) (question : string) (context : option string) :
  exists d ok, QaHandler.answer_question env question context = Ok (VDict d)
               /\ Py.dict_lookup d "success" = Some (VBool ok).
Proof.
  unfold QaHandler.answer_question.
  destruct (call_llm env _ _ _ _) as [reply|e]; cbn [Py.bind try_except];
    eexists _, _; split; reflexivity.
Qed.

Lemma analyze_sentiment_success (b : Sentiment.Backend) (text : string) :
  exists d ok, Sentiment.analyze_sentiment b text = Ok (VDict d)
               /\ Py.dict_lookup d "success" = Some (VBool ok).
Proof.
  unfold Sentiment.analyze_sentiment.
  destruct (Sentiment.sentiment_analyzer b) as [analyzer|];
    [|eexists _, _; split; reflexivity].
  destruct (negb (Str.truthy (Str.strip (Sentiment.text_preview text))));
    [eexists _, _; split; reflexivity|].
  match goal with
  | |- context [try_except ?body _] => destruct body as [r|e] eqn:Hbody
  end; cbn [try_except]; [|eexists _, _; split; reflexivity].
  revert Hbody. unfold Py.bind.
  repeat case_match; intros Hx; simplify_eq; eexists _, _; split; reflexivity.
Qed.

(** X29. With the repository's task modules behind the handlers, [execute]
    on an intent string never returns its own failure record: the result has
    the intent as [task_type], a boolean [success], no top-level [error],
    and [result_type] equal to the intent when it is routed and "unknown"
    otherwise. *)
Theorem repository_handlers_never_fail :
  forall (b : Sentiment.Backend) (env : Env) (intent content : string)
         (user_query : option string),
    exists d ok,
      TaskRouter.execute (TaskRouter.init (with_task_modules b env))
        (with_task_modules b env) (VStr intent) content user_query
      = Ok (VDict d)
      /\ Py.dict_lookup d "task_type" = Some (VStr intent)
      /\ Py.dict_lookup d "success" = Some (VBool ok)
      /\ Py.dict_lookup d "error" = None
      /\ (In intent routed_intents ->
          Py.dict_lookup d "result_type" = Some (VStr intent))
      /\ (~ In intent routed_intents ->
          Py.dict_lookup d "result_type" = Some (VStr "unknown")).
Proof.
  intros b env intent content user_query.
  unfold TaskRouter.execute, TaskRouter.select_handler, TaskRouter.init.
  cbn [TaskRouter.task_map TaskRouter.map_lookup Py.bind].
  repeat match goal with
         | |- context [String.eqb ?k intent] =>
             let E := fresh "E" in
             destruct (String.eqb k intent) eqn:E;
             [apply String.eqb_eq in E; subst intent | apply String.eqb_neq in E]
         end; cbn [from_option id].
  - eexists _, _. repeat split. intros Hn. exfalso. apply Hn. cbn. tauto.
  - eexists _, _. repeat split. intros Hn. exfalso. apply Hn. cbn. tauto.
  - unfold TaskRouter._handle_summarization. cbn [summarize_text with_task_modules].
    destruct (summarize_text_success env content) as (d & ok & -> & Hs).
    cbn [Py.bind Py.get]. rewrite Hs. cbn.
    eexists _, _. repeat split. intros Hn. exfalso. apply Hn. cbn. tauto.
  - unfold TaskRouter._handle_sentiment. cbn [analyze_sentiment with_task_modules].
    destruct (analyze_sentiment_success b content) as (d & ok & -> & Hs).
    cbn [Py.bind Py.get]. rewrite Hs. cbn.
    eexists _, _. repeat split. intros Hn. exfalso. apply Hn. cbn. tauto.
  - unfold TaskRouter._handle_code. cbn [explain_code with_task_modules].
    destruct (explain_code_success env content) as (d & ok & -> & Hs).
    cbn [Py.bind Py.get]. rewrite Hs. cbn.
    eexists _, _. repeat split. intros Hn. exfalso. apply Hn. cbn. tauto.
  - unfold TaskRouter._handle_qa. cbn [answer_question with_task_modules].
    assert (Hq : forall question,
               exists d ok,
                 QaHandler.answer_question env question (Some content) = Ok (VDict d)
                 /\ Py.dict_lookup d "success" = Some (VBool ok))
      by (intros; apply answer_question_success).
    destruct user_query as [uq|]; [destruct (Str.truthy uq)|].
    all: match goal with
         | |- context [QaHandler.answer_question _ ?q (Some _)] =>
             destruct (Hq q) as (d & ok & -> & Hs)
         end.
    all: cbn [Py.bind Py.get]; rewrite Hs; cbn.
    all: eexists _, _; repeat split; intros Hn; exfalso; apply Hn; cbn; tauto.
  - eexists _, _. repeat split.
  - eexists _, _. repeat split; try reflexivity.
    intros Hin. cbn in Hin. exfalso. intuition congruence.
Qed.

